(** * GRR client store (MySQL back-end): a shallow embedding

    Source: grr/server/grr_response_server/databases/mysql_clients.py
    (class MySQLDBClientMixin).

    The methods of the mixin are sequences of SQL statements run through a
    cursor.  Each table is a finite map (or, where row order is observable, a
    list of rows), a statement is a state transformer that either returns or
    raises, and a method is the composition of its statements in a small
    state-and-exception monad.  Mutable Python objects handed in by the
    caller (a snapshot whose startup_info is detached and restored, a stats
    sample whose timestamp is filled in) live in the state next to the
    database, so that what the caller observes afterwards can be stated. *)

From Stdlib Require Import ZArith String List Lia.
From stdpp Require Import base option list gmap strings numbers sorting.
From Equations Require Import Equations.
From Equations.Prop Require Import Logic.

Local Open Scope Z_scope.

(** ** Python values, exceptions and control flow *)

Abbreviation blob := string (only parsing).
Abbreviation ClientID := Z (only parsing).
Abbreviation RDFDatetime := Z (only parsing).

(** MySQLdb.constants.ER *)
Definition NO_REFERENCED_ROW_2 : Z := 1452.
Definition ROW_IS_REFERENCED_2 : Z := 1451.
Definition DUP_ENTRY : Z := 1062.
Definition PARSE_ERROR : Z := 1064.

Inductive Exception : Type :=
| UnknownClientError (client_id : ClientID)
| AtLeastOneUnknownClientError (client_ids : list ClientID)
| IntegrityError (errno : Z)
| ProgrammingError (errno : Z)
| IndexError
| AttributeError
| TypeError
| NotImplementedError.

Inductive Outcome (A : Type) : Type :=
| Return (a : A)
| Raise (e : Exception).
Arguments Return {A} a.
Arguments Raise {A} e.

(** A computation over a state [S]: the state reached and how it ended.
    The state is kept when an exception is raised: what was written before
    the failing statement is still there until the transaction rolls back. *)
Definition Py (S A : Type) : Type := S -> S * Outcome A.

Definition ret {S A} (a : A) : Py S A := fun s => (s, Return a).

Definition raise {S A} (e : Exception) : Py S A := fun s => (s, Raise e).

Definition bind {S A B} (m : Py S A) (k : A -> Py S B) : Py S B :=
  fun s => match m s with
           | (s', Return a) => k a s'
           | (s', Raise e) => (s', Raise e)
           end.

Notation "x <- m ;; k" := (bind m (fun x => k))
  (at level 100, m at next level, right associativity).
Notation "m ;;; k" := (bind m (fun _ => k))
  (at level 100, right associativity).

Definition gets {S A} (f : S -> A) : Py S A := fun s => (s, Return (f s)).

Definition modify {S} (f : S -> S) : Py S unit := fun s => (f s, Return tt).

(** try: body / except: handler.  The handler sees every exception and
    re-raises the ones its except clause does not name. *)
Definition try_except {S A} (body : Py S A) (handler : Exception -> Py S A)
  : Py S A :=
  fun s => match body s with
           | (s', Return a) => (s', Return a)
           | (s', Raise e) => handler e s'
           end.

(** try: body / finally: fin.  [fin] runs however [body] ended. *)
Definition try_finally {S A} (body : Py S A) (fin : Py S unit) : Py S A :=
  fun s => match body s with
           | (s', o) => match fin s' with
                        | (s'', Return _) => (s'', o)
                        | (s'', Raise e) => (s'', Raise e)
                        end
           end.

(** for x in xs: body x *)
Fixpoint for_each {S A} (xs : list A) (body : A -> Py S unit) : Py S unit :=
  match xs with
  | [] => ret tt
  | x :: xs' => body x ;;; for_each xs' body
  end.

(** Python truth value testing ([if x:]). *)
Class PyBool (A : Type) := py_bool : A -> bool.

#[export] Instance list_PyBool {A} : PyBool (list A) :=
  fun l => match l with [] => false | _ => true end.
#[export] Instance string_PyBool : PyBool string :=
  fun s => match s with EmptyString => false | _ => true end.
#[export] Instance option_PyBool {A} `{PyBool A} : PyBool (option A) :=
  fun o => match o with None => false | Some a => py_bool a end.

(** ** The tables *)

(** clients: one row per client, primary key client_id (the key of the map).
    Every column but the key is nullable. *)
Record ClientRow : Type := mkClientRow {
  certificate : option blob;
  first_seen : option Z;
  last_ping : option Z;
  last_clock : option Z;
  last_ip : option blob;
  last_foreman : option Z;
  last_snapshot_timestamp : option Z;
  last_startup_timestamp : option Z;
  last_crash_timestamp : option Z;
  last_version_string : option string;
  last_platform : option string;
  last_platform_release : option string;
  last_fleetspeak_validation_info : option blob;
}.

(** The row an INSERT creates before its column list is applied. *)
Definition default_row : ClientRow :=
  mkClientRow None None None None None None None None None None None None None.

(** One assignment [column = value] of an INSERT or UPDATE on clients. *)
Inductive Assign : Type :=
| set_certificate (v : option blob)
| set_first_seen (v : option Z)
| set_last_ping (v : option Z)
| set_last_clock (v : option Z)
| set_last_ip (v : option blob)
| set_last_foreman (v : option Z)
| set_last_snapshot_timestamp (v : option Z)
| set_last_startup_timestamp (v : option Z)
| set_last_crash_timestamp (v : option Z)
| set_last_version_string (v : option string)
| set_last_platform (v : option string)
| set_last_platform_release (v : option string)
| set_last_fleetspeak_validation_info (v : option blob).

Definition assign (a : Assign) (r : ClientRow) : ClientRow :=
  let 'mkClientRow crt first ping clk ip foreman snap start crash ver plat rel fsvi := r in
  match a with
  | set_certificate v => mkClientRow v first ping clk ip foreman snap start crash ver plat rel fsvi
  | set_first_seen v => mkClientRow crt v ping clk ip foreman snap start crash ver plat rel fsvi
  | set_last_ping v => mkClientRow crt first v clk ip foreman snap start crash ver plat rel fsvi
  | set_last_clock v => mkClientRow crt first ping v ip foreman snap start crash ver plat rel fsvi
  | set_last_ip v => mkClientRow crt first ping clk v foreman snap start crash ver plat rel fsvi
  | set_last_foreman v => mkClientRow crt first ping clk ip v snap start crash ver plat rel fsvi
  | set_last_snapshot_timestamp v => mkClientRow crt first ping clk ip foreman v start crash ver plat rel fsvi
  | set_last_startup_timestamp v => mkClientRow crt first ping clk ip foreman snap v crash ver plat rel fsvi
  | set_last_crash_timestamp v => mkClientRow crt first ping clk ip foreman snap start v ver plat rel fsvi
  | set_last_version_string v => mkClientRow crt first ping clk ip foreman snap start crash v plat rel fsvi
  | set_last_platform v => mkClientRow crt first ping clk ip foreman snap start crash ver v rel fsvi
  | set_last_platform_release v => mkClientRow crt first ping clk ip foreman snap start crash ver plat v fsvi
  | set_last_fleetspeak_validation_info v => mkClientRow crt first ping clk ip foreman snap start crash ver plat rel v
  end.

(** SET a, b, c: the assignments applied left to right. *)
Definition assign_all (asg : list Assign) (r : ClientRow) : ClientRow :=
  foldl (fun r a => assign a r) r asg.

(** client_stats: primary key (client_id, timestamp).  Kept as a list of
    rows because DELETE ... LIMIT removes rows in storage order. *)
Record StatsRow : Type := mkStatsRow {
  stats_client_id : Z;
  stats_timestamp : Z;
  stats_payload : blob;
}.

(** client_labels: unique on the whole tuple. *)
Record LabelRow : Type := mkLabelRow {
  label_client_id : Z;
  label_owner_username_hash : blob;
  label_owner_username : string;
  label_label : string;
}.

#[export] Instance LabelRow_eq_dec : EqDecision LabelRow.
Proof. solve_decision. Defined.

(** The database: the client table, the history streams keyed by
    (client_id, timestamp), the stats stream and the two indexes. *)
Record DB : Type := mkDB {
  clients : gmap Z ClientRow;
  client_snapshot_history : gmap (Z * Z) blob;
  client_startup_history : gmap (Z * Z) blob;
  client_crash_history : gmap (Z * Z) blob;
  client_stats : list StatsRow;
  (* (client_id, keyword_hash) -> (keyword, timestamp) *)
  client_keywords : gmap (Z * blob) (string * Z);
  client_labels : list LabelRow;
}.

Definition with_clients (f : gmap Z ClientRow -> gmap Z ClientRow) (db : DB) : DB :=
  mkDB (f (clients db)) (client_snapshot_history db) (client_startup_history db)
       (client_crash_history db) (client_stats db) (client_keywords db)
       (client_labels db).
Definition with_snapshot_history (f : gmap (Z * Z) blob -> gmap (Z * Z) blob) (db : DB) : DB :=
  mkDB (clients db) (f (client_snapshot_history db)) (client_startup_history db)
       (client_crash_history db) (client_stats db) (client_keywords db)
       (client_labels db).
Definition with_startup_history (f : gmap (Z * Z) blob -> gmap (Z * Z) blob) (db : DB) : DB :=
  mkDB (clients db) (client_snapshot_history db) (f (client_startup_history db))
       (client_crash_history db) (client_stats db) (client_keywords db)
       (client_labels db).
Definition with_crash_history (f : gmap (Z * Z) blob -> gmap (Z * Z) blob) (db : DB) : DB :=
  mkDB (clients db) (client_snapshot_history db) (client_startup_history db)
       (f (client_crash_history db)) (client_stats db) (client_keywords db)
       (client_labels db).
Definition with_stats (f : list StatsRow -> list StatsRow) (db : DB) : DB :=
  mkDB (clients db) (client_snapshot_history db) (client_startup_history db)
       (client_crash_history db) (f (client_stats db)) (client_keywords db)
       (client_labels db).
Definition with_keywords (f : gmap (Z * blob) (string * Z) -> gmap (Z * blob) (string * Z)) (db : DB) : DB :=
  mkDB (clients db) (client_snapshot_history db) (client_startup_history db)
       (client_crash_history db) (client_stats db) (f (client_keywords db))
       (client_labels db).
Definition with_labels (f : list LabelRow -> list LabelRow) (db : DB) : DB :=
  mkDB (clients db) (client_snapshot_history db) (client_startup_history db)
       (client_crash_history db) (client_stats db) (client_keywords db)
       (f (client_labels db)).

Definition empty_db : DB := mkDB ∅ ∅ ∅ ∅ [] ∅ [].

(** A state that holds the database, possibly next to caller-owned objects. *)
Class HasDB (S : Type) := {
  get_db : S -> DB;
  set_db : DB -> S -> S;
}.

#[export] Instance DB_HasDB : HasDB DB :=
  {| get_db := fun db => db; set_db := fun db _ => db |}.
#[export] Instance pair_HasDB {O} : HasDB (O * DB) :=
  {| get_db := snd; set_db := fun db s => (fst s, db) |}.

(** cursor.execute of a statement: it changes the database or fails with a
    MySQL error and changes nothing. *)
Definition execute {S} `{HasDB S} (stmt : DB -> DB + Exception) : Py S unit :=
  fun s => match stmt (get_db s) with
           | inl db' => (set_db db' s, Return tt)
           | inr e => (s, Raise e)
           end.

(** cursor.execute of a query followed by fetchall / fetchone. *)
Definition query {S A} `{HasDB S} (q : DB -> A) : Py S A :=
  fun s => (s, Return (q (get_db s))).

(** Modelled from the spec: mysql_utils.WithTransaction is not part of the
    source file.  Spec section 5: "within one call, either all writes commit
    or none do".  The body runs on the database; when it raises, the database
    is put back as it was at the start and the exception propagates.  Objects
    of the caller are outside the transaction and keep what the body did. *)
Definition WithTransaction {S A} `{HasDB S} (body : Py S A) : Py S A :=
  fun s => match body s with
           | (s', Return a) => (s', Return a)
           | (s', Raise e) => (set_db (get_db s) s', Raise e)
           end.

(** ** db_utils / mysql_utils

    Modelled from the spec: db_utils and mysql_utils are not part of the
    source file.  Spec section 2 takes the identifier codec as total and
    injective, and section 6 the serialisation as an opaque codec; a client
    is named here by its integer key and a time by its microseconds since
    the epoch, which is what TIMESTAMP(6) columns hold. *)
Definition ClientIDToInt (client_id : ClientID) : Z := client_id.
Definition IntToClientID (cid : Z) : ClientID := cid.
Definition RDFDatetimeToTimestamp (t : RDFDatetime) : Z := t.
Definition TimestampToRDFDatetime (t : option Z) : option RDFDatetime := t.

(** ** SQL statements used by the mixin *)

(** Modelled from the spec: the table declarations are not part of the
    source file.  Spec section 3: each stream has one row per (client_id,
    timestamp), and "all history/index writes for an unknown client_id must
    fail ... (referential integrity is enforced at the storage layer)"; the
    except clauses of the writers expect NO_REFERENCED_ROW_2.
    INSERT INTO <history>(client_id, timestamp, payload): the foreign key
    client_id -> clients(client_id) is checked first, then the primary key
    (client_id, timestamp). *)
Definition sql_insert_history (cid ts : Z) (payload : blob)
    (cl : gmap Z ClientRow) (tbl : gmap (Z * Z) blob)
  : gmap (Z * Z) blob + Exception :=
  match cl !! cid with
  | None => inr (IntegrityError NO_REFERENCED_ROW_2)
  | Some _ =>
      match tbl !! (cid, ts) with
      | Some _ => inr (IntegrityError DUP_ENTRY)
      | None => inl (<[(cid, ts) := payload]> tbl)
      end
  end.

Definition insert_snapshot_history (cid ts : Z) (payload : blob) (db : DB)
  : DB + Exception :=
  match sql_insert_history cid ts payload (clients db) (client_snapshot_history db) with
  | inl t => inl (with_snapshot_history (fun _ => t) db)
  | inr e => inr e
  end.

Definition insert_startup_history (cid ts : Z) (payload : blob) (db : DB)
  : DB + Exception :=
  match sql_insert_history cid ts payload (clients db) (client_startup_history db) with
  | inl t => inl (with_startup_history (fun _ => t) db)
  | inr e => inr e
  end.

Definition insert_crash_history (cid ts : Z) (payload : blob) (db : DB)
  : DB + Exception :=
  match sql_insert_history cid ts payload (clients db) (client_crash_history db) with
  | inl t => inl (with_crash_history (fun _ => t) db)
  | inr e => inr e
  end.

(** Modelled from the spec: the table declarations are not part of the
    source file.  Spec section 3: "if last_snapshot_timestamp is non-null, a
    matching row exists in Snapshot History with that exact (client_id,
    timestamp) pair, and likewise for the other ... pointers"; DeleteClient
    says "Clean out foreign keys first".  A pointer that a statement changes
    to a non-null value must name an existing (client_id, timestamp) row of
    its stream. *)
Definition pointer_ok (cid : Z) (old new : option Z) (tbl : gmap (Z * Z) blob) : bool :=
  match new with
  | None => true
  | Some ts => bool_decide (old = new) || bool_decide (is_Some (tbl !! (cid, ts)))
  end.

Definition row_pointers_ok (db : DB) (cid : Z) (r r' : ClientRow) : bool :=
  pointer_ok cid (last_snapshot_timestamp r) (last_snapshot_timestamp r')
             (client_snapshot_history db)
  && pointer_ok cid (last_startup_timestamp r) (last_startup_timestamp r')
                (client_startup_history db)
  && pointer_ok cid (last_crash_timestamp r) (last_crash_timestamp r')
                (client_crash_history db).

(** UPDATE clients SET <asg> WHERE client_id = cid AND <guard>.  No matching
    row is not an error: zero rows are updated. *)
Definition sql_update_client (cid : Z) (guard : ClientRow -> bool)
    (asg : list Assign) (db : DB) : DB + Exception :=
  match clients db !! cid with
  | None => inl db
  | Some r =>
      if guard r then
        let r' := assign_all asg r in
        if row_pointers_ok db cid r r'
        then inl (with_clients (insert cid r') db)
        else inr (IntegrityError NO_REFERENCED_ROW_2)
      else inl db
  end.

(** INSERT INTO clients (...) VALUES (...) ON DUPLICATE KEY UPDATE
    col = VALUES(col) for each listed column. *)
Definition sql_upsert_client (cid : Z) (asg : list Assign) (db : DB)
  : DB + Exception :=
  let r := default default_row (clients db !! cid) in
  let r' := assign_all asg r in
  if row_pointers_ok db cid r r'
  then inl (with_clients (insert cid r') db)
  else inr (IntegrityError NO_REFERENCED_ROW_2).

(** DELETE FROM <table> WHERE <P> LIMIT <limit>: the first [limit] matching
    rows go; the second component is cursor.rowcount. *)
Fixpoint sql_delete_limit {A} (P : A -> bool) (limit : nat) (rows : list A)
  : list A * nat :=
  match rows with
  | [] => ([], O)
  | r :: rs =>
      match limit with
      | O => (rows, O)
      | S k =>
          if P r
          then let '(rs', n) := sql_delete_limit P k rs in (rs', S n)
          else let '(rs', n) := sql_delete_limit P limit rs in (r :: rs', n)
      end
  end.

(** INSERT INTO client_stats ... ON DUPLICATE KEY UPDATE payload =
    VALUES(payload), on the rows of the table. *)
Fixpoint upsert_stats (cid ts : Z) (payload : blob) (rows : list StatsRow)
  : list StatsRow :=
  match rows with
  | [] => [mkStatsRow cid ts payload]
  | r :: rs =>
      if bool_decide (stats_client_id r = cid) && bool_decide (stats_timestamp r = ts)
      then mkStatsRow cid ts payload :: rs
      else r :: upsert_stats cid ts payload rs
  end.

Definition sql_upsert_stats (cid ts : Z) (payload : blob) (db : DB)
  : DB + Exception :=
  match clients db !! cid with
  | None => inr (IntegrityError NO_REFERENCED_ROW_2)
  | Some _ => inl (with_stats (upsert_stats cid ts payload) db)
  end.

(** INSERT INTO client_keywords ... VALUES (one tuple per argument) ON
    DUPLICATE KEY UPDATE timestamp = NOW(6).  One statement: a tuple that
    names no client fails the whole statement. *)
Definition sql_upsert_keywords (now : Z) (args : list (Z * blob * string)) (db : DB)
  : DB + Exception :=
  if forallb (fun a => bool_decide (is_Some (clients db !! a.1.1))) args
  then inl (with_keywords
              (fun t => foldl (fun t a => <[(a.1.1, a.1.2) :=
                                   (default a.2 (fst <$> t !! (a.1.1, a.1.2)), now)]> t)
                              t args) db)
  else inr (IntegrityError NO_REFERENCED_ROW_2).

(** INSERT IGNORE INTO client_labels ... VALUES (one tuple per argument).
    IGNORE skips the tuples that are already there. *)
Definition sql_insert_ignore_labels (args : list LabelRow) (db : DB)
  : DB + Exception :=
  if forallb (fun a => bool_decide (is_Some (clients db !! label_client_id a))) args
  then inl (with_labels
              (fun t => foldl (fun t a => if bool_decide (a ∈ t) then t else (t ++ [a])%list)
                              t args) db)
  else inr (IntegrityError NO_REFERENCED_ROW_2).

(** ** RDF values

    The payload classes live outside the source file.  What the mixin reads
    or writes of them is a field here; everything else of a payload is its
    opaque [body]. *)

Module rdf_client.
Record StartupInfo : Type := mkStartupInfo {
  body : blob;
  timestamp : option RDFDatetime;
}.
Record ClientCrash : Type := mkClientCrash {
  crash_body : blob;
  crash_timestamp : option RDFDatetime;
}.
End rdf_client.

Module rdf_client_stats.
Record ClientStats : Type := mkClientStats {
  body : blob;
  timestamp : option RDFDatetime;
}.
End rdf_client_stats.

Module rdf_objects.
Record ClientSnapshot : Type := mkClientSnapshot {
  client_id : ClientID;
  knowledge_base_os : string;
  body : blob;
  startup_info : option rdf_client.StartupInfo;
  timestamp : option RDFDatetime;
}.

Record ClientLabel : Type := mkClientLabel {
  name : string;
  owner : string;
}.
End rdf_objects.

(** The parts of the code base the mixin calls but that are not in the
    source file: truth values and codecs of the payload classes, the keyword
    hash and the batch-size constant of module db. *)
Class Externals : Type := {
  RDFX509Cert : Type;
  NetworkAddress : Type;
  FleetspeakValidationInfo : Type;
  RRGStartup : Type;
  RDFX509Cert_bool : PyBool RDFX509Cert;
  NetworkAddress_bool : PyBool NetworkAddress;
  RDFDatetime_bool : RDFDatetime -> bool;
  RDFX509Cert_SerializeToBytes : RDFX509Cert -> blob;
  NetworkAddress_SerializeToBytes : NetworkAddress -> blob;
  NetworkAddress_FromSerializedBytes : blob -> NetworkAddress;
  FromStringDict : list (string * string) -> FleetspeakValidationInfo;
  FleetspeakValidationInfo_SerializeToBytes : FleetspeakValidationInfo -> blob;
  FleetspeakValidationInfo_FromSerializedBytes : blob -> FleetspeakValidationInfo;
  ClientSnapshot_SerializeToBytes : rdf_objects.ClientSnapshot -> blob;
  ClientSnapshot_FromSerializedBytes : blob -> rdf_objects.ClientSnapshot;
  GetGRRVersionString : rdf_objects.ClientSnapshot -> string;
  Uname : rdf_objects.ClientSnapshot -> string;
  StartupInfo_SerializeToBytes : rdf_client.StartupInfo -> blob;
  StartupInfo_FromSerializedBytes : blob -> rdf_client.StartupInfo;
  ClientCrash_SerializeToBytes : rdf_client.ClientCrash -> blob;
  ClientCrash_FromSerializedBytes : blob -> rdf_client.ClientCrash;
  ClientStats_SerializeToBytes : rdf_client_stats.ClientStats -> blob;
  ClientStats_FromSerializedBytes : blob -> rdf_client_stats.ClientStats;
  RRGStartup_FromSerializedBytes : blob -> RRGStartup;
  Hash : string -> blob;
  CLIENT_IDS_BATCH_SIZE : Z;
}.
#[export] Existing Instance RDFX509Cert_bool.
#[export] Existing Instance NetworkAddress_bool.

Module rdf_meta.
Record ClientMetadata {Ext : Externals} : Type := mkClientMetadata {
  certificate : option blob;
  first_seen : option RDFDatetime;
  ping : option RDFDatetime;
  clock : option RDFDatetime;
  ip : option NetworkAddress;
  last_foreman_time : option RDFDatetime;
  startup_info_timestamp : option RDFDatetime;
  last_crash_timestamp : option RDFDatetime;
  last_fleetspeak_validation_info : option FleetspeakValidationInfo;
}.

Arguments mkClientMetadata {Ext} _ _ _ _ _ _ _ _ _.

Record ClientFullInfo {Ext : Externals} : Type := mkClientFullInfo {
  metadata : ClientMetadata;
  labels : list rdf_objects.ClientLabel;
  last_snapshot : rdf_objects.ClientSnapshot;
  last_startup_info : option rdf_client.StartupInfo;
  last_rrg_startup : option RRGStartup;
}.
Arguments mkClientFullInfo {Ext} _ _ _ _ _.
End rdf_meta.

(** mysql_utils.StringToRDFProto: NULL stays None. *)
Definition StringToRDFProto {A} (FromSerializedBytes : blob -> A) (value : option blob)
  : option A := FromSerializedBytes <$> value.

(** ** The mixin: writers *)

Section Writers.
Context `{Ext : Externals}.

(** The truth value of an optional datetime argument. *)
Definition datetime_truthy (t : option RDFDatetime) : bool :=
  match t with None => false | Some t => RDFDatetime_bool t end.

(** WriteClientMetadata: [values] collects one entry per column that goes
    into the statement; the client_id entry is the key of the row. *)
Definition WriteClientMetadata_values
    (certificate : option RDFX509Cert)
    (first_seen last_ping last_clock : option RDFDatetime)
    (last_ip : option NetworkAddress)
    (last_foreman : option RDFDatetime)
    (fleetspeak_validation_info : option (list (string * string)))
  : list Assign :=
  (match certificate with
   | Some c => if py_bool c then [set_certificate (Some (RDFX509Cert_SerializeToBytes c))] else []
   | None => []
   end)
  ++ (match first_seen with
      | Some t => [set_first_seen (Some (RDFDatetimeToTimestamp t))]
      | None => []
      end)
  ++ (match last_ping with
      | Some t => [set_last_ping (Some (RDFDatetimeToTimestamp t))]
      | None => []
      end)
  ++ (if datetime_truthy last_clock
      then [set_last_clock (RDFDatetimeToTimestamp <$> last_clock)] else [])
  ++ (match last_ip with
      | Some a => if py_bool a then [set_last_ip (Some (NetworkAddress_SerializeToBytes a))] else []
      | None => []
      end)
  ++ (if datetime_truthy last_foreman
      then [set_last_foreman (RDFDatetimeToTimestamp <$> last_foreman)] else [])
  ++ [set_last_fleetspeak_validation_info
        (match fleetspeak_validation_info with
         | Some d =>
             if py_bool d
             then Some (FleetspeakValidationInfo_SerializeToBytes (FromStringDict d))
             else None
         | None => None
         end)].

Definition WriteClientMetadata (client_id : ClientID)
    (certificate : option RDFX509Cert)
    (first_seen last_ping last_clock : option RDFDatetime)
    (last_ip : option NetworkAddress)
    (last_foreman : option RDFDatetime)
    (fleetspeak_validation_info : option (list (string * string)))
  : Py DB unit :=
  WithTransaction
    (let values := WriteClientMetadata_values certificate first_seen last_ping
                     last_clock last_ip last_foreman fleetspeak_validation_info in
     execute (sql_upsert_client (ClientIDToInt client_id) values)).

(** The snapshot argument is an object of the caller: it is the first
    component of the state.  [now] is what NOW(6) returns. *)
Definition set_startup_info (v : option rdf_client.StartupInfo)
    (c : rdf_objects.ClientSnapshot) : rdf_objects.ClientSnapshot :=
  rdf_objects.mkClientSnapshot (rdf_objects.client_id c)
    (rdf_objects.knowledge_base_os c) (rdf_objects.body c) v
    (rdf_objects.timestamp c).

Definition set_timestamp (v : option RDFDatetime)
    (c : rdf_objects.ClientSnapshot) : rdf_objects.ClientSnapshot :=
  rdf_objects.mkClientSnapshot (rdf_objects.client_id c)
    (rdf_objects.knowledge_base_os c) (rdf_objects.body c)
    (rdf_objects.startup_info c) v.

(** obj.SerializeToBytes() where obj may be None. *)
Definition serialize_startup {S} (si : option rdf_client.StartupInfo) : Py S blob :=
  match si with
  | None => raise AttributeError
  | Some si => ret (StartupInfo_SerializeToBytes si)
  end.

Definition WriteClientSnapshot (now : Z)
  : Py (rdf_objects.ClientSnapshot * DB) unit :=
  WithTransaction
    (snapshot <- gets fst ;;
     let client_info :=
       [set_last_version_string (Some (GetGRRVersionString snapshot));
        set_last_platform (Some (rdf_objects.knowledge_base_os snapshot));
        set_last_platform_release (Some (Uname snapshot))] in
     let update_clauses :=
       [set_last_snapshot_timestamp (Some now);
        set_last_startup_timestamp (Some now)] ++ client_info in
     let int_client_id := ClientIDToInt (rdf_objects.client_id snapshot) in
     let startup_info := rdf_objects.startup_info snapshot in
     modify (fun s => (set_startup_info None s.1, s.2)) ;;;
     try_finally
       (try_except
          (detached <- gets fst ;;
           execute (insert_snapshot_history int_client_id now
                      (ClientSnapshot_SerializeToBytes detached)) ;;;
           startup_bytes <- serialize_startup startup_info ;;
           execute (insert_startup_history int_client_id now startup_bytes) ;;;
           execute (sql_update_client int_client_id (fun _ => true) update_clauses))
          (fun e =>
             match e with
             | IntegrityError errno =>
                 if bool_decide (errno = NO_REFERENCED_ROW_2)
                 then raise (UnknownClientError (rdf_objects.client_id snapshot))
                 else raise e
             | _ => raise e
             end))
       (modify (fun s => (set_startup_info startup_info s.1, s.2)))).

(** The guard of the bulk writer's pointer updates:
    pointer IS NULL OR pointer < latest_timestamp. *)
Definition pointer_older (pointer : ClientRow -> option Z) (latest : Z)
    (r : ClientRow) : bool :=
  match pointer r with
  | None => true
  | Some p => bool_decide (p < latest)
  end.

(** max(client.timestamp for client in clients) on a non-empty list. *)
Definition max_timestamp (t0 : Z) (ts : list Z) : Z := foldl Z.max t0 ts.

(** The timestamps of the snapshots.  A snapshot without one makes max
    (or the conversion of the maximum to a MySQL timestamp) fail before any
    statement runs and before any snapshot is touched. *)
Definition snapshot_timestamps (cs : list rdf_objects.ClientSnapshot)
  : option (list Z) := mapM rdf_objects.timestamp cs.

(** One round of the loop of WriteClientSnapshotHistory, on clients[i]. *)
Definition WriteClientSnapshotHistory_step (int_client_id : Z)
    (i : nat) (client : rdf_objects.ClientSnapshot) (ts : Z)
  : Py (list rdf_objects.ClientSnapshot * DB) unit :=
  let startup_info := rdf_objects.startup_info client in
  modify (fun s => (<[i := set_startup_info None client]> s.1, s.2)) ;;;
  startup_bytes <- serialize_startup startup_info ;;
  execute (insert_snapshot_history int_client_id ts
             (ClientSnapshot_SerializeToBytes (set_startup_info None client))) ;;;
  execute (insert_startup_history int_client_id ts startup_bytes) ;;;
  modify (fun s => (<[i := client]> s.1, s.2)).

Definition WriteClientSnapshotHistory
  : Py (list rdf_objects.ClientSnapshot * DB) unit :=
  WithTransaction
    (clients <- gets fst ;;
     match clients, snapshot_timestamps clients with
     | [], _ => raise IndexError
     | _, None => raise AttributeError
     | c0 :: _, Some [] => raise IndexError
     | c0 :: _, Some (t0 :: ts) =>
         let latest_timestamp := max_timestamp t0 ts in
         let client_id := rdf_objects.client_id c0 in
         try_except
           (for_each (zip (seq 0 (length clients)) (zip clients (t0 :: ts)))
              (fun '(i, (client, t)) =>
                 WriteClientSnapshotHistory_step (ClientIDToInt client_id) i client
                   (RDFDatetimeToTimestamp t)) ;;;
            execute (sql_update_client (ClientIDToInt client_id)
                       (pointer_older last_snapshot_timestamp
                          (RDFDatetimeToTimestamp latest_timestamp))
                       [set_last_snapshot_timestamp
                          (Some (RDFDatetimeToTimestamp latest_timestamp))]) ;;;
            execute (sql_update_client (ClientIDToInt client_id)
                       (pointer_older last_startup_timestamp
                          (RDFDatetimeToTimestamp latest_timestamp))
                       [set_last_startup_timestamp
                          (Some (RDFDatetimeToTimestamp latest_timestamp))]))
           (fun e =>
              match e with
              | IntegrityError _ => raise (UnknownClientError client_id)
              | _ => raise e
              end)
     end).
End Writers.

Section IndependentWriters.
Context `{Ext : Externals}.

Definition WriteClientStartupInfo (now : Z) (client_id : ClientID)
    (startup_info : rdf_client.StartupInfo) : Py DB unit :=
  WithTransaction
    (let cid := ClientIDToInt client_id in
     let bytes := StartupInfo_SerializeToBytes startup_info in
     try_except
       (execute (insert_startup_history cid now bytes) ;;;
        execute (sql_update_client cid (fun _ => true)
                   [set_last_startup_timestamp (Some now)]))
       (fun e =>
          match e with
          | IntegrityError _ => raise (UnknownClientError client_id)
          | _ => raise e
          end)).

Definition WriteClientCrashInfo (now : Z) (client_id : ClientID)
    (crash_info : rdf_client.ClientCrash) : Py DB unit :=
  WithTransaction
    (let cid := ClientIDToInt client_id in
     let bytes := ClientCrash_SerializeToBytes crash_info in
     try_except
       (execute (insert_crash_history cid now bytes) ;;;
        execute (sql_update_client cid (fun _ => true)
                   [set_last_crash_timestamp (Some now)]))
       (fun e =>
          match e with
          | IntegrityError _ => raise (UnknownClientError client_id)
          | _ => raise e
          end)).

(** The stats argument is an object of the caller: a missing timestamp is
    filled in with RDFDatetime.Now() ([now]) on the object itself. *)
Definition WriteClientStats (now : RDFDatetime) (client_id : ClientID)
  : Py (rdf_client_stats.ClientStats * DB) unit :=
  WithTransaction
    (stats <- gets fst ;;
     (match rdf_client_stats.timestamp stats with
      | None =>
          modify (fun s => (rdf_client_stats.mkClientStats
                              (rdf_client_stats.body s.1) (Some now), s.2))
      | Some _ => ret tt
      end) ;;;
     stats <- gets fst ;;
     try_except
       (execute (sql_upsert_stats (ClientIDToInt client_id)
                   (RDFDatetimeToTimestamp
                      (default now (rdf_client_stats.timestamp stats)))
                   (ClientStats_SerializeToBytes stats)))
       (fun e =>
          match e with
          | IntegrityError errno =>
              if bool_decide (errno = NO_REFERENCED_ROW_2)
              then raise (UnknownClientError client_id)
              else raise e
          | _ => raise e
          end)).
End IndependentWriters.

(** ** The mixin: secondary indexes *)

Section Indexes.
Context `{Ext : Externals}.

Definition MultiAddClientKeywords (now : Z) (client_ids : list ClientID)
    (keywords : list string) : Py DB unit :=
  WithTransaction
    (if negb (py_bool client_ids) || negb (py_bool keywords) then ret tt
     else
       let args :=
         flat_map (fun client_id =>
                     let int_client_id := ClientIDToInt client_id in
                     map (fun keyword => (int_client_id, Hash keyword, keyword))
                         keywords)
                  client_ids in
       try_except
         (execute (sql_upsert_keywords now args))
         (fun e =>
            match e with
            | IntegrityError _ => raise (AtLeastOneUnknownClientError client_ids)
            | _ => raise e
            end)).

Definition MultiAddClientLabels (client_ids : list ClientID) (owner : string)
    (labels : list string) : Py DB unit :=
  WithTransaction
    (if negb (py_bool client_ids) || negb (py_bool labels) then ret tt
     else
       let args :=
         flat_map (fun client_id =>
                     let client_id_int := ClientIDToInt client_id in
                     let owner_hash := Hash owner in
                     map (fun label => mkLabelRow client_id_int owner_hash owner label)
                         labels)
                  client_ids in
       try_except
         (execute (sql_insert_ignore_labels args))
         (fun e =>
            match e with
            | IntegrityError _ => raise (AtLeastOneUnknownClientError client_ids)
            | _ => raise e
            end)).
End Indexes.

(** ** The mixin: retention of client stats *)

(** What a generator did when driven to its end: the values it yielded, in
    order, and how it stopped. *)
Record Generated (A : Type) : Type := mkGenerated {
  yielded : list A;
  stopped : Outcome unit;
}.
Arguments mkGenerated {A} _ _.
Arguments yielded {A} _.
Arguments stopped {A} _.

Definition yield_first {A} (a : A) (g : Generated A) : Generated A :=
  mkGenerated (a :: yielded g) (stopped g).

Definition older_than (cutoff : Z) (r : StatsRow) : bool :=
  bool_decide (stats_timestamp r < cutoff).

(** The rows a purge with this cutoff still has to delete. *)
Definition eligible (cutoff : Z) (db : DB) : nat :=
  length (List.filter (older_than cutoff) (client_stats db)).

(** DELETE FROM client_stats WHERE timestamp < cutoff LIMIT batch_size, in a
    transaction of its own; a negative LIMIT does not parse. *)
Definition _DeleteClientStatsBatch (cutoff_time : RDFDatetime) (batch_size : Z)
  : Py DB Z :=
  WithTransaction
    (fun db =>
       if bool_decide (batch_size < 0) then (db, Raise (ProgrammingError PARSE_ERROR))
       else
         let '(rows, rowcount) :=
           sql_delete_limit (older_than (RDFDatetimeToTimestamp cutoff_time))
                            (Z.to_nat batch_size) (client_stats db) in
         (with_stats (fun _ => rows) db, Return (Z.of_nat rowcount))).

(** The while-loop of DeleteOldClientStats, driven until it breaks or a
    batch raises.  Each round deletes at least one eligible row or ends the
    loop, so the number of eligible rows is a measure. *)
Equations? DeleteOldClientStats_loop (cutoff_time : RDFDatetime) (batch_size : Z)
    (db : DB) : DB * Generated Z by wf (eligible cutoff_time db) lt :=
  DeleteOldClientStats_loop cutoff_time batch_size db
    with inspect (_DeleteClientStatsBatch cutoff_time batch_size db) := {
    | exist _ (db', Raise e) _ => (db', mkGenerated [] (Raise e))
    | exist _ (db', Return deleted_count) Hbatch
        with inspect (bool_decide (deleted_count > 0)) := {
        | exist _ false _ => (db', mkGenerated [] (Return tt))
        | exist _ true Hpos =>
            let '(db'', g) := DeleteOldClientStats_loop cutoff_time batch_size db' in
            (db'', yield_first deleted_count g)
      }
  }.
Proof.
  apply bool_decide_eq_true in Hpos.
  unfold _DeleteClientStatsBatch, WithTransaction in Hbatch.
  destruct (bool_decide (batch_size < 0)); [discriminate|].
  unfold eligible, RDFDatetimeToTimestamp in *.
  assert (Hcount : forall P (k : nat) (rows : list StatsRow),
             (length (List.filter P (sql_delete_limit P k rows).1)
              + (sql_delete_limit P k rows).2
              = length (List.filter P rows))%nat).
  { intros P k rows. revert k.
    induction rows as [|r rs IH]; intros k; [reflexivity|].
    destruct k as [|k]; simpl; [lia|].
    destruct (P r) eqn:HP.
    - specialize (IH k). destruct (sql_delete_limit P k rs) as [rs' n].
      simpl in *. lia.
    - specialize (IH (S k)). destruct (sql_delete_limit P (S k) rs) as [rs' n].
      simpl in *. rewrite HP. lia. }
  specialize (Hcount (older_than cutoff_time) (Z.to_nat batch_size) (client_stats db)).
  destruct (sql_delete_limit (older_than cutoff_time) (Z.to_nat batch_size)
              (client_stats db)) as [rows n].
  simpl in *. inversion Hbatch; subst. simpl. lia.
Qed.

Section Retention.
Context `{Ext : Externals}.

Definition DeleteOldClientStats (cutoff_time : RDFDatetime)
    (batch_size : option Z) (db : DB) : DB * Generated Z :=
  let batch_size := default CLIENT_IDS_BATCH_SIZE batch_size in
  DeleteOldClientStats_loop cutoff_time batch_size db.
End Retention.

(** ** The mixin: readers *)

(** dict(pairs), and d[k] = v for each pair in turn: a later pair wins. *)
Definition py_dict_update {K V} `{Countable K} (d : gmap K V) (pairs : list (K * V))
  : gmap K V := foldl (fun d kv => <[kv.1 := kv.2]> d) d pairs.

Definition py_dict {K V} `{Countable K} (pairs : list (K * V)) : gmap K V :=
  py_dict_update ∅ pairs.

Definition stats_time_le (a b : StatsRow) : Prop :=
  stats_timestamp a <= stats_timestamp b.

#[export] Instance stats_time_le_dec : RelDecision stats_time_le :=
  fun a b => decide (stats_timestamp a <= stats_timestamp b).

Section Readers.
Context `{Ext : Externals}.

(** SELECT ... FROM clients WHERE client_id IN (ids): the matching rows in
    primary-key order. *)
Definition select_clients_in (ids : list Z) (db : DB) : list (Z * ClientRow) :=
  List.filter (fun kv => bool_decide (kv.1 ∈ ids)) (map_to_list (clients db)).

Definition metadata_of_row (r : ClientRow) : rdf_meta.ClientMetadata :=
  let metadata :=
    rdf_meta.mkClientMetadata
      (certificate r)
      (TimestampToRDFDatetime (first_seen r))
      (TimestampToRDFDatetime (last_ping r))
      (TimestampToRDFDatetime (last_clock r))
      (StringToRDFProto NetworkAddress_FromSerializedBytes (last_ip r))
      (TimestampToRDFDatetime (last_foreman r))
      (TimestampToRDFDatetime (last_startup_timestamp r))
      (TimestampToRDFDatetime (last_crash_timestamp r))
      None in
  if py_bool (last_fleetspeak_validation_info r)
  then rdf_meta.mkClientMetadata
         (rdf_meta.certificate metadata) (rdf_meta.first_seen metadata)
         (rdf_meta.ping metadata) (rdf_meta.clock metadata)
         (rdf_meta.ip metadata) (rdf_meta.last_foreman_time metadata)
         (rdf_meta.startup_info_timestamp metadata)
         (rdf_meta.last_crash_timestamp metadata)
         (FleetspeakValidationInfo_FromSerializedBytes
            <$> last_fleetspeak_validation_info r)
  else metadata.

(** An empty IN () list does not parse. *)
Definition MultiReadClientMetadata (client_ids : list ClientID)
  : Py DB (gmap ClientID rdf_meta.ClientMetadata) :=
  WithTransaction
    (let ids := map ClientIDToInt client_ids in
     match ids with
     | [] => raise (ProgrammingError PARSE_ERROR)
     | _ =>
         rows <- query (select_clients_in ids) ;;
         ret (py_dict_update ∅
                (map (fun kv => (IntToClientID kv.1, metadata_of_row kv.2)) rows))
     end).

(** The join of MultiReadClientSnapshot: a client contributes a row when
    both its snapshot pointer and its startup pointer hit a history row. *)
Definition select_latest_snapshots (int_ids : list Z) (db : DB)
  : list (Z * blob * Z * blob) :=
  omap (fun kv : Z * ClientRow =>
          ts ← last_snapshot_timestamp kv.2;
          h ← client_snapshot_history db !! (kv.1, ts);
          ts' ← last_startup_timestamp kv.2;
          s ← client_startup_history db !! (kv.1, ts');
          Some (kv.1, h, ts, s))
       (select_clients_in int_ids db).

Definition snapshot_of_row (row : Z * blob * Z * blob) : rdf_objects.ClientSnapshot :=
  let '(cid, snapshot, timestamp, startup_info) := row in
  let client_obj := ClientSnapshot_FromSerializedBytes snapshot in
  let client_obj :=
    set_startup_info (Some (StartupInfo_FromSerializedBytes startup_info)) client_obj in
  set_timestamp (TimestampToRDFDatetime (Some timestamp)) client_obj.

Definition MultiReadClientSnapshot (client_ids : list ClientID)
  : Py DB (gmap ClientID (option rdf_objects.ClientSnapshot)) :=
  WithTransaction
    (if negb (py_bool client_ids) then ret ∅
     else
       let int_ids := map ClientIDToInt client_ids in
       let ret0 := py_dict (map (fun cid => (cid, None)) client_ids) in
       rows <- query (select_latest_snapshots int_ids) ;;
       ret (py_dict_update ret0
              (map (fun row => (IntToClientID row.1.1.1, Some (snapshot_of_row row)))
                   rows))).

Definition set_startup_timestamp (v : option RDFDatetime)
    (si : rdf_client.StartupInfo) : rdf_client.StartupInfo :=
  rdf_client.mkStartupInfo (rdf_client.body si) v.

(** The join of clients with a history stream on the pointer; fetchone. *)
Definition select_latest (pointer : ClientRow -> option Z)
    (stream : DB -> gmap (Z * Z) blob) (cid : Z) (db : DB) : option (blob * Z) :=
  r ← clients db !! cid;
  ts ← pointer r;
  payload ← stream db !! (cid, ts);
  Some (payload, ts).

Definition ReadClientStartupInfo (client_id : ClientID)
  : Py DB (option rdf_client.StartupInfo) :=
  WithTransaction
    (row <- query (select_latest last_startup_timestamp client_startup_history
                     (ClientIDToInt client_id)) ;;
     match row with
     | None => ret None
     | Some (startup_info, timestamp) =>
         let res := StartupInfo_FromSerializedBytes startup_info in
         ret (Some (set_startup_timestamp
                      (TimestampToRDFDatetime (Some timestamp)) res))
     end).

Definition ReadClientCrashInfo (client_id : ClientID)
  : Py DB (option rdf_client.ClientCrash) :=
  WithTransaction
    (row <- query (select_latest last_crash_timestamp client_crash_history
                     (ClientIDToInt client_id)) ;;
     match row with
     | None => ret None
     | Some (crash_info, timestamp) =>
         let res := ClientCrash_FromSerializedBytes crash_info in
         ret (Some (rdf_client.mkClientCrash (rdf_client.crash_body res)
                      (TimestampToRDFDatetime (Some timestamp))))
     end).

(** SELECT payload FROM client_stats WHERE client_id = cid AND timestamp
    BETWEEN lo AND hi ORDER BY timestamp ASC. *)
Definition select_stats (cid lo hi : Z) (db : DB) : list blob :=
  map stats_payload
    (merge_sort stats_time_le
       (List.filter (fun r => bool_decide (stats_client_id r = cid)
                              && bool_decide (lo <= stats_timestamp r <= hi))
                    (client_stats db))).

Definition ReadClientStats (client_id : ClientID)
    (min_timestamp max_timestamp : RDFDatetime)
  : Py DB (list rdf_client_stats.ClientStats) :=
  WithTransaction
    (rows <- query (select_stats (ClientIDToInt client_id)
                      (RDFDatetimeToTimestamp min_timestamp)
                      (RDFDatetimeToTimestamp max_timestamp)) ;;
     ret (map ClientStats_FromSerializedBytes rows)).
End Readers.

(** ** The mixin: secondary indexes, removal and lookup *)

(** The order of [r.sort(key=lambda label: (label.owner, label.name))]:
    tuples compare by their first component, then by the second; strings
    compare character by character. *)
Definition label_key_le (a b : rdf_objects.ClientLabel) : Prop :=
  match String.compare (rdf_objects.owner a) (rdf_objects.owner b) with
  | Lt => True
  | Eq => String.leb (rdf_objects.name a) (rdf_objects.name b) = true
  | Gt => False
  end.

#[export] Instance label_key_le_dec : RelDecision label_key_le.
Proof.
  intros a b. unfold label_key_le.
  destruct (String.compare (rdf_objects.owner a) (rdf_objects.owner b));
    [solve_decision|left; exact I|right; intros []].
Defined.

(** d[k].append(v) on a dictionary of lists.  A missing key would be a
    KeyError; the two readers below append only under keys of the IN list
    they have built the dictionary from. *)
Definition py_dict_append {K V} `{Countable K} (d : gmap K (list V)) (k : K) (v : V)
  : gmap K (list V) := alter (fun l => (l ++ [v])%list) k d.

Section IndexReaders.
Context `{Ext : Externals}.

(** DELETE FROM client_keywords WHERE client_id = cid AND keyword_hash = h. *)
Definition sql_delete_keyword (cid : Z) (keyword_hash : blob) (db : DB)
  : DB + Exception :=
  inl (with_keywords (delete (cid, keyword_hash)) db).

Definition RemoveClientKeyword (client_id : ClientID) (keyword : string)
  : Py DB unit :=
  WithTransaction
    (execute (sql_delete_keyword (ClientIDToInt client_id) (Hash keyword))).

(** SELECT keyword_hash, client_id FROM client_keywords WHERE keyword_hash
    IN (hashes) [AND timestamp >= start]; the statement has no ORDER BY, the
    rows come in the order of the table. *)
Definition select_keyword_clients (hashes : list blob) (start : option Z) (db : DB)
  : list (blob * Z) :=
  omap (fun kv : (Z * blob) * (string * Z) =>
          if bool_decide (kv.1.2 ∈ hashes)
             && match start with
                | Some t => bool_decide (t <= kv.2.2)
                | None => true
                end
          then Some (kv.1.2, kv.1.1)
          else None)
       (map_to_list (client_keywords db)).

(** [set(keywords)] is the list without its duplicates.  The statement has
    one placeholder per keyword and one argument per hash: with no keyword
    IN () does not parse, and with two keywords of one hash the arguments do
    not fill the placeholders, which MySQLdb reports as a ProgrammingError
    that carries no server code (0 here). *)
Definition ListClientsForKeywords (keywords : list string)
    (start_time : option RDFDatetime) : Py DB (gmap string (list ClientID)) :=
  WithTransaction
    (let keywords := remove_dups keywords in
     let hash_to_kw := py_dict (map (fun kw => (Hash kw, kw)) keywords) in
     let result := py_dict (map (fun kw => (kw, @nil ClientID)) keywords) in
     let args := map fst (map_to_list hash_to_kw) in
     let start :=
       if datetime_truthy start_time
       then RDFDatetimeToTimestamp <$> start_time else None in
     if negb (bool_decide (length args = length keywords))
     then raise (ProgrammingError 0)
     else
       match keywords with
       | [] => raise (ProgrammingError PARSE_ERROR)
       | _ =>
           rows <- query (select_keyword_clients args start) ;;
           ret (foldl (fun result row =>
                         match hash_to_kw !! row.1 with
                         | Some kw => py_dict_append result kw (IntToClientID row.2)
                         | None => result
                         end)
                      result rows)
       end).

(** SELECT client_id, owner_username, label FROM client_labels WHERE
    client_id IN (ids), in the order of the table. *)
Definition select_labels_in (ids : list Z) (db : DB) : list (Z * string * string) :=
  map (fun r => (label_client_id r, label_owner_username r, label_label r))
      (List.filter (fun r => bool_decide (label_client_id r ∈ ids)) (client_labels db)).

Definition MultiReadClientLabels (client_ids : list ClientID)
  : Py DB (gmap ClientID (list rdf_objects.ClientLabel)) :=
  WithTransaction
    (let int_ids := map ClientIDToInt client_ids in
     let ret0 := py_dict (map (fun client_id => (client_id, @nil rdf_objects.ClientLabel))
                              client_ids) in
     match client_ids with
     | [] => raise (ProgrammingError PARSE_ERROR)
     | _ =>
         rows <- query (select_labels_in int_ids) ;;
         let ret1 :=
           foldl (fun d (row : Z * string * string) =>
                    py_dict_append d (IntToClientID row.1.1)
                      (rdf_objects.mkClientLabel row.2 row.1.2))
                 ret0 rows in
         ret (merge_sort label_key_le <$> ret1)
     end).

(** DELETE FROM client_labels WHERE client_id = cid AND owner_username_hash
    = h AND label IN (labels). *)
Definition sql_delete_labels (cid : Z) (owner_hash : blob) (labels : list string)
    (db : DB) : DB + Exception :=
  match labels with
  | [] => inr (ProgrammingError PARSE_ERROR)
  | _ =>
      inl (with_labels
             (List.filter
                (fun r => negb (bool_decide (label_client_id r = cid)
                                && bool_decide (label_owner_username_hash r = owner_hash)
                                && bool_decide (label_label r ∈ labels))))
             db)
  end.

Definition RemoveClientLabels (client_id : ClientID) (owner : string)
    (labels : list string) : Py DB unit :=
  WithTransaction
    (execute (sql_delete_labels (ClientIDToInt client_id) (Hash owner) labels)).

(** SELECT DISTINCT label FROM client_labels. *)
Definition select_distinct_labels (db : DB) : list string :=
  remove_dups (map label_label (client_labels db)).

Definition ReadAllClientLabels : Py DB (list string) :=
  WithTransaction
    (rows <- query select_distinct_labels ;;
     ret (foldl (fun result label => (result ++ [label])%list) [] rows)).
End IndexReaders.

(** ** The mixin: history readers *)

(** The optional timerange argument: None, or a pair of optional bounds.  A
    pair is truthy whatever it holds; each bound that is not None adds its
    condition. *)
Definition in_timerange (timerange : option (option RDFDatetime * option RDFDatetime))
    (ts : Z) : bool :=
  match timerange with
  | None => true
  | Some (time_from, time_to) =>
      match time_from with
      | Some t => bool_decide (RDFDatetimeToTimestamp t <= ts)
      | None => true
      end
      && match time_to with
         | Some t => bool_decide (ts <= RDFDatetimeToTimestamp t)
         | None => true
         end
  end.

(** ORDER BY timestamp DESC, on rows that end with their timestamp. *)
Definition newer_first {A} (a b : A * Z) : Prop := b.2 <= a.2.

#[export] Instance newer_first_dec {A} : RelDecision (@newer_first A) :=
  fun a b => decide (b.2 <= a.2).

(** SELECT payload, timestamp FROM <stream> WHERE client_id = cid [AND
    timestamp in the range] ORDER BY timestamp DESC. *)
Definition select_history (stream : gmap (Z * Z) blob) (cid : Z)
    (timerange : option (option RDFDatetime * option RDFDatetime))
  : list (blob * Z) :=
  merge_sort newer_first
    (omap (fun kv : (Z * Z) * blob =>
             if bool_decide (kv.1.1 = cid) && in_timerange timerange kv.1.2
             then Some (kv.2, kv.1.2)
             else None)
          (map_to_list stream)).

(** The join of the snapshot stream with the startup stream on client and
    timestamp, newest first. *)
Definition select_snapshot_history (cid : Z)
    (timerange : option (option RDFDatetime * option RDFDatetime)) (db : DB)
  : list (blob * blob * Z) :=
  merge_sort newer_first
    (omap (fun kv : (Z * Z) * blob =>
             if bool_decide (kv.1.1 = cid) && in_timerange timerange kv.1.2
             then st ← client_startup_history db !! kv.1; Some (kv.2, st, kv.1.2)
             else None)
          (map_to_list (client_snapshot_history db))).

Section HistoryReaders.
Context `{Ext : Externals}.

Definition ReadClientSnapshotHistory (client_id : ClientID)
    (timerange : option (option RDFDatetime * option RDFDatetime))
  : Py DB (list rdf_objects.ClientSnapshot) :=
  WithTransaction
    (rows <- query (select_snapshot_history (ClientIDToInt client_id) timerange) ;;
     ret (map (fun row : blob * blob * Z =>
                 let '(snapshot, startup_info, timestamp) := row in
                 let client := ClientSnapshot_FromSerializedBytes snapshot in
                 let client :=
                   set_startup_info
                     (Some (StartupInfo_FromSerializedBytes startup_info)) client in
                 set_timestamp (TimestampToRDFDatetime (Some timestamp)) client)
              rows)).

Definition ReadClientStartupInfoHistory (client_id : ClientID)
    (timerange : option (option RDFDatetime * option RDFDatetime))
  : Py DB (list rdf_client.StartupInfo) :=
  WithTransaction
    (rows <- query (fun db => select_history (client_startup_history db)
                                (ClientIDToInt client_id) timerange) ;;
     ret (map (fun row : blob * Z =>
                 let '(startup_info, timestamp) := row in
                 let si := StartupInfo_FromSerializedBytes startup_info in
                 set_startup_timestamp (TimestampToRDFDatetime (Some timestamp)) si)
              rows)).

Definition ReadClientCrashInfoHistory (client_id : ClientID)
  : Py DB (list rdf_client.ClientCrash) :=
  WithTransaction
    (rows <- query (fun db => select_history (client_crash_history db)
                                (ClientIDToInt client_id) None) ;;
     ret (map (fun row : blob * Z =>
                 let '(crash_info, timestamp) := row in
                 let ci := ClientCrash_FromSerializedBytes crash_info in
                 rdf_client.mkClientCrash (rdf_client.crash_body ci)
                   (TimestampToRDFDatetime (Some timestamp)))
              rows)).
End HistoryReaders.

(** ** The mixin: last pings, page by page *)

(** The WHERE clause of _ReadClientLastPings after [client_id > %s]: a
    client that never pinged (NULL) fails [last_ping >= min] and passes
    [last_ping IS NULL OR last_ping <= max]. *)
Definition ping_in_range (min_last_ping max_last_ping : option RDFDatetime)
    (r : ClientRow) : bool :=
  match min_last_ping with
  | Some t =>
      match last_ping r with
      | Some p => bool_decide (RDFDatetimeToTimestamp t <= p)
      | None => false
      end
  | None => true
  end
  && match max_last_ping with
     | Some t =>
         match last_ping r with
         | Some p => bool_decide (p <= RDFDatetimeToTimestamp t)
         | None => true
         end
     | None => true
     end.

(** ORDER BY client_id, on rows that start with the client id. *)
Definition by_client_id {A} (a b : Z * A) : Prop := a.1 <= b.1.

#[export] Instance by_client_id_dec {A} : RelDecision (@by_client_id A) :=
  fun a b => decide (a.1 <= b.1).

(** SELECT client_id, last_ping FROM clients WHERE client_id > last AND
    <range> ORDER BY client_id, before the LIMIT. *)
Definition matching_last_pings (last : Z) (min_last_ping max_last_ping : option RDFDatetime)
    (db : DB) : list (Z * option Z) :=
  merge_sort by_client_id
    (omap (fun kv : Z * ClientRow =>
             if bool_decide (last < kv.1)
                && ping_in_range min_last_ping max_last_ping kv.2
             then Some (kv.1, last_ping kv.2)
             else None)
          (map_to_list (clients db))).

Definition select_last_pings (last : Z) (min_last_ping max_last_ping : option RDFDatetime)
    (count : nat) (db : DB) : list (Z * option Z) :=
  take count (matching_last_pings last min_last_ping max_last_ping db).

(** Modelled from the spec: db_utils.ClientIDToInt is not part of the source
    file; spec section 2 takes it as a codec of client ids, so the None that
    a page without rows hands back as [last_client_id] is not in its domain
    and the conversion raises.  A negative LIMIT does not parse. *)
Definition _ReadClientLastPings (last_client_id : option ClientID) (count : Z)
    (min_last_ping max_last_ping : option RDFDatetime)
  : Py DB (option ClientID * gmap ClientID (option RDFDatetime)) :=
  WithTransaction
    (match last_client_id with
     | None => raise TypeError
     | Some last_client_id =>
         if bool_decide (count < 0) then raise (ProgrammingError PARSE_ERROR)
         else
           rows <- query (select_last_pings (ClientIDToInt last_client_id)
                            min_last_ping max_last_ping (Z.to_nat count)) ;;
           ret (foldl (fun (acc : option ClientID * gmap ClientID (option RDFDatetime))
                           (row : Z * option Z) =>
                         (Some (IntToClientID row.1),
                          <[IntToClientID row.1 := TimestampToRDFDatetime row.2]> acc.2))
                      (None, ∅) rows)
     end).

(** The clients a page that starts after [last_client_id] can still return,
    plus one for the page itself. *)
Definition pages_left (last_client_id : option ClientID) (db : DB) : nat :=
  match last_client_id with
  | None => O
  | Some last =>
      S (length (List.filter (fun kv : Z * ClientRow =>
                                bool_decide (ClientIDToInt last < kv.1))
                             (map_to_list (clients db))))
  end.

(** [if last_pings: yield last_pings] *)
Definition yield_if_any {K V} `{Countable K} (d : gmap K V) (g : Generated (gmap K V))
  : Generated (gmap K V) :=
  if bool_decide (d = ∅) then g else yield_first d g.

(** The while-loop of ReadClientLastPings, driven until it breaks or a page
    raises.  Every page that returns rows moves [last_client_id] forward, and
    a page without rows hands back None, on which the next page raises. *)
Equations? ReadClientLastPings_loop (min_last_ping max_last_ping : option RDFDatetime)
    (batch_size : Z) (last_client_id : option ClientID) (db : DB)
  : DB * Generated (gmap ClientID (option RDFDatetime))
  by wf (pages_left last_client_id db) lt :=
  ReadClientLastPings_loop min_last_ping max_last_ping batch_size last_client_id db
    with inspect (_ReadClientLastPings last_client_id batch_size
                    min_last_ping max_last_ping db) := {
    | exist _ (db', Raise e) _ => (db', mkGenerated [] (Raise e))
    | exist _ (db', Return (last_client_id', last_pings)) Hpage
        with inspect (bool_decide (Z.of_nat (size last_pings) < batch_size)) := {
        | exist _ true _ =>
            (db', yield_if_any last_pings (mkGenerated [] (Return tt)))
        | exist _ false _ =>
            let '(db'', g) :=
              ReadClientLastPings_loop min_last_ping max_last_ping batch_size
                last_client_id' db' in
            (db'', yield_if_any last_pings g)
      }
  }.
Proof.
  unfold _ReadClientLastPings, WithTransaction, bind, ret, raise, query in Hpage.
  destruct last_client_id as [prev|]; [|discriminate].
  destruct (bool_decide (batch_size < 0)); [discriminate|].
  simpl in Hpage. injection Hpage as <- Hfold.
  assert (Hlast : forall (rows : list (Z * option Z))
                         (acc : option ClientID * gmap ClientID (option RDFDatetime)),
             (foldl (fun (acc : option ClientID * gmap ClientID (option RDFDatetime))
                         (row : Z * option Z) =>
                       (Some (IntToClientID row.1),
                        <[IntToClientID row.1 := TimestampToRDFDatetime row.2]> acc.2))
                    acc rows).1
             = match last rows with Some row => Some row.1 | None => acc.1 end).
  { induction rows as [|row rows IH] using rev_ind; intros acc; [reflexivity|].
    by rewrite foldl_app, last_snoc. }
  specialize (Hlast (select_last_pings (ClientIDToInt prev) min_last_ping
                       max_last_ping (Z.to_nat batch_size) db) (None, ∅)).
  rewrite Hfold in Hlast. simpl in Hlast. subst last_client_id'.
  destruct (last (select_last_pings (ClientIDToInt prev) min_last_ping
                    max_last_ping (Z.to_nat batch_size) db))
    as [[next ping]|] eqn:Hrow; simpl; [|lia].
  apply last_Some in Hrow as [front Hrow].
  assert (Hin : (next, ping) ∈ matching_last_pings (ClientIDToInt prev)
                                 min_last_ping max_last_ping db).
  { unfold select_last_pings in Hrow.
    rewrite <- (take_drop (Z.to_nat batch_size)
                  (matching_last_pings (ClientIDToInt prev) min_last_ping
                     max_last_ping db)), Hrow.
    apply elem_of_app. left. apply elem_of_app. right. by apply list_elem_of_singleton. }
  unfold matching_last_pings in Hin. rewrite merge_sort_Permutation in Hin.
  apply list_elem_of_omap in Hin as ([k r] & Hkr & Hf). simpl in Hf.
  destruct (bool_decide (ClientIDToInt prev < k)) eqn:Hk; simpl in Hf; [|discriminate].
  destruct (ping_in_range min_last_ping max_last_ping r); [|discriminate].
  injection Hf as -> _. apply bool_decide_eq_true in Hk.
  unfold ClientIDToInt in *.
  assert (Hmono : forall l : list (Z * ClientRow),
             (length (List.filter (fun kv : Z * ClientRow => bool_decide (next < kv.1)%Z) l)
              <= length (List.filter (fun kv : Z * ClientRow => bool_decide (prev < kv.1)%Z) l))%nat).
  { induction l as [|kv l IH]; simpl; [lia|].
    destruct (decide (next < kv.1)%Z); destruct (decide (prev < kv.1)%Z).
    - rewrite !bool_decide_eq_true_2 by done. simpl. lia.
    - lia.
    - rewrite bool_decide_eq_false_2, bool_decide_eq_true_2 by done. simpl. lia.
    - rewrite !bool_decide_eq_false_2 by done. lia. }
  assert (Hlt : (length (List.filter (fun kv : Z * ClientRow => bool_decide (next < kv.1)%Z)
                                     (map_to_list (clients db)))
                 < length (List.filter (fun kv : Z * ClientRow => bool_decide (prev < kv.1)%Z)
                                       (map_to_list (clients db))))%nat).
  { induction (map_to_list (clients db)) as [|kv l IH]; [by apply elem_of_nil in Hkr|].
    apply elem_of_cons in Hkr as [<-|Hkr]; simpl.
    - rewrite (bool_decide_eq_false_2 (next < next)%Z) by lia.
      rewrite (bool_decide_eq_true_2 (prev < next)%Z) by done. simpl.
      specialize (Hmono l). lia.
    - specialize (IH Hkr).
      destruct (bool_decide (next < kv.1)%Z) eqn:E1;
        destruct (bool_decide (prev < kv.1)%Z) eqn:E2; simpl; try lia.
      apply bool_decide_eq_true in E1. apply bool_decide_eq_false in E2. lia. }
  lia.
Qed.

Section LastPings.
Context `{Ext : Externals}.

Definition ReadClientLastPings (min_last_ping max_last_ping : option RDFDatetime)
    (batch_size : option Z) (db : DB)
  : DB * Generated (gmap ClientID (option RDFDatetime)) :=
  let batch_size := default CLIENT_IDS_BATCH_SIZE batch_size in
  let last_client_id := IntToClientID 0 in
  ReadClientLastPings_loop min_last_ping max_last_ping batch_size
    (Some last_client_id) db.
End LastPings.

(** ** The mixin: DeleteClient *)

(** The SET list of the UPDATE of DeleteClient. *)
Definition DeleteClient_update_clauses : list Assign :=
  [set_last_crash_timestamp None;
   set_last_snapshot_timestamp None;
   set_last_startup_timestamp None].

(** A pointer names a row of its stream. *)
Definition pointer_names_row (cid : Z) (pointer : option Z)
    (tbl : gmap (Z * Z) blob) : bool :=
  match pointer with
  | None => false
  | Some ts => bool_decide (is_Some (tbl !! (cid, ts)))
  end.

(** One of the three pointers of the row of a client names a row. *)
Definition row_is_referenced (db : DB) (cid : Z) (r : ClientRow) : bool :=
  pointer_names_row cid (last_snapshot_timestamp r) (client_snapshot_history db)
  || pointer_names_row cid (last_startup_timestamp r) (client_startup_history db)
  || pointer_names_row cid (last_crash_timestamp r) (client_crash_history db).

(** Modelled from the spec: the schema is not part of the source file.
    DELETE FROM clients WHERE client_id = cid.  No matching row is not an
    error: zero rows are deleted.  The pointers of the row are foreign keys
    into the streams (see [pointer_ok]) and the source says of them "Clean
    out foreign keys first": while a pointer of the row names a row of its
    stream, the row of the client and that row are tied to each other and the
    statement fails with ROW_IS_REFERENCED_2.  Spec section 3 leaves open
    whether the rows of the history streams and of the indexes that name the
    client go with it ([cascade = true]) or stay behind as orphans
    ([cascade = false]). *)
Definition sql_delete_client (cascade : bool) (cid : Z) (db : DB) : DB + Exception :=
  let keep_stream (t : gmap (Z * Z) blob) : gmap (Z * Z) blob :=
    if cascade then filter (fun kv => kv.1.1 ≠ cid) t else t in
  match clients db !! cid with
  | None => inl db
  | Some r =>
      if row_is_referenced db cid r
      then inr (IntegrityError ROW_IS_REFERENCED_2)
      else
        inl (mkDB (delete cid (clients db))
                  (keep_stream (client_snapshot_history db))
                  (keep_stream (client_startup_history db))
                  (keep_stream (client_crash_history db))
                  (if cascade
                   then List.filter (fun r => negb (bool_decide (stats_client_id r = cid)))
                                    (client_stats db)
                   else client_stats db)
                  (if cascade
                   then filter (fun kv => kv.1.1 ≠ cid) (client_keywords db)
                   else client_keywords db)
                  (if cascade
                   then List.filter (fun r => negb (bool_decide (label_client_id r = cid)))
                                    (client_labels db)
                   else client_labels db))
  end.

(** SELECT COUNT( * ) FROM clients WHERE client_id = cid. *)
Definition count_clients (cid : Z) (db : DB) : Z :=
  match clients db !! cid with Some _ => 1 | None => 0 end.

Definition DeleteClient (cascade : bool) (client_id : ClientID) : Py DB unit :=
  WithTransaction
    (n <- query (count_clients (ClientIDToInt client_id)) ;;
     if bool_decide (n = 0) then raise (UnknownClientError client_id)
     else
       execute (sql_update_client (ClientIDToInt client_id) (fun _ => true)
                  DeleteClient_update_clauses) ;;;
       execute (sql_delete_client cascade (ClientIDToInt client_id))).

(** ** The mixin: the composite full-info reader *)

(** One row of the response of MultiReadClientFullInfo, in column order. *)
Module FullInfoRow.
Record t : Type := mk {
  cid : Z;
  crt : option blob;
  ip : option blob;
  ping : option Z;
  clk : option Z;
  foreman : option Z;
  first : option Z;
  last_client_ts : option Z;
  last_crash_ts : option Z;
  last_startup_ts : option Z;
  client_obj : option blob;
  client_startup_obj : option blob;
  last_startup_obj : option blob;
  last_rrg_startup_obj : option blob;
  label_owner : option string;
  label_name : option string;
}.
End FullInfoRow.

Section FullInfo.
Context `{Ext : Externals}.

(** ClientSnapshot(client_id=...): nothing but the identifier is set. *)
Definition empty_shell_snapshot (client_id : ClientID) : rdf_objects.ClientSnapshot :=
  rdf_objects.mkClientSnapshot client_id EmptyString EmptyString None None.

(** cls.FromSerializedBytes(value) of a column that is NULL. *)
Definition from_bytes {A} (FromSerializedBytes : blob -> A) (value : option blob)
  : Outcome A :=
  match value with
  | None => Raise TypeError
  | Some b => Return (FromSerializedBytes b)
  end.

(** The record that is started when the client id changes: the body of
    [if cid != prev_cid] after the flush. *)
Definition start_full_info (row : FullInfoRow.t) : Outcome rdf_meta.ClientFullInfo :=
  let metadata :=
    rdf_meta.mkClientMetadata
      (FullInfoRow.crt row)
      (TimestampToRDFDatetime (FullInfoRow.first row))
      (TimestampToRDFDatetime (FullInfoRow.ping row))
      (TimestampToRDFDatetime (FullInfoRow.clk row))
      (StringToRDFProto NetworkAddress_FromSerializedBytes (FullInfoRow.ip row))
      (TimestampToRDFDatetime (FullInfoRow.foreman row))
      (TimestampToRDFDatetime (FullInfoRow.last_startup_ts row))
      (TimestampToRDFDatetime (FullInfoRow.last_crash_ts row))
      None in
  let l_snapshot : Outcome rdf_objects.ClientSnapshot :=
    match FullInfoRow.client_obj row with
    | Some client_obj =>
        let l_snapshot := ClientSnapshot_FromSerializedBytes client_obj in
        let l_snapshot :=
          set_timestamp (TimestampToRDFDatetime (FullInfoRow.last_client_ts row))
                        l_snapshot in
        match from_bytes StartupInfo_FromSerializedBytes
                         (FullInfoRow.client_startup_obj row) with
        | Return si =>
            Return (set_startup_info
                      (Some (set_startup_timestamp
                               (rdf_objects.timestamp l_snapshot) si))
                      l_snapshot)
        | Raise e => Raise e
        end
    | None => Return (empty_shell_snapshot (IntToClientID (FullInfoRow.cid row)))
    end in
  let startup_info : option rdf_client.StartupInfo :=
    match FullInfoRow.last_startup_obj row with
    | Some last_startup_obj =>
        Some (set_startup_timestamp
                (TimestampToRDFDatetime (FullInfoRow.last_startup_ts row))
                (StartupInfo_FromSerializedBytes last_startup_obj))
    | None => None
    end in
  let last_rrg_startup : option RRGStartup :=
    RRGStartup_FromSerializedBytes <$> FullInfoRow.last_rrg_startup_obj row in
  match l_snapshot with
  | Return l_snapshot =>
      Return (rdf_meta.mkClientFullInfo metadata [] l_snapshot startup_info
                last_rrg_startup)
  | Raise e => Raise e
  end.

Definition labels_append (l : rdf_objects.ClientLabel)
    (c : rdf_meta.ClientFullInfo) : rdf_meta.ClientFullInfo :=
  rdf_meta.mkClientFullInfo (rdf_meta.metadata c) (rdf_meta.labels c ++ [l])
    (rdf_meta.last_snapshot c) (rdf_meta.last_startup_info c)
    (rdf_meta.last_rrg_startup c).

(** [if label_owner and label_name: c_full_info.labels.append(...)] *)
Definition add_row_label (row : FullInfoRow.t) (c : rdf_meta.ClientFullInfo)
  : rdf_meta.ClientFullInfo :=
  if py_bool (FullInfoRow.label_owner row) && py_bool (FullInfoRow.label_name row)
  then labels_append
         (rdf_objects.mkClientLabel
            (default EmptyString (FullInfoRow.label_name row))
            (default EmptyString (FullInfoRow.label_owner row))) c
  else c.

(** What the final [if c_full_info: yield ...] and the flush inside the
    loop yield.  prev_cid and c_full_info are set together, so they are one
    optional pair. *)
Definition flush (cur : option (Z * rdf_meta.ClientFullInfo))
  : list (ClientID * rdf_meta.ClientFullInfo) :=
  match cur with
  | Some (prev_cid, c_full_info) => [(IntToClientID prev_cid, c_full_info)]
  | None => []
  end.

Fixpoint _ResponseToClientsFullInfo_from
    (cur : option (Z * rdf_meta.ClientFullInfo)) (response : list FullInfoRow.t)
  : Generated (ClientID * rdf_meta.ClientFullInfo) :=
  match response with
  | [] => mkGenerated (flush cur) (Return tt)
  | row :: rest =>
      let changed :=
        match cur with
        | Some (prev_cid, _) => bool_decide (FullInfoRow.cid row ≠ prev_cid)
        | None => true
        end in
      if changed then
        match start_full_info row with
        | Raise e => mkGenerated (flush cur) (Raise e)
        | Return c_full_info =>
            let g := _ResponseToClientsFullInfo_from
                       (Some (FullInfoRow.cid row, add_row_label row c_full_info))
                       rest in
            mkGenerated (flush cur ++ yielded g) (stopped g)
        end
      else
        _ResponseToClientsFullInfo_from
          (match cur with
           | Some (prev_cid, c_full_info) =>
               Some (prev_cid, add_row_label row c_full_info)
           | None => None
           end) rest
  end.

Definition _ResponseToClientsFullInfo (response : list FullInfoRow.t)
  : Generated (ClientID * rdf_meta.ClientFullInfo) :=
  _ResponseToClientsFullInfo_from None response.

(** MultiReadClientFullInfo, from the rows cursor.fetchall() returned for
    its query: dict() drives the generator to its end. *)
Definition MultiReadClientFullInfo (client_ids : list ClientID)
    (response : list FullInfoRow.t)
  : Outcome (gmap ClientID rdf_meta.ClientFullInfo) :=
  if negb (py_bool client_ids) then Return ∅
  else
    let g := _ResponseToClientsFullInfo response in
    match stopped g with
    | Return _ => Return (py_dict (yielded g))
    | Raise e => Raise e
    end.
End FullInfo.

(** ** The mixin: fleet statistics *)

(** Modelled from the spec: fleet_utils.FleetStatsBuilder is not part of the
    source file.  Spec section 4.7: per statistic value and day bucket, one
    count per label and one fleet-wide total; a cell nobody incremented is
    not in the result. *)
Record FleetStats : Type := mkFleetStats {
  (* (label, statistic value, day bucket) -> count *)
  label_counts : gmap (string * option string * Z) Z;
  (* (statistic value, day bucket) -> count *)
  total_counts : gmap (option string * Z) Z;
}.

Definition IncrementLabel (label : string) (category : option string)
    (day_bucket delta : Z) (b : FleetStats) : FleetStats :=
  mkFleetStats
    (<[(label, category, day_bucket) :=
         default 0 (label_counts b !! (label, category, day_bucket)) + delta]>
       (label_counts b))
    (total_counts b).

Definition IncrementTotal (category : option string) (day_bucket delta : Z)
    (b : FleetStats) : FleetStats :=
  mkFleetStats
    (label_counts b)
    (<[(category, day_bucket) :=
         default 0 (total_counts b !! (category, day_bucket)) + delta]>
       (total_counts b)).

(** rdfvalue.Duration.From(n, rdfvalue.DAYS), in microseconds. *)
Definition DAYS : Z := 86400 * 1000000.

(** The CAST(c.last_ping > FROM_UNIXTIME(%s) AS UNSIGNED) columns of a row. *)
Definition ping_casts (timestamp_buckets : list Z) (ping : Z) : list Z :=
  map (fun t => if bool_decide (ping > t) then 1 else 0) timestamp_buckets.

(** SUM(column) for each of the [n] days_active columns. *)
Definition sum_columns (n : nat) (rows : list (list Z)) : list Z :=
  foldr (zip_with Z.add) (replicate n 0) rows.

(** SELECT key, SUM(...) ... GROUP BY key. *)
Definition sql_group_by_sum {K} `{EqDecision K} (n : nat) (rows : list (K * list Z))
  : list (K * list Z) :=
  map (fun k => (k, sum_columns n
                      (map snd (List.filter (fun r => bool_decide (r.1 = k)) rows))))
      (remove_dups (map fst rows)).

(** enumerate(xs) *)
Definition enumerate {A} (xs : list A) : list (nat * A) :=
  zip (seq 0 (length xs)) xs.

(** The inner SELECT of the per-label query: clients joined with their
    labels, kept when last_ping is set and the label owner is 'GRR'. *)
Definition select_label_pings (statistic : ClientRow -> option string)
    (timestamp_buckets : list Z) (db : DB)
  : list ((option string * string) * list Z) :=
  flat_map
    (fun kv : Z * ClientRow =>
       match last_ping kv.2 with
       | None => []
       | Some ping =>
           map (fun l => ((statistic kv.2, label_label l),
                          ping_casts timestamp_buckets ping))
               (List.filter
                  (fun l => bool_decide (label_client_id l = kv.1)
                            && bool_decide (label_owner_username l = "GRR"%string))
                  (client_labels db))
       end)
    (map_to_list (clients db)).

(** The inner SELECT of the fleet-wide query. *)
Definition select_pings (statistic : ClientRow -> option string)
    (timestamp_buckets : list Z) (db : DB) : list (option string * list Z) :=
  flat_map
    (fun kv : Z * ClientRow =>
       match last_ping kv.2 with
       | None => []
       | Some ping => [(statistic kv.2, ping_casts timestamp_buckets ping)]
       end)
    (map_to_list (clients db)).

Definition _CountClientStatisticByLabel (now : RDFDatetime)
    (statistic : ClientRow -> option string) (day_buckets : gset Z) (db : DB)
  : FleetStats :=
  let day_buckets := merge_sort Z.le (elements day_buckets) in
  let timestamp_buckets :=
    map (fun day_bucket => RDFDatetimeToTimestamp (now - day_bucket * DAYS))
        day_buckets in
  let n := length day_buckets in
  let fleet_stats_builder := mkFleetStats ∅ ∅ in
  let fleet_stats_builder :=
    foldl (fun b response_row =>
             let '((statistic_value, client_label), sums) := response_row in
             foldl (fun b '(i, num_actives) =>
                      if bool_decide (num_actives <= 0) then b
                      else IncrementLabel client_label statistic_value
                             (day_buckets !!! i) num_actives b)
                   b (enumerate sums))
          fleet_stats_builder
          (sql_group_by_sum n (select_label_pings statistic timestamp_buckets db)) in
  foldl (fun b response_row =>
           let '(statistic_value, sums) := response_row in
           foldl (fun b '(i, num_actives) =>
                    if bool_decide (num_actives <= 0) then b
                    else IncrementTotal statistic_value (day_buckets !!! i)
                           num_actives b)
                 b (enumerate sums))
        fleet_stats_builder
        (sql_group_by_sum n (select_pings statistic timestamp_buckets db)).

Definition CountClientVersionStringsByLabel (now : RDFDatetime)
    (day_buckets : gset Z) (db : DB) : FleetStats :=
  _CountClientStatisticByLabel now last_version_string day_buckets db.

Definition CountClientPlatformsByLabel (now : RDFDatetime)
    (day_buckets : gset Z) (db : DB) : FleetStats :=
  _CountClientStatisticByLabel now last_platform day_buckets db.

Definition CountClientPlatformReleasesByLabel (now : RDFDatetime)
    (day_buckets : gset Z) (db : DB) : FleetStats :=
  _CountClientStatisticByLabel now last_platform_release day_buckets db.

(** ** A concrete instantiation, for running the model on examples

    Payloads are their own serialisation, every object is truthy, the
    keyword hash is the keyword itself. *)
Definition example_externals : Externals := {|
  RDFX509Cert := string;
  NetworkAddress := string;
  FleetspeakValidationInfo := list (string * string);
  RRGStartup := string;
  RDFX509Cert_bool := fun _ => true;
  NetworkAddress_bool := fun _ => true;
  RDFDatetime_bool := fun _ => true;
  RDFX509Cert_SerializeToBytes := fun c => c;
  NetworkAddress_SerializeToBytes := fun a => a;
  NetworkAddress_FromSerializedBytes := fun b => b;
  FromStringDict := fun d => d;
  FleetspeakValidationInfo_SerializeToBytes := fun _ => "fsvi"%string;
  FleetspeakValidationInfo_FromSerializedBytes := fun _ => [];
  ClientSnapshot_SerializeToBytes := rdf_objects.body;
  ClientSnapshot_FromSerializedBytes :=
    fun b => rdf_objects.mkClientSnapshot 0 EmptyString b None None;
  GetGRRVersionString := fun _ => "GRR 3"%string;
  Uname := fun _ => "Linux-6"%string;
  StartupInfo_SerializeToBytes := rdf_client.body;
  StartupInfo_FromSerializedBytes := fun b => rdf_client.mkStartupInfo b None;
  ClientCrash_SerializeToBytes := rdf_client.crash_body;
  ClientCrash_FromSerializedBytes := fun b => rdf_client.mkClientCrash b None;
  ClientStats_SerializeToBytes := rdf_client_stats.body;
  ClientStats_FromSerializedBytes := fun b => rdf_client_stats.mkClientStats b None;
  RRGStartup_FromSerializedBytes := fun b => b;
  Hash := fun s => s;
  CLIENT_IDS_BATCH_SIZE := 500000;
|}.

(** A store with the single client 7, last seen at time 100. *)
Definition example_db : DB :=
  with_clients
    (insert 7 (mkClientRow (Some "cert"%string) None (Some 100) None None None
                 None None None None (Some "Linux"%string) None None))
    empty_db.

(** A snapshot of client 7 with its startup info attached. *)
Definition example_snapshot (timestamp : option RDFDatetime) : rdf_objects.ClientSnapshot :=
  rdf_objects.mkClientSnapshot 7 "Linux"%string "snapshot"%string
    (Some (rdf_client.mkStartupInfo "startup"%string None)) timestamp.

(** Five samples older than time 10 and two newer ones. *)
Definition example_stats_db : DB :=
  with_stats
    (fun _ => [mkStatsRow 7 1 "a"%string; mkStatsRow 7 2 "b"%string;
               mkStatsRow 7 30 "c"%string; mkStatsRow 7 3 "d"%string;
               mkStatsRow 7 4 "e"%string; mkStatsRow 7 5 "f"%string;
               mkStatsRow 7 40 "g"%string])
    example_db.


(** ** Vocabulary of the properties *)

(** The counts a purge of [n] eligible rows in batches of [b] yields. *)
Definition batch_counts (n b : Z) : list Z :=
  replicate (Z.to_nat (n / b)) b ++ (if bool_decide (n mod b = 0) then [] else [n mod b]).

(** The pointer a guarded update leaves: the latest timestamp when the
    pointer was NULL or older, the pointer itself otherwise. *)
Definition advance (latest : Z) (pointer : option Z) : option Z :=
  match pointer with
  | None => Some latest
  | Some p => if bool_decide (p < latest) then Some latest else Some p
  end.

(** NULL is below every timestamp. *)
Definition pointer_le (p q : option Z) : Prop :=
  match p, q with
  | None, _ => True
  | Some a, Some b => a <= b
  | Some _, None => False
  end.

(** The client a batch is written for, and its largest timestamp. *)
Definition batch_client (cs : list rdf_objects.ClientSnapshot) : option ClientID :=
  rdf_objects.client_id <$> head cs.

Definition batch_latest (cs : list rdf_objects.ClientSnapshot) : option Z :=
  match snapshot_timestamps cs with
  | Some (t0 :: ts) => Some (max_timestamp t0 ts)
  | _ => None
  end.

(** [m] is the maximum of the timestamps written with a batch: a snapshot of
    the batch carries it and none carries a later one. *)
Definition latest_of (cs : list rdf_objects.ClientSnapshot) (m : Z) : Prop :=
  (exists c, c ∈ cs /\ rdf_objects.timestamp c = Some m)
  /\ forall c t, c ∈ cs -> rdf_objects.timestamp c = Some t -> t <= m.

(** The two guarded updates at the end of the bulk writer, on the client
    table. *)
Definition bump_pointers (cid latest : Z) (cl : gmap Z ClientRow) : gmap Z ClientRow :=
  let cl1 := match cl !! cid with
             | Some r => if pointer_older last_snapshot_timestamp latest r
                         then <[cid := assign_all [set_last_snapshot_timestamp (Some latest)] r]> cl
                         else cl
             | None => cl
             end in
  match cl1 !! cid with
  | Some r => if pointer_older last_startup_timestamp latest r
              then <[cid := assign_all [set_last_startup_timestamp (Some latest)] r]> cl1
              else cl1
  | None => cl1
  end.

(** All rows that share a client id are next to each other. *)
Definition contiguous (keys : list Z) : Prop :=
  forall (i j k : nat) (a : Z),
    (i < j < k)%nat -> keys !! i = Some a -> keys !! k = Some a -> keys !! j = Some a.

(** A row that carries a snapshot carries the startup info written with it
    (the two streams are written as a pair). *)
Definition row_paired (row : FullInfoRow.t) : Prop :=
  is_Some (FullInfoRow.client_obj row) -> is_Some (FullInfoRow.client_startup_obj row).

(** The label a row contributes: both label columns set and non-empty. *)
Definition row_label (row : FullInfoRow.t) : option rdf_objects.ClientLabel :=
  match FullInfoRow.label_owner row, FullInfoRow.label_name row with
  | Some (String _ _ as owner), Some (String _ _ as name) =>
      Some (rdf_objects.mkClientLabel name owner)
  | _, _ => None
  end.

(** The label rows of a client under the claim's reading: both label columns
    non-NULL. *)
Definition row_label_claimed (row : FullInfoRow.t) : option rdf_objects.ClientLabel :=
  match FullInfoRow.label_owner row, FullInfoRow.label_name row with
  | Some owner, Some name => Some (rdf_objects.mkClientLabel name owner)
  | _, _ => None
  end.

Definition rows_of (client_id : Z) (response : list FullInfoRow.t) : list FullInfoRow.t :=
  List.filter (fun row => bool_decide (FullInfoRow.cid row = client_id)) response.

Definition labels_of (client_id : Z) (response : list FullInfoRow.t)
  : list rdf_objects.ClientLabel :=
  omap row_label (rows_of client_id response).

Definition add_labels `{Ext : Externals} (ls : list rdf_objects.ClientLabel)
    (c : rdf_meta.ClientFullInfo) : rdf_meta.ClientFullInfo :=
  rdf_meta.mkClientFullInfo (rdf_meta.metadata c) (rdf_meta.labels c ++ ls)
    (rdf_meta.last_snapshot c) (rdf_meta.last_startup_info c)
    (rdf_meta.last_rrg_startup c).

Definition cur_keys `{Ext : Externals} (cur : option (Z * rdf_meta.ClientFullInfo))
  : list Z :=
  match cur with Some (c, _) => [c] | None => [] end.

(** What the generator yields for a client: the record started at the
    client's first row, with the labels of all its rows. *)
Definition yielded_for `{Ext : Externals} (c : Z) (response : list FullInfoRow.t)
    (info : rdf_meta.ClientFullInfo) : Prop :=
  exists row info0,
    head (rows_of c response) = Some row
    /\ start_full_info row = Return info0
    /\ info = add_labels (labels_of c response) info0.

(** The client ids of a response with every run of equal ids collapsed to
    one: the ids at which the generator flushes. *)
Fixpoint collapse (keys : list Z) : list Z :=
  match keys with
  | [] => []
  | k :: rest =>
      match rest with
      | k' :: _ => if bool_decide (k = k') then collapse rest else k :: collapse rest
      | [] => [k]
      end
  end.

(** A checker for [contiguous]: a key that occurs again later occurs again
    at once. *)
Fixpoint contiguousb (keys : list Z) : bool :=
  match keys with
  | [] => true
  | k :: rest =>
      (negb (bool_decide (k ∈ rest)) || bool_decide (head rest = Some k))
      && contiguousb rest
  end.

(** Four rows for the clients 1, 2 and 3; client 1 has two labels, client 2
    has none (the NULL row of the outer join). *)
Definition example_response : list FullInfoRow.t :=
  let row cid owner name :=
    FullInfoRow.mk cid None None None None None None None None None None None
      None None owner name in
  [row 1 (Some "GRR"%string) (Some "a"%string);
   row 1 (Some "GRR"%string) (Some "b"%string);
   row 2 None None;
   row 3 (Some "user"%string) (Some "x"%string)].

(** cells[key] += delta, on one of the two maps of the builder. *)
Definition cell_add {K} `{Countable K} (key : K) (delta : Z) (m : gmap K Z) : gmap K Z :=
  <[key := default 0 (m !! key) + delta]> m.

(** The inner loop over one response row, on one map of the builder. *)
Definition add_row {K K'} `{Countable K'} (mk : K -> K') (buckets : list Z)
    (m : gmap (K' * Z) Z) (row : K * list Z) : gmap (K' * Z) Z :=
  foldl (fun m '(i, num_actives) =>
           if bool_decide (num_actives <= 0) then m
           else cell_add (mk row.1, buckets !!! i) num_actives m)
        m (enumerate row.2).

Definition add_rows {K K'} `{Countable K'} (mk : K -> K') (buckets : list Z)
    (m : gmap (K' * Z) Z) (rows : list (K * list Z)) : gmap (K' * Z) Z :=
  foldl (add_row mk buckets) m rows.

(** A cell of the result: present exactly when its count is positive. *)
Definition cell (count : Z) : option Z :=
  if bool_decide (count <= 0) then None else Some count.

(** SUM of column [i] over a list of rows. *)
Definition col_sum (i : nat) (rows : list (list Z)) : Z :=
  foldr (fun r acc => r !!! i + acc) 0 rows.

(** A client counts for a cutoff when its last_ping is later than the
    cutoff; this is the CAST(last_ping > cutoff) column of the queries. *)
Definition client_active (cutoff : Z) (r : ClientRow) : bool :=
  match last_ping r with
  | Some ping => bool_decide (ping > cutoff)
  | None => false
  end.

(** The claim's reading: last_ping at or after the cutoff. *)
Definition client_active_claimed (cutoff : Z) (r : ClientRow) : bool :=
  match last_ping r with
  | Some ping => bool_decide (ping >= cutoff)
  | None => false
  end.

(** The cutoff of a day bucket: now minus that many days. *)
Definition bucket_cutoff (now : RDFDatetime) (day_bucket : Z) : Z :=
  RDFDatetimeToTimestamp (now - day_bucket * DAYS).

(** The clients with a given value of the statistic that count as active. *)
Definition active_clients (active : ClientRow -> bool)
    (statistic : ClientRow -> option string) (value : option string) (db : DB)
  : list (Z * ClientRow) :=
  List.filter (fun kv => active kv.2 && bool_decide (statistic kv.2 = value))
              (map_to_list (clients db)).

(** The rows of the label index that attach a label owned by 'GRR' to a
    client. *)
Definition grr_labels (cid : Z) (label : string) (db : DB) : list LabelRow :=
  List.filter (fun l => bool_decide (label_client_id l = cid)
                        && bool_decide (label_owner_username l = "GRR"%string)
                        && bool_decide (label_label l = label))
              (client_labels db).

Definition fleet_total (active : ClientRow -> bool)
    (statistic : ClientRow -> option string) (value : option string) (db : DB) : Z :=
  Z.of_nat (length (active_clients active statistic value db)).

Definition fleet_label (active : ClientRow -> bool)
    (statistic : ClientRow -> option string) (label : string)
    (value : option string) (db : DB) : Z :=
  Z.of_nat (length (flat_map (fun kv => grr_labels kv.1 label db)
                             (active_clients active statistic value db))).

Definition swap_key (k : option string * string) : string * option string :=
  (k.2, k.1).

(** The three public methods and the column each of them counts by. *)
Definition statistic_methods
  : list ((RDFDatetime -> gset Z -> DB -> FleetStats) * (ClientRow -> option string)) :=
  [(CountClientVersionStringsByLabel, last_version_string);
   (CountClientPlatformsByLabel, last_platform);
   (CountClientPlatformReleasesByLabel, last_platform_release)].

(** The example store with the label "prod", owned by 'GRR', on client 7. *)
Definition example_labelled_db : DB :=
  with_labels (fun _ => [mkLabelRow 7 "GRR" "GRR" "prod"]) example_db.

(** ** Vocabulary of the further properties *)

(** The row the join of MultiReadClientSnapshot has for one client: its
    snapshot at the snapshot pointer and its startup record at the startup
    pointer, when both pointers are set and hit a row. *)
Definition latest_snapshot_row (cid : Z) (db : DB) : option (Z * blob * Z * blob) :=
  r ← clients db !! cid;
  ts ← last_snapshot_timestamp r;
  h ← client_snapshot_history db !! (cid, ts);
  ts' ← last_startup_timestamp r;
  s ← client_startup_history db !! (cid, ts');
  Some (cid, h, ts, s).

(** The primary key of a client_stats row. *)
Definition stats_key (r : StatsRow) : Z * Z := (stats_client_id r, stats_timestamp r).

(** The stats object of the caller after WriteClientStats: a missing
    timestamp has been filled in. *)
Definition stamped (now : RDFDatetime) (stats : rdf_client_stats.ClientStats)
  : rdf_client_stats.ClientStats :=
  match rdf_client_stats.timestamp stats with
  | None => rdf_client_stats.mkClientStats (rdf_client_stats.body stats) (Some now)
  | Some _ => stats
  end.

(** The labels attached to one client, in the order of the table. *)
Definition client_labels_of (cid : Z) (db : DB) : list rdf_objects.ClientLabel :=
  map (fun r => rdf_objects.mkClientLabel (label_label r) (label_owner_username r))
      (List.filter (fun r => bool_decide (label_client_id r = cid)) (client_labels db)).

(** The rows MultiAddClientLabels sends for a batch. *)
Definition label_args `{Ext : Externals} (client_ids : list ClientID) (owner : string)
    (labels : list string) : list LabelRow :=
  flat_map (fun client_id =>
              map (fun label => mkLabelRow (ClientIDToInt client_id) (Hash owner) owner label)
                  labels)
           client_ids.

(** The rows RemoveClientLabels deletes. *)
Definition label_removed `{Ext : Externals} (cid : Z) (owner : string)
    (labels : list string) (r : LabelRow) : Prop :=
  label_client_id r = cid /\ label_owner_username_hash r = Hash owner
  /\ label_label r ∈ labels.

(** Rows in strictly descending order of their timestamp. *)
Definition newest_first {A} (rows : list (A * Z)) : Prop :=
  StronglySorted (fun a b : A * Z => b.2 < a.2) rows.

(** Rows in strictly ascending order of their client id. *)
Definition ascending {A} (rows : list (Z * A)) : Prop :=
  StronglySorted (fun a b : Z * A => a.1 < b.1) rows.

(** * Properties *)

(** ** Secondary indexes: empty batches *)

(** C9.  MultiAddClientKeywords and MultiAddClientLabels called with no
    client ids, or with no keywords / labels, return normally and leave every
    table as it was, whatever the database holds: no statement runs, so no
    client id is checked against the client table. *)
Theorem MultiAdd_empty_batch_returns_untouched `{Ext : Externals}
    (now : Z) (owner : string) (client_ids : list ClientID) (items : list string)
    (db : DB) :
  client_ids = [] \/ items = [] ->
  MultiAddClientKeywords now client_ids items db = (db, Return tt)
  /\ MultiAddClientLabels client_ids owner items db = (db, Return tt).
Proof.
  intros Hempty.
  unfold MultiAddClientKeywords, MultiAddClientLabels, WithTransaction.
  assert (Hguard : negb (py_bool client_ids) || negb (py_bool items) = true).
  { destruct Hempty as [-> | ->]; [reflexivity|].
    by destruct client_ids. }
  rewrite Hguard. split; reflexivity.
Qed.

(** The ids 8 and 9 name no client of the example store, and the batch of
    keywords / labels is empty. *)
Lemma MultiAdd_empty_batch_witness :
  MultiAddClientKeywords (Ext := example_externals) 50 [8; 9] [] example_db
    = (example_db, Return tt)
  /\ MultiAddClientLabels (Ext := example_externals) [8; 9] "GRR" [] example_db
    = (example_db, Return tt).
Proof.
  apply (MultiAdd_empty_batch_returns_untouched (Ext := example_externals)).
  right. reflexivity.
Defined.

(** ** Retention of client stats *)

(** One round of the loop, as the source reads. *)
Lemma DeleteOldClientStats_loop_round (cutoff_time batch_size : Z) (db : DB) :
  DeleteOldClientStats_loop cutoff_time batch_size db =
  match _DeleteClientStatsBatch cutoff_time batch_size db with
  | (db', Raise e) => (db', mkGenerated [] (Raise e))
  | (db', Return deleted_count) =>
      if bool_decide (deleted_count > 0)
      then let '(db'', g) := DeleteOldClientStats_loop cutoff_time batch_size db' in
           (db'', yield_first deleted_count g)
      else (db', mkGenerated [] (Return tt))
  end.
Proof.
  funelim (DeleteOldClientStats_loop cutoff_time batch_size db).
  all: try rewrite Hbatch.
  all: try match goal with H : _DeleteClientStatsBatch _ _ _ = _ |- _ => rewrite H end.
  all: try match goal with H : bool_decide _ = _ |- _ => rewrite H end.
  all: try reflexivity.
Qed.

Lemma sql_delete_limit_rowcount {A} (P : A -> bool) (k : nat) (rows : list A) :
  (sql_delete_limit P k rows).2 = Nat.min k (length (List.filter P rows)).
Proof.
  revert k. induction rows as [|r rs IH]; intros k.
  - simpl. by rewrite Nat.min_0_r.
  - destruct k as [|k]; [reflexivity|]. simpl.
    destruct (P r).
    + specialize (IH k). destruct (sql_delete_limit P k rs) as [rs' n].
      simpl in *. by rewrite IH.
    + specialize (IH (S k)). destruct (sql_delete_limit P (S k) rs) as [rs' n].
      simpl in *. by rewrite IH.
Qed.

Lemma sql_delete_limit_remaining {A} (P : A -> bool) (k : nat) (rows : list A) :
  length (List.filter P (sql_delete_limit P k rows).1)
  = (length (List.filter P rows) - Nat.min k (length (List.filter P rows)))%nat.
Proof.
  revert k. induction rows as [|r rs IH]; intros k.
  - reflexivity.
  - destruct k as [|k]; [simpl; lia|]. simpl.
    destruct (P r) eqn:HP.
    + specialize (IH k). destruct (sql_delete_limit P k rs) as [rs' n].
      simpl in *. lia.
    + specialize (IH (S k)). destruct (sql_delete_limit P (S k) rs) as [rs' n].
      simpl in *. rewrite HP. simpl. lia.
Qed.

(** A batch with a non-negative size deletes min(batch_size, eligible) rows
    and reports that number. *)
Lemma _DeleteClientStatsBatch_returns (cutoff_time batch_size : Z) (db : DB) :
  0 <= batch_size ->
  exists db',
    _DeleteClientStatsBatch cutoff_time batch_size db
    = (db', Return (Z.of_nat (Nat.min (Z.to_nat batch_size) (eligible cutoff_time db))))
    /\ eligible cutoff_time db'
       = (eligible cutoff_time db
          - Nat.min (Z.to_nat batch_size) (eligible cutoff_time db))%nat.
Proof.
  intros Hb. unfold _DeleteClientStatsBatch, WithTransaction, eligible.
  rewrite bool_decide_eq_false_2 by lia.
  unfold RDFDatetimeToTimestamp.
  pose proof (sql_delete_limit_rowcount (older_than cutoff_time)
                (Z.to_nat batch_size) (client_stats db)) as Hn.
  pose proof (sql_delete_limit_remaining (older_than cutoff_time)
                (Z.to_nat batch_size) (client_stats db)) as Hrest.
  destruct (sql_delete_limit (older_than cutoff_time) (Z.to_nat batch_size)
              (client_stats db)) as [rows n].
  simpl in *. subst n. eexists. split; [reflexivity|]. simpl. exact Hrest.
Qed.

Lemma batch_counts_small (n b : Z) : 0 < n < b -> batch_counts n b = [n].
Proof.
  intros H. unfold batch_counts.
  rewrite Z.div_small, Z.mod_small by lia.
  rewrite bool_decide_eq_false_2 by lia. reflexivity.
Qed.

Lemma batch_counts_zero (b : Z) : 0 < b -> batch_counts 0 b = [].
Proof.
  intros H. unfold batch_counts.
  rewrite Z.div_0_l, Z.mod_0_l by lia.
  rewrite bool_decide_eq_true_2 by done. reflexivity.
Qed.

Lemma batch_counts_step (n b : Z) :
  0 < b <= n -> batch_counts n b = b :: batch_counts (n - b) b.
Proof.
  intros H. unfold batch_counts.
  assert (Hdiv : n / b = (n - b) / b + 1).
  { rewrite <- Z.div_add by lia. f_equal. lia. }
  assert (Hmod : n mod b = (n - b) mod b).
  { rewrite <- (Z.mod_add (n - b) 1 b) by lia. f_equal. lia. }
  rewrite Hdiv, Hmod.
  rewrite Z2Nat.inj_add by (try apply Z.div_pos; lia).
  rewrite Nat.add_comm. reflexivity.
Qed.

Lemma DeleteOldClientStats_loop_counts (cutoff_time batch_size : Z) (db : DB) :
  0 < batch_size ->
  exists db',
    DeleteOldClientStats_loop cutoff_time batch_size db
    = (db', mkGenerated
              (batch_counts (Z.of_nat (eligible cutoff_time db)) batch_size)
              (Return tt))
    /\ eligible cutoff_time db' = O.
Proof.
  intros Hb.
  remember (eligible cutoff_time db) as n eqn:Hn.
  revert db Hn. induction n as [n IH] using lt_wf_ind. intros db Hn.
  rewrite DeleteOldClientStats_loop_round.
  destruct (_DeleteClientStatsBatch_returns cutoff_time batch_size db)
    as (db1 & Hbatch & Hrest); [lia|].
  rewrite Hbatch, <- Hn in *.
  destruct (decide (n = O)) as [-> | Hpos].
  - rewrite Nat.min_0_r. change (Z.of_nat 0) with 0.
    rewrite bool_decide_eq_false_2 by lia.
    rewrite batch_counts_zero by done.
    exists db1. split; [reflexivity|]. lia.
  - rewrite bool_decide_eq_true_2 by lia.
    destruct (IH (eligible cutoff_time db1)) with (db := db1)
      as (db2 & Hloop & Hdone); [lia | reflexivity |].
    rewrite Hloop. exists db2. split; [|exact Hdone].
    unfold yield_first. simpl. do 2 f_equal.
    destruct (decide (Z.of_nat n < batch_size)) as [Hlt | Hge].
    + rewrite Nat.min_r in * by lia.
      rewrite Hrest, Nat.sub_diag, batch_counts_zero by done.
      by rewrite batch_counts_small by lia.
    + rewrite Nat.min_l in * by lia.
      rewrite Z2Nat.id by lia.
      rewrite (batch_counts_step (Z.of_nat n)) by lia.
      rewrite Hrest. do 2 f_equal. lia.
Qed.

(** C8.  With a positive batch size b and n rows older than the cutoff,
    DeleteOldClientStats yields floor(n / b) times the count b, then n mod b
    when that is not zero, and stops normally: every yielded count is
    positive (no trailing zero) and no row older than the cutoff is left. *)
Theorem DeleteOldClientStats_yields_full_batches_then_remainder
    `{Ext : Externals} (cutoff_time batch_size : Z) (db : DB) :
  0 < batch_size ->
  let n := Z.of_nat (eligible cutoff_time db) in
  exists db',
    DeleteOldClientStats cutoff_time (Some batch_size) db
    = (db', mkGenerated
              (replicate (Z.to_nat (n / batch_size)) batch_size
               ++ (if bool_decide (n mod batch_size = 0) then []
                   else [n mod batch_size]))
              (Return tt))
    /\ Forall (fun count => count > 0)
              (yielded (DeleteOldClientStats cutoff_time (Some batch_size) db).2)
    /\ eligible cutoff_time db' = O.
Proof.
  intros Hb n. unfold DeleteOldClientStats. simpl.
  destruct (DeleteOldClientStats_loop_counts cutoff_time batch_size db Hb)
    as (db' & Hloop & Hdone).
  exists db'. rewrite Hloop. split; [reflexivity|]. split; [|exact Hdone].
  simpl. unfold batch_counts. fold n. apply Forall_app. split.
  - apply Forall_replicate. lia.
  - case_bool_decide; [constructor|].
    constructor; [|constructor].
    pose proof (Z.mod_pos_bound n batch_size Hb). lia.
Qed.

(** Batches of 2 over the five old samples of the example: [2; 2; 1]. *)
Lemma DeleteOldClientStats_batches_of_two_witness :
  exists db',
    DeleteOldClientStats (Ext := example_externals) 10 (Some 2) example_stats_db
    = (db', mkGenerated [2; 2; 1] (Return tt))
    /\ Forall (fun count => count > 0)
              (yielded (DeleteOldClientStats (Ext := example_externals) 10 (Some 2)
                          example_stats_db).2)
    /\ eligible 10 db' = O.
Proof.
  apply (DeleteOldClientStats_yields_full_batches_then_remainder
           (Ext := example_externals) 10 2 example_stats_db).
  lia.
Defined.

(** ** Writers *)

Arguments insert_snapshot_history : simpl never.
Arguments insert_startup_history : simpl never.
Arguments insert_crash_history : simpl never.
Arguments sql_update_client : simpl never.
Arguments sql_upsert_client : simpl never.
Arguments sql_upsert_stats : simpl never.
Arguments assign_all : simpl never.

Ltac py_unfold :=
  unfold WithTransaction, bind, ret, raise, gets, modify, try_except,
    try_finally, execute, query in *.

Lemma set_startup_info_restore (c : rdf_objects.ClientSnapshot) :
  set_startup_info (rdf_objects.startup_info c) (set_startup_info None c) = c.
Proof. by destruct c. Qed.

Lemma set_startup_info_back (c : rdf_objects.ClientSnapshot)
    (v w : option rdf_client.StartupInfo) :
  rdf_objects.startup_info c = v ->
  set_startup_info v (set_startup_info w c) = c.
Proof. intros <-. by destruct c. Qed.

Lemma sql_insert_history_unknown (cid ts : Z) (payload : blob)
    (cl : gmap Z ClientRow) (tbl : gmap (Z * Z) blob) :
  cl !! cid = None ->
  sql_insert_history cid ts payload cl tbl = inr (IntegrityError NO_REFERENCED_ROW_2).
Proof. intros H. unfold sql_insert_history. by rewrite H. Qed.

(** C7.  For a client id with no row in the client table, each of
    WriteClientSnapshot, WriteClientStartupInfo, WriteClientCrashInfo and
    WriteClientStats raises UnknownClientError for that id (the translated
    foreign-key violation NO_REFERENCED_ROW_2), and the database it leaves is
    the database it started from: no stream has a new row. *)
Theorem history_writers_reject_unknown_client `{Ext : Externals}
    (now : Z) (client_id : ClientID) (db : DB)
    (snapshot : rdf_objects.ClientSnapshot)
    (startup_info : rdf_client.StartupInfo)
    (crash_info : rdf_client.ClientCrash)
    (stats : rdf_client_stats.ClientStats) :
  clients db !! ClientIDToInt client_id = None ->
  rdf_objects.client_id snapshot = client_id ->
  WriteClientSnapshot now (snapshot, db)
    = ((snapshot, db), Raise (UnknownClientError client_id))
  /\ WriteClientStartupInfo now client_id startup_info db
    = (db, Raise (UnknownClientError client_id))
  /\ WriteClientCrashInfo now client_id crash_info db
    = (db, Raise (UnknownClientError client_id))
  /\ exists stats',
      WriteClientStats now client_id (stats, db)
      = ((stats', db), Raise (UnknownClientError client_id)).
Proof.
  intros Hunknown Hid. repeat split.
  - unfold WriteClientSnapshot. py_unfold. simpl.
    unfold insert_snapshot_history. simpl.
    rewrite Hid, sql_insert_history_unknown by exact Hunknown.
    simpl. by rewrite set_startup_info_restore.
  - unfold WriteClientStartupInfo. py_unfold. simpl.
    unfold insert_startup_history.
    by rewrite sql_insert_history_unknown by exact Hunknown.
  - unfold WriteClientCrashInfo. py_unfold. simpl.
    unfold insert_crash_history.
    by rewrite sql_insert_history_unknown by exact Hunknown.
  - unfold WriteClientStats. py_unfold. simpl.
    destruct (rdf_client_stats.timestamp stats); simpl;
      unfold sql_upsert_stats; rewrite Hunknown; simpl; eexists; reflexivity.
Qed.

(** Client 8 is not in the example store. *)
Lemma history_writers_reject_unknown_client_witness :
  let snapshot := rdf_objects.mkClientSnapshot 8 "Linux" "snapshot"
                    (Some (rdf_client.mkStartupInfo "startup" None)) None in
  WriteClientSnapshot (Ext := example_externals) 1000 (snapshot, example_db)
    = ((snapshot, example_db), Raise (UnknownClientError 8))
  /\ WriteClientStartupInfo (Ext := example_externals) 1000 8
       (rdf_client.mkStartupInfo "startup" None) example_db
    = (example_db, Raise (UnknownClientError 8))
  /\ WriteClientCrashInfo (Ext := example_externals) 1000 8
       (rdf_client.mkClientCrash "crash" None) example_db
    = (example_db, Raise (UnknownClientError 8))
  /\ exists stats',
      WriteClientStats (Ext := example_externals) 1000 8
        (rdf_client_stats.mkClientStats "stats" None, example_db)
      = ((stats', example_db), Raise (UnknownClientError 8)).
Proof.
  intros snapshot.
  apply (history_writers_reject_unknown_client (Ext := example_externals)
           1000 8 example_db snapshot).
  - reflexivity.
  - reflexivity.
Defined.

(** What a successful INSERT into a history stream leaves behind. *)
Lemma insert_snapshot_history_inl (cid ts : Z) (payload : blob) (db db' : DB) :
  insert_snapshot_history cid ts payload db = inl db' ->
  db' = with_snapshot_history (insert (cid, ts) payload) db
  /\ is_Some (clients db !! cid)
  /\ client_snapshot_history db !! (cid, ts) = None.
Proof.
  unfold insert_snapshot_history, sql_insert_history.
  destruct (clients db !! cid); [|discriminate].
  destruct (client_snapshot_history db !! (cid, ts)) eqn:Hh; [discriminate|].
  intros [= <-]. by eauto.
Qed.

Lemma insert_startup_history_inl (cid ts : Z) (payload : blob) (db db' : DB) :
  insert_startup_history cid ts payload db = inl db' ->
  db' = with_startup_history (insert (cid, ts) payload) db
  /\ is_Some (clients db !! cid)
  /\ client_startup_history db !! (cid, ts) = None.
Proof.
  unfold insert_startup_history, sql_insert_history.
  destruct (clients db !! cid); [|discriminate].
  destruct (client_startup_history db !! (cid, ts)) eqn:Hh; [discriminate|].
  intros [= <-]. by eauto.
Qed.

(** What an UPDATE of the client table leaves behind: the guarded row with
    its assignments applied, every other table as it was. *)
Lemma sql_update_client_inl (cid : Z) (guard : ClientRow -> bool)
    (asg : list Assign) (db db' : DB) :
  sql_update_client cid guard asg db = inl db' ->
  db' = with_clients
          (fun cl => match cl !! cid with
                     | Some r => if guard r then <[cid := assign_all asg r]> cl else cl
                     | None => cl
                     end) db.
Proof.
  unfold sql_update_client, with_clients.
  destruct (clients db !! cid) as [r|]; [|intros [= <-]; by destruct db].
  destruct (guard r); [|intros [= <-]; by destruct db].
  destruct (row_pointers_ok db cid r (assign_all asg r)); [|discriminate].
  by intros [= <-].
Qed.

(** C10.  Whatever the database holds and however the call ends, the
    snapshot object WriteClientSnapshot was given is afterwards what it was
    before: startup_info, detached while the statements run, is put back.
    When the call returns, the row it added to the snapshot stream holds the
    serialisation of the snapshot without its startup_info; when it raises,
    the database is as it was. *)
Theorem WriteClientSnapshot_restores_startup_info `{Ext : Externals}
    (now : Z) (snapshot : rdf_objects.ClientSnapshot) (db : DB) :
  (WriteClientSnapshot now (snapshot, db)).1.1 = snapshot
  /\ match (WriteClientSnapshot now (snapshot, db)).2 with
     | Return _ =>
         client_snapshot_history (WriteClientSnapshot now (snapshot, db)).1.2
           !! (ClientIDToInt (rdf_objects.client_id snapshot), now)
         = Some (ClientSnapshot_SerializeToBytes (set_startup_info None snapshot))
     | Raise _ => (WriteClientSnapshot now (snapshot, db)).1.2 = db
     end.
Proof.
  unfold WriteClientSnapshot. py_unfold. simpl.
  destruct (insert_snapshot_history _ _ _ db) as [db1|e1] eqn:H1; simpl.
  2:{ destruct e1; simpl; try case_bool_decide; simpl;
        by rewrite set_startup_info_restore. }
  apply insert_snapshot_history_inl in H1 as (-> & _ & _).
  unfold serialize_startup.
  destruct (rdf_objects.startup_info snapshot) as [si|] eqn:Hsi; simpl.
  2:{ by rewrite (set_startup_info_back _ _ _ Hsi). }
  destruct (insert_startup_history _ _ _ _) as [db2|e2] eqn:H2; simpl.
  2:{ destruct e2; simpl; try case_bool_decide; simpl;
        by rewrite (set_startup_info_back _ _ _ Hsi). }
  apply insert_startup_history_inl in H2 as (-> & _ & _).
  destruct (sql_update_client _ _ _ _) as [db3|e3] eqn:H3; simpl.
  2:{ destruct e3; simpl; try case_bool_decide; simpl;
        by rewrite (set_startup_info_back _ _ _ Hsi). }
  apply sql_update_client_inl in H3 as ->.
  rewrite (set_startup_info_back _ _ _ Hsi). split; [done|].
  simpl. apply lookup_insert_eq.
Qed.

Lemma pointer_ok_same (cid : Z) (p : option Z) (tbl : gmap (Z * Z) blob) :
  pointer_ok cid p p tbl = true.
Proof.
  destruct p as [ts|]; [|reflexivity]. simpl.
  by rewrite bool_decide_eq_true_2.
Qed.

(** The assignments of WriteClientMetadata leave the stream pointers and the
    denormalised snapshot columns alone and set each metadata column exactly
    when its argument passed the test of the source. *)
Lemma WriteClientMetadata_values_assign `{Ext : Externals}
    (new_certificate : option RDFX509Cert)
    (new_first_seen new_last_ping new_last_clock : option RDFDatetime)
    (new_last_ip : option NetworkAddress)
    (new_last_foreman : option RDFDatetime)
    (fleetspeak_validation_info : option (list (string * string)))
    (r : ClientRow) :
  assign_all (WriteClientMetadata_values new_certificate new_first_seen
                new_last_ping new_last_clock new_last_ip new_last_foreman
                fleetspeak_validation_info) r
  = mkClientRow
      (match new_certificate with
       | Some c => if py_bool c then Some (RDFX509Cert_SerializeToBytes c)
                   else certificate r
       | None => certificate r
       end)
      (match new_first_seen with
       | Some t => Some (RDFDatetimeToTimestamp t)
       | None => first_seen r
       end)
      (match new_last_ping with
       | Some t => Some (RDFDatetimeToTimestamp t)
       | None => last_ping r
       end)
      (match new_last_clock with
       | Some t => if RDFDatetime_bool t then Some (RDFDatetimeToTimestamp t)
                   else last_clock r
       | None => last_clock r
       end)
      (match new_last_ip with
       | Some a => if py_bool a then Some (NetworkAddress_SerializeToBytes a)
                   else last_ip r
       | None => last_ip r
       end)
      (match new_last_foreman with
       | Some t => if RDFDatetime_bool t then Some (RDFDatetimeToTimestamp t)
                   else last_foreman r
       | None => last_foreman r
       end)
      (last_snapshot_timestamp r)
      (last_startup_timestamp r)
      (last_crash_timestamp r)
      (last_version_string r)
      (last_platform r)
      (last_platform_release r)
      (match fleetspeak_validation_info with
       | Some d => if py_bool d
                   then Some (FleetspeakValidationInfo_SerializeToBytes (FromStringDict d))
                   else None
       | None => None
       end).
Proof.
  unfold WriteClientMetadata_values, assign_all, datetime_truthy.
  destruct r.
  destruct new_certificate as [c|]; [destruct (py_bool c)|];
    destruct new_first_seen, new_last_ping;
    (destruct new_last_clock as [t1|]; [destruct (RDFDatetime_bool t1)|]);
    (destruct new_last_ip as [a|]; [destruct (py_bool a)|]);
    (destruct new_last_foreman as [t2|]; [destruct (RDFDatetime_bool t2)|]);
    reflexivity.
Qed.

(** C6.  WriteClientMetadata always returns, and the row it leaves for the
    client is the stored row (the all-NULL row when the client is new) with:
    each of certificate, first_seen, last_ping, last_clock, last_ip and
    last_foreman replaced only when the argument was supplied (and, for the
    ones the source tests by truth value, truthy) and kept otherwise;
    last_fleetspeak_validation_info set to the serialised mapping when one
    was supplied and non-empty, and to NULL when it was absent or empty; the
    three stream pointers and the three denormalised snapshot columns kept.
    Rows of other clients and all other tables are untouched. *)
Theorem WriteClientMetadata_assigns_only_supplied_fields `{Ext : Externals}
    (client_id : ClientID)
    (new_certificate : option RDFX509Cert)
    (new_first_seen new_last_ping new_last_clock : option RDFDatetime)
    (new_last_ip : option NetworkAddress)
    (new_last_foreman : option RDFDatetime)
    (fleetspeak_validation_info : option (list (string * string)))
    (db : DB) :
  let r := default default_row (clients db !! ClientIDToInt client_id) in
  exists r',
    WriteClientMetadata client_id new_certificate new_first_seen new_last_ping
      new_last_clock new_last_ip new_last_foreman fleetspeak_validation_info db
    = (with_clients (insert (ClientIDToInt client_id) r') db, Return tt)
    /\ certificate r' = match new_certificate with
                        | Some c => if py_bool c
                                    then Some (RDFX509Cert_SerializeToBytes c)
                                    else certificate r
                        | None => certificate r
                        end
    /\ first_seen r' = match new_first_seen with
                       | Some t => Some (RDFDatetimeToTimestamp t)
                       | None => first_seen r
                       end
    /\ last_ping r' = match new_last_ping with
                      | Some t => Some (RDFDatetimeToTimestamp t)
                      | None => last_ping r
                      end
    /\ last_clock r' = match new_last_clock with
                       | Some t => if RDFDatetime_bool t
                                   then Some (RDFDatetimeToTimestamp t)
                                   else last_clock r
                       | None => last_clock r
                       end
    /\ last_ip r' = match new_last_ip with
                    | Some a => if py_bool a
                                then Some (NetworkAddress_SerializeToBytes a)
                                else last_ip r
                    | None => last_ip r
                    end
    /\ last_foreman r' = match new_last_foreman with
                         | Some t => if RDFDatetime_bool t
                                     then Some (RDFDatetimeToTimestamp t)
                                     else last_foreman r
                         | None => last_foreman r
                         end
    /\ last_fleetspeak_validation_info r'
       = match fleetspeak_validation_info with
         | Some ((_ :: _) as d) =>
             Some (FleetspeakValidationInfo_SerializeToBytes (FromStringDict d))
         | Some [] | None => None
         end
    /\ last_snapshot_timestamp r' = last_snapshot_timestamp r
    /\ last_startup_timestamp r' = last_startup_timestamp r
    /\ last_crash_timestamp r' = last_crash_timestamp r
    /\ last_version_string r' = last_version_string r
    /\ last_platform r' = last_platform r
    /\ last_platform_release r' = last_platform_release r.
Proof.
  intros r. eexists. split.
  - unfold WriteClientMetadata. py_unfold. simpl.
    unfold sql_upsert_client. fold r.
    rewrite WriteClientMetadata_values_assign.
    unfold row_pointers_ok. simpl.
    rewrite !pointer_ok_same. simpl. reflexivity.
  - simpl. repeat split; try reflexivity.
    all: destruct fleetspeak_validation_info as [[|? ?]|]; reflexivity.
Qed.

(** ** The bulk snapshot writer *)

Arguments for_each : simpl never.
Arguments WriteClientSnapshotHistory_step : simpl never.
Arguments snapshot_timestamps : simpl never.

Lemma pointer_le_refl (p : option Z) : pointer_le p p.
Proof. destruct p; simpl; lia. Qed.

Lemma pointer_le_advance (latest : Z) (p : option Z) : pointer_le p (advance latest p).
Proof. destruct p; simpl; [|done]. case_bool_decide; simpl; lia. Qed.

Lemma advance_advance (m1 m2 : Z) (p : option Z) :
  advance m2 (advance m1 p) = advance (Z.max m1 m2) p.
Proof.
  destruct p as [p|]; simpl; repeat (case_bool_decide; simpl); f_equal; lia.
Qed.

Lemma WriteClientSnapshotHistory_step_clients `{Ext : Externals}
    (cid : Z) (i : nat) (client : rdf_objects.ClientSnapshot) (ts : Z)
    (s : list rdf_objects.ClientSnapshot * DB) :
  clients (WriteClientSnapshotHistory_step cid i client ts s).1.2 = clients s.2.
Proof.
  unfold WriteClientSnapshotHistory_step, serialize_startup. py_unfold. simpl.
  destruct (rdf_objects.startup_info client); simpl; [|done].
  destruct (insert_snapshot_history _ _ _ _) as [db1|] eqn:H1; simpl; [|done].
  apply insert_snapshot_history_inl in H1 as (-> & _ & _).
  destruct (insert_startup_history _ _ _ _) as [db2|] eqn:H2; simpl; [|done].
  by apply insert_startup_history_inl in H2 as (-> & _ & _).
Qed.

Lemma for_each_clients {O A} (body : A -> Py (O * DB) unit) (xs : list A) :
  (forall x s, clients (body x s).1.2 = clients s.2) ->
  forall s, clients (for_each xs body s).1.2 = clients s.2.
Proof.
  intros Hbody. induction xs as [|x xs IH]; intros s; [reflexivity|].
  unfold for_each; fold (@for_each (O * DB) A). unfold bind.
  specialize (Hbody x s). destruct (body x s) as [s1 [[]|e]]; simpl in *.
  - by rewrite IH.
  - done.
Qed.

Lemma bump_pointers_lookup (cid latest : Z) (cl : gmap Z ClientRow) (r : ClientRow) :
  cl !! cid = Some r ->
  exists r',
    bump_pointers cid latest cl !! cid = Some r'
    /\ last_snapshot_timestamp r' = advance latest (last_snapshot_timestamp r)
    /\ last_startup_timestamp r' = advance latest (last_startup_timestamp r).
Proof.
  intros Hr. unfold bump_pointers, pointer_older, advance, assign_all. rewrite Hr.
  destruct r as [? ? ? ? ? ? snap start ? ? ? ? ?]. simpl.
  destruct snap as [p|], start as [q|]; simpl;
    repeat (case_bool_decide; simpl);
    rewrite ?lookup_insert_eq, ?Hr; simpl;
    repeat (case_bool_decide; simpl);
    rewrite ?lookup_insert_eq, ?Hr; simpl;
    eexists; (split; [reflexivity|]); simpl; try done; try lia.
Qed.

Lemma bump_pointers_lookup_ne (cid cid' latest : Z) (cl : gmap Z ClientRow) :
  cid ≠ cid' -> bump_pointers cid latest cl !! cid' = cl !! cid'.
Proof.
  intros Hne. unfold bump_pointers.
  destruct (cl !! cid) as [r|] eqn:Hr.
  - destruct (pointer_older last_snapshot_timestamp latest r).
    + rewrite lookup_insert_eq.
      destruct (pointer_older last_startup_timestamp latest _);
        by rewrite ?lookup_insert_ne by done.
    + rewrite Hr.
      destruct (pointer_older last_startup_timestamp latest _);
        by rewrite ?lookup_insert_ne by done.
  - by rewrite Hr.
Qed.

(** A call of the bulk writer that returns has run its two guarded updates
    on an otherwise unchanged client table. *)
Lemma WriteClientSnapshotHistory_returns `{Ext : Externals}
    (cs : list rdf_objects.ClientSnapshot) (db : DB)
    (s' : list rdf_objects.ClientSnapshot * DB) :
  WriteClientSnapshotHistory (cs, db) = (s', Return tt) ->
  exists cid latest,
    batch_client cs = Some cid /\ batch_latest cs = Some latest
    /\ clients s'.2 = bump_pointers (ClientIDToInt cid) latest (clients db).
Proof.
  unfold WriteClientSnapshotHistory, batch_client, batch_latest.
  unfold WithTransaction, bind at 1, gets. simpl.
  destruct cs as [|c0 cs]; [discriminate|].
  destruct (snapshot_timestamps (c0 :: cs)) as [[|t0 ts]|] eqn:Hts;
    simpl; try discriminate.
  unfold try_except, bind.
  match goal with |- context [for_each ?xs ?body ?st] =>
    assert (Hloop : clients (for_each xs body st).1.2 = clients st.2)
      by (apply for_each_clients; intros [i [c t]] st';
          apply WriteClientSnapshotHistory_step_clients);
    destruct (for_each xs body st) as [s1 [[]|e1]]
  end; simpl in *.
  2:{ destruct e1; discriminate. }
  unfold execute. simpl.
  destruct (sql_update_client _ _ _ s1.2) as [db2|e2] eqn:H2; simpl.
  2:{ destruct e2; discriminate. }
  destruct (sql_update_client _ _ _ db2) as [db3|e3] eqn:H3; simpl.
  2:{ destruct e3; discriminate. }
  intros [= <-]. simpl.
  apply sql_update_client_inl in H2 as ->. apply sql_update_client_inl in H3 as ->.
  simpl. rewrite Hloop. unfold RDFDatetimeToTimestamp.
  exists (rdf_objects.client_id c0), (max_timestamp t0 ts).
  split; [reflexivity|]. split; [reflexivity|]. reflexivity.
Qed.

(** A call of the bulk writer that raises leaves the database as it was. *)
Lemma WriteClientSnapshotHistory_raises `{Ext : Externals}
    (cs : list rdf_objects.ClientSnapshot) (db : DB)
    (s' : list rdf_objects.ClientSnapshot * DB) (e : Exception) :
  WriteClientSnapshotHistory (cs, db) = (s', Raise e) -> s'.2 = db.
Proof.
  unfold WriteClientSnapshotHistory, WithTransaction.
  match goal with |- context [let (_, _) := ?m ?s in _] => destruct (m s) as [s1 [[]|e1]] end.
  - discriminate.
  - by intros [= <- _].
Qed.

(** One call: no pointer of any client moves backward, whether the call
    returns or raises, and a call that returns leaves the pointers of its
    client at [advance latest]. *)
Lemma WriteClientSnapshotHistory_one_call `{Ext : Externals}
    (cs : list rdf_objects.ClientSnapshot) (db : DB) (client_id : ClientID)
    (r : ClientRow) :
  clients db !! ClientIDToInt client_id = Some r ->
  exists r',
    clients (WriteClientSnapshotHistory (cs, db)).1.2 !! ClientIDToInt client_id
    = Some r'
    /\ pointer_le (last_snapshot_timestamp r) (last_snapshot_timestamp r')
    /\ pointer_le (last_startup_timestamp r) (last_startup_timestamp r')
    /\ forall latest,
        (WriteClientSnapshotHistory (cs, db)).2 = Return tt ->
        batch_client cs = Some client_id ->
        batch_latest cs = Some latest ->
        last_snapshot_timestamp r' = advance latest (last_snapshot_timestamp r)
        /\ last_startup_timestamp r' = advance latest (last_startup_timestamp r).
Proof.
  intros Hr.
  destruct (WriteClientSnapshotHistory (cs, db)) as [s' [[]|e]] eqn:Hcall; simpl.
  - apply WriteClientSnapshotHistory_returns in Hcall
      as (cid0 & latest0 & Hcid & Hlatest & ->).
    destruct (decide (cid0 = client_id)) as [-> | Hne].
    + destruct (bump_pointers_lookup _ latest0 _ _ Hr) as (r' & Hr' & Hsnap & Hstart).
      exists r'. rewrite Hsnap, Hstart.
      split_and!; try apply pointer_le_advance; try done.
      intros latest _ _ Hl. split; congruence.
    + unfold ClientIDToInt in *. rewrite bump_pointers_lookup_ne by done.
      exists r. split_and!; try apply pointer_le_refl; try done.
      intros latest _ Hc. congruence.
  - apply WriteClientSnapshotHistory_raises in Hcall as ->.
    exists r. split_and!; try apply pointer_le_refl; try done.
Qed.

Lemma max_timestamp_elem (t0 : Z) (ts : list Z) : max_timestamp t0 ts ∈ t0 :: ts.
Proof.
  unfold max_timestamp. revert t0.
  induction ts as [|t ts IH]; intros t0; simpl; [by left|].
  specialize (IH (Z.max t0 t)). apply elem_of_cons in IH as [Heq|Hin].
  - rewrite Heq. destruct (Z.max_spec t0 t) as [[_ ->]|[_ ->]];
      [right; by left|by left].
  - right. by right.
Qed.

Lemma max_timestamp_ge (t0 : Z) (ts : list Z) (t : Z) :
  t ∈ t0 :: ts -> t <= max_timestamp t0 ts.
Proof.
  unfold max_timestamp.
  assert (Hfold : forall (l : list Z) (acc : Z),
             acc <= foldl Z.max acc l /\ forall x, x ∈ l -> x <= foldl Z.max acc l).
  { induction l as [|y l IH]; intros acc; simpl.
    - split; [lia|]. intros x Hx. by apply elem_of_nil in Hx.
    - destruct (IH (Z.max acc y)) as [Hacc Hall]. split; [lia|].
      intros x Hx. apply elem_of_cons in Hx as [->|Hx]; [lia|by apply Hall]. }
  destruct (Hfold ts t0) as [Hacc Hall].
  intros Hin. apply elem_of_cons in Hin as [->|Hin]; [done|by apply Hall].
Qed.

(** What the writer takes as the latest timestamp of a batch is the maximum
    of the timestamps of its snapshots. *)
Lemma batch_latest_latest_of (cs : list rdf_objects.ClientSnapshot) (m : Z) :
  batch_latest cs = Some m -> latest_of cs m.
Proof.
  unfold batch_latest.
  destruct (snapshot_timestamps cs) as [[|t0 ts]|] eqn:Hts; try discriminate.
  intros [= <-]. unfold snapshot_timestamps in Hts. apply mapM_Some in Hts. split.
  - pose proof (max_timestamp_elem t0 ts) as Hin.
    apply list_elem_of_lookup in Hin as [i Hi].
    destruct (Forall2_lookup_r _ _ _ _ _ Hts Hi) as (c & Hc & Hct).
    exists c. split; [by eapply list_elem_of_lookup_2|done].
  - intros c t Hc Ht. apply list_elem_of_lookup in Hc as [i Hi].
    destruct (Forall2_lookup_l _ _ _ _ _ Hts Hi) as (t' & Ht' & Hct).
    apply max_timestamp_ge. rewrite Ht in Hct. injection Hct as <-.
    by eapply list_elem_of_lookup_2.
Qed.

Lemma latest_of_unique (cs : list rdf_objects.ClientSnapshot) (m m' : Z) :
  latest_of cs m -> latest_of cs m' -> m = m'.
Proof.
  intros [(c & Hc & Hm) Hle] [(c' & Hc' & Hm') Hle'].
  pose proof (Hle c' m' Hc' Hm'). pose proof (Hle' c m Hc Hm). lia.
Qed.

(** C1, as the source has it.  Two calls of WriteClientSnapshotHistory in a
    row, for a client that has a row.  Whether the calls return or raise, the
    snapshot and startup pointers of the client never move backward.  A call
    that returns has written a batch that has a maximum timestamp, and moves
    each pointer to that maximum (the timestamp of one of the snapshots that
    no snapshot of the batch exceeds, wherever it stands in the batch)
    exactly when the pointer was NULL or older than it, and leaves it alone
    otherwise.  When both calls return, each pointer ends at the larger of
    the two batch maxima unless it was already beyond: the result is the same
    for either order of the two batches. *)
Theorem WriteClientSnapshotHistory_pointers_never_move_backward `{Ext : Externals}
    (batch1 batch2 : list rdf_objects.ClientSnapshot) (db : DB)
    (client_id : ClientID) (r : ClientRow) :
  clients db !! ClientIDToInt client_id = Some r ->
  let res1 := WriteClientSnapshotHistory (batch1, db) in
  let res2 := WriteClientSnapshotHistory (batch2, res1.1.2) in
  exists r1 r2,
    clients res1.1.2 !! ClientIDToInt client_id = Some r1
    /\ clients res2.1.2 !! ClientIDToInt client_id = Some r2
    /\ pointer_le (last_snapshot_timestamp r) (last_snapshot_timestamp r1)
    /\ pointer_le (last_snapshot_timestamp r1) (last_snapshot_timestamp r2)
    /\ pointer_le (last_startup_timestamp r) (last_startup_timestamp r1)
    /\ pointer_le (last_startup_timestamp r1) (last_startup_timestamp r2)
    /\ (res1.2 = Return tt -> exists m1, latest_of batch1 m1)
    /\ (res2.2 = Return tt -> exists m2, latest_of batch2 m2)
    /\ (forall m1,
          res1.2 = Return tt -> batch_client batch1 = Some client_id ->
          latest_of batch1 m1 ->
          last_snapshot_timestamp r1 = advance m1 (last_snapshot_timestamp r)
          /\ last_startup_timestamp r1 = advance m1 (last_startup_timestamp r))
    /\ (forall m1 m2,
          res1.2 = Return tt -> res2.2 = Return tt ->
          batch_client batch1 = Some client_id ->
          batch_client batch2 = Some client_id ->
          latest_of batch1 m1 -> latest_of batch2 m2 ->
          last_snapshot_timestamp r2
          = advance (Z.max m1 m2) (last_snapshot_timestamp r)
          /\ last_startup_timestamp r2
             = advance (Z.max m1 m2) (last_startup_timestamp r)).
Proof.
  intros Hr res1 res2.
  destruct (WriteClientSnapshotHistory_one_call batch1 db client_id r Hr)
    as (r1 & Hr1 & Hsnap1 & Hstart1 & Hadv1).
  destruct (WriteClientSnapshotHistory_one_call batch2 res1.1.2 client_id r1 Hr1)
    as (r2 & Hr2 & Hsnap2 & Hstart2 & Hadv2).
  assert (Hmax : forall cs db0,
             (WriteClientSnapshotHistory (cs, db0)).2 = Return tt ->
             exists m, batch_latest cs = Some m /\ latest_of cs m).
  { intros cs db0 Hret.
    destruct (WriteClientSnapshotHistory (cs, db0)) as [s' o] eqn:Hcall.
    simpl in Hret. subst o.
    apply WriteClientSnapshotHistory_returns in Hcall as (cid & m & _ & Hm & _).
    exists m. split; [done|by apply batch_latest_latest_of]. }
  assert (Hsame : forall cs db0 m,
             (WriteClientSnapshotHistory (cs, db0)).2 = Return tt ->
             latest_of cs m -> batch_latest cs = Some m).
  { intros cs db0 m Hret Hm. destruct (Hmax cs db0 Hret) as (m' & Hb & Hm').
    by rewrite (latest_of_unique cs m m'). }
  exists r1, r2. split_and!; try done.
  - intros Hret. destruct (Hmax batch1 db Hret) as (m & _ & Hm). by exists m.
  - intros Hret. destruct (Hmax batch2 res1.1.2 Hret) as (m & _ & Hm). by exists m.
  - intros m1 Hret Hc Hm. apply Hadv1; try done. by eapply Hsame.
  - intros m1 m2 Hret1 Hret2 Hc1 Hc2 Hm1 Hm2.
    destruct (Hadv1 m1) as [E1 E1']; try done; [by eapply Hsame|].
    destruct (Hadv2 m2) as [E2 E2']; try done; [by eapply Hsame|].
    by rewrite E2, E2', E1, E1', !advance_advance.
Qed.

(** Client 7 of the example store has no pointers yet.  A batch whose
    timestamps are 2 and then 5 and a batch with timestamp 3, written in
    either order: both calls return and both pointers end at 5, the maximum,
    which is not the first timestamp of its batch. *)
Lemma WriteClientSnapshotHistory_five_then_three_witness :
  let batch5 := [example_snapshot (Some 2); example_snapshot (Some 5)] in
  let batch3 := [example_snapshot (Some 3)] in
  let write := WriteClientSnapshotHistory (Ext := example_externals) in
  (exists r2,
      clients (write (batch3, (write (batch5, example_db)).1.2)).1.2 !! 7 = Some r2
      /\ last_snapshot_timestamp r2 = Some 5 /\ last_startup_timestamp r2 = Some 5)
  /\ (exists r2,
      clients (write (batch5, (write (batch3, example_db)).1.2)).1.2 !! 7 = Some r2
      /\ last_snapshot_timestamp r2 = Some 5 /\ last_startup_timestamp r2 = Some 5).
Proof.
  intros batch5 batch3 write.
  pose (row := mkClientRow (Some "cert"%string) None (Some 100) None None None
                 None None None None (Some "Linux"%string) None None).
  assert (H5 : latest_of batch5 5).
  { split.
    - exists (example_snapshot (Some 5)). split; [|reflexivity].
      apply elem_of_cons. right. apply elem_of_cons. by left.
    - intros c t Hc Ht. subst batch5.
      apply elem_of_cons in Hc as [->|Hc]; [injection Ht as <-; lia|].
      apply list_elem_of_singleton in Hc as ->. injection Ht as <-. lia. }
  assert (H3 : latest_of batch3 3).
  { split.
    - exists (example_snapshot (Some 3)). split; [|reflexivity].
      apply elem_of_cons. by left.
    - intros c t Hc Ht. subst batch3.
      apply list_elem_of_singleton in Hc as ->. injection Ht as <-. lia. }
  split.
  - destruct (WriteClientSnapshotHistory_pointers_never_move_backward
                (Ext := example_externals) batch5 batch3 example_db 7 row eq_refl)
      as (r1 & r2 & _ & Hr2 & _ & _ & _ & _ & _ & _ & _ & Hboth).
    exists r2. split; [exact Hr2|].
    apply (Hboth 5 3); try reflexivity; assumption.
  - destruct (WriteClientSnapshotHistory_pointers_never_move_backward
                (Ext := example_externals) batch3 batch5 example_db 7 row eq_refl)
      as (r1 & r2 & _ & Hr2 & _ & _ & _ & _ & _ & _ & _ & Hboth).
    exists r2. split; [exact Hr2|].
    apply (Hboth 3 5); try reflexivity; assumption.
Defined.

(** C1 as claimed fails: the pointers are not monotone across the lifetime
    of the record.  The guard is in the bulk writer alone; WriteClientStartupInfo
    and WriteClientSnapshot set their pointers to the time of the write
    whatever the pointers hold.  Client 7 of the example store gets a batch
    with timestamp 1000: both pointers are 1000.  A startup record written at
    time 5 then moves the startup pointer back to 5, and a snapshot written
    at time 6 moves both pointers back to 6. *)
Lemma WriteClientSnapshotHistory_counterexample :
  let bulk := WriteClientSnapshotHistory (Ext := example_externals)
                ([example_snapshot (Some 1000)], example_db) in
  let startup := WriteClientStartupInfo (Ext := example_externals) 5 7
                   (rdf_client.mkStartupInfo "boot" None) bulk.1.2 in
  let single := WriteClientSnapshot (Ext := example_externals) 6
                  (example_snapshot None, bulk.1.2) in
  bulk.2 = Return tt
  /\ last_snapshot_timestamp <$> clients bulk.1.2 !! 7 = Some (Some 1000)
  /\ last_startup_timestamp <$> clients bulk.1.2 !! 7 = Some (Some 1000)
  /\ startup.2 = Return tt
  /\ last_startup_timestamp <$> clients startup.1 !! 7 = Some (Some 5)
  /\ single.2 = Return tt
  /\ last_snapshot_timestamp <$> clients single.1.2 !! 7 = Some (Some 6)
  /\ last_startup_timestamp <$> clients single.1.2 !! 7 = Some (Some 6)
  /\ ~ pointer_le (Some 1000) (Some 5)
  /\ ~ pointer_le (Some 1000) (Some 6).
Proof.
  vm_compute. split_and!; try reflexivity; intros H; by apply H.
Qed.

(** ** Python dictionaries *)

Lemma py_dict_update_notin {K V} `{Countable K} (d : gmap K V)
    (pairs : list (K * V)) (k : K) :
  k ∉ map fst pairs -> py_dict_update d pairs !! k = d !! k.
Proof.
  unfold py_dict_update. revert d.
  induction pairs as [|[k' v'] pairs IH]; intros d Hk; [reflexivity|].
  simpl in *. rewrite IH.
  - apply lookup_insert_ne. intros ->. apply Hk. left.
  - intros Hin. apply Hk. by right.
Qed.

Lemma py_dict_update_in {K V} `{Countable K} (d : gmap K V)
    (pairs : list (K * V)) (k : K) (v : V) :
  NoDup (map fst pairs) -> (k, v) ∈ pairs -> py_dict_update d pairs !! k = Some v.
Proof.
  unfold py_dict_update. revert d.
  induction pairs as [|[k' v'] pairs IH]; intros d Hnd Hin.
  - by apply elem_of_nil in Hin.
  - simpl in *. apply NoDup_cons in Hnd as [Hk' Hnd].
    apply elem_of_cons in Hin as [[= <- <-] | Hin].
    + fold (py_dict_update (<[k:=v]> d) pairs).
      rewrite py_dict_update_notin by done. apply lookup_insert_eq.
    + by apply IH.
Qed.

Lemma py_dict_const_lookup {K V} `{Countable K} (ks : list K) (v : V) (k : K) :
  k ∈ ks -> py_dict (map (fun k => (k, v)) ks) !! k = Some v.
Proof.
  unfold py_dict, py_dict_update. generalize (∅ : gmap K V).
  induction ks as [|k' ks IH]; intros d Hin.
  - by apply elem_of_nil in Hin.
  - simpl. destruct (decide (k ∈ ks)) as [Hks | Hks]; [by apply IH|].
    apply elem_of_cons in Hin as [-> | Hin]; [|done].
    fold (py_dict_update (<[k':=v]> d) (map (fun k => (k, v)) ks)).
    rewrite py_dict_update_notin; [apply lookup_insert_eq|].
    intros Hin. apply Hks.
    apply list_elem_of_fmap in Hin as ([k0 v0] & -> & Hin).
    apply list_elem_of_fmap in Hin as (k1 & [= -> ->] & Hin). done.
Qed.

(** ** Readers *)

Lemma select_clients_in_elem (ids : list Z) (db : DB) (k : Z) (r : ClientRow) :
  (k, r) ∈ select_clients_in ids db <-> clients db !! k = Some r /\ k ∈ ids.
Proof.
  unfold select_clients_in. rewrite list_elem_of_In, filter_In, <- list_elem_of_In.
  rewrite elem_of_map_to_list, bool_decide_eq_true. done.
Qed.

Lemma NoDup_fst_filter {A B} (f : A * B -> bool) (l : list (A * B)) :
  NoDup (map fst l) -> NoDup (map fst (List.filter f l)).
Proof.
  induction l as [|x l IH]; simpl; [done|].
  intros [Hx Hl]%NoDup_cons. destruct (f x); simpl; [|by apply IH].
  apply NoDup_cons. split; [|by apply IH].
  intros Hin. apply Hx.
  apply list_elem_of_fmap in Hin as (y & -> & Hy).
  apply list_elem_of_fmap. exists y. split; [done|].
  apply list_elem_of_In. apply list_elem_of_In, filter_In in Hy. tauto.
Qed.

Lemma select_clients_in_NoDup (ids : list Z) (db : DB) :
  NoDup (map fst (select_clients_in ids db)).
Proof. apply NoDup_fst_filter, NoDup_fst_map_to_list. Qed.

(** A row of the snapshot join comes from a client whose snapshot pointer is
    set. *)
Lemma select_latest_snapshots_key `{Ext : Externals} (ids : list Z) (db : DB) (cid : Z) :
  cid ∈ map (fun row : Z * blob * Z * blob => row.1.1.1) (select_latest_snapshots ids db) ->
  exists r ts, clients db !! cid = Some r /\ last_snapshot_timestamp r = Some ts.
Proof.
  intros Hin. apply list_elem_of_fmap in Hin as (row & -> & Hrow).
  unfold select_latest_snapshots in Hrow.
  apply list_elem_of_omap in Hrow as ([k r] & Hkr & Hjoin).
  apply select_clients_in_elem in Hkr as [Hr _]. simpl in Hjoin.
  destruct (last_snapshot_timestamp r) as [ts|] eqn:Hts; [|discriminate].
  simpl in Hjoin.
  destruct (client_snapshot_history db !! (k, ts)); [|discriminate]. simpl in Hjoin.
  destruct (last_startup_timestamp r) as [ts'|]; [|discriminate]. simpl in Hjoin.
  destruct (client_startup_history db !! (k, ts')); [|discriminate]. simpl in Hjoin.
  injection Hjoin as <-. simpl. eauto.
Qed.

(** MultiReadClientSnapshot maps every requested id that has no row in the
    client table, or whose snapshot pointer is NULL, to None. *)
Lemma MultiReadClientSnapshot_without_pointer `{Ext : Externals}
    (client_ids : list ClientID) (db : DB) (client_id : ClientID) :
  client_id ∈ client_ids ->
  (forall r, clients db !! ClientIDToInt client_id = Some r ->
             last_snapshot_timestamp r = None) ->
  exists m,
    MultiReadClientSnapshot client_ids db = (db, Return m)
    /\ m !! client_id = Some None.
Proof.
  intros Hin Hnone. unfold MultiReadClientSnapshot. py_unfold. simpl.
  destruct client_ids as [|c0 cs] eqn:Hids; [by apply elem_of_nil in Hin|].
  rewrite <- Hids in *. simpl.
  replace (py_bool client_ids) with true by (by rewrite Hids). simpl.
  eexists. split; [reflexivity|].
  rewrite py_dict_update_notin.
  - by apply py_dict_const_lookup.
  - rewrite map_map. simpl. unfold IntToClientID.
    intros Hkey. apply select_latest_snapshots_key in Hkey as (r & ts & Hr & Hts).
    apply Hnone in Hr. congruence.
Qed.

Lemma MultiReadClientMetadata_lookup `{Ext : Externals}
    (client_ids : list ClientID) (db : DB) (client_id : ClientID) :
  client_id ∈ client_ids ->
  exists m,
    MultiReadClientMetadata client_ids db = (db, Return m)
    /\ m !! client_id = metadata_of_row <$> clients db !! ClientIDToInt client_id.
Proof.
  intros Hin. unfold MultiReadClientMetadata. py_unfold.
  unfold ClientIDToInt, IntToClientID. rewrite map_id.
  destruct client_ids as [|c0 cs] eqn:Hids; [by apply elem_of_nil in Hin|].
  rewrite <- Hids in *. simpl.
  eexists. split; [reflexivity|].
  destruct (clients db !! client_id) as [r|] eqn:Hr; simpl.
  - apply py_dict_update_in.
    + rewrite map_map. simpl. apply select_clients_in_NoDup.
    + apply list_elem_of_fmap. exists (client_id, r). split; [done|].
      by apply select_clients_in_elem.
  - rewrite py_dict_update_notin; [apply lookup_empty|].
    rewrite map_map. simpl. intros Hkey.
    apply list_elem_of_fmap in Hkey as ([k r] & -> & Hkr).
    apply select_clients_in_elem in Hkr as [Hr' _]. simpl in Hr. congruence.
Qed.

(** C5, as the source has it.  For a requested client id that has no
    snapshot pointer (its row has last_snapshot_timestamp NULL, or it has no
    row at all), MultiReadClientSnapshot maps the id to None, and
    MultiReadClientMetadata maps the id to the metadata record built from its
    row when it has one and leaves the id out when it has none. *)
Theorem batched_readers_on_client_without_snapshot `{Ext : Externals}
    (client_ids : list ClientID) (db : DB) (client_id : ClientID) :
  client_id ∈ client_ids ->
  (forall r, clients db !! ClientIDToInt client_id = Some r ->
             last_snapshot_timestamp r = None) ->
  exists snapshots metadata,
    MultiReadClientSnapshot client_ids db = (db, Return snapshots)
    /\ snapshots !! client_id = Some None
    /\ MultiReadClientMetadata client_ids db = (db, Return metadata)
    /\ metadata !! client_id
       = metadata_of_row <$> clients db !! ClientIDToInt client_id.
Proof.
  intros Hin Hnone.
  destruct (MultiReadClientSnapshot_without_pointer client_ids db client_id Hin Hnone)
    as (snapshots & Hs & Hsl).
  destruct (MultiReadClientMetadata_lookup client_ids db client_id Hin)
    as (metadata & Hm & Hml).
  by exists snapshots, metadata.
Qed.

(** Client 7 of the example store has a row and no snapshot pointer. *)
Lemma batched_readers_on_client_without_snapshot_witness :
  exists snapshots metadata,
    MultiReadClientSnapshot (Ext := example_externals) [7; 8] example_db
    = (example_db, Return snapshots)
    /\ snapshots !! 7 = Some None
    /\ MultiReadClientMetadata (Ext := example_externals) [7; 8] example_db
       = (example_db, Return metadata)
    /\ metadata !! 7
       = metadata_of_row (Ext := example_externals) <$> clients example_db !! 7.
Proof.
  apply (batched_readers_on_client_without_snapshot (Ext := example_externals)
           [7; 8] example_db 7).
  - apply elem_of_cons. left. reflexivity.
  - intros r Hr. vm_compute in Hr. injection Hr as <-. reflexivity.
Defined.

(** C5 as claimed fails on the example store: for client 7, which has a row
    and no snapshot pointer, MultiReadClientSnapshot gives None and not an
    empty-shell snapshot, and MultiReadClientMetadata gives a metadata record
    and not an absent value. *)
Lemma batched_readers_counterexample :
  (MultiReadClientSnapshot (Ext := example_externals) [7] example_db).2
    = Return {[7 := None]}
  /\ (MultiReadClientSnapshot (Ext := example_externals) [7] example_db).2
    <> Return {[7 := Some (empty_shell_snapshot 7)]}
  /\ exists record,
      (MultiReadClientMetadata (Ext := example_externals) [7] example_db).2
      = Return {[7 := record]}.
Proof.
  split; [|split].
  - vm_compute. reflexivity.
  - vm_compute. intros H. discriminate H.
  - eexists. vm_compute. reflexivity.
Qed.

(** ** DeleteClient *)



Lemma DeleteClient_statements (cascade : bool) (cid : Z) (db : DB) (r : ClientRow) :
  clients db !! cid = Some r ->
  exists db2,
    sql_update_client cid (fun _ => true) DeleteClient_update_clauses db
    = inl (with_clients (insert cid (assign_all DeleteClient_update_clauses r)) db)
    /\ row_is_referenced
         (with_clients (insert cid (assign_all DeleteClient_update_clauses r)) db)
         cid (assign_all DeleteClient_update_clauses r) = false
    /\ sql_delete_client cascade cid
         (with_clients (insert cid (assign_all DeleteClient_update_clauses r)) db)
       = inl db2
    /\ clients db2 = delete cid (clients db).
Proof.
  intros Hr. eexists. split.
  { unfold sql_update_client. rewrite Hr. by destruct r. }
  assert (Hclear : row_is_referenced
                     (with_clients
                        (insert cid (assign_all DeleteClient_update_clauses r)) db)
                     cid (assign_all DeleteClient_update_clauses r) = false).
  { by destruct r. }
  split; [exact Hclear|].
  unfold sql_delete_client. simpl clients at 1. rewrite lookup_insert_eq, Hclear.
  split; [reflexivity|]. simpl. apply delete_insert_eq.
Qed.




(** ** The composite full-info reader *)

Lemma contiguous_tail (k : Z) (keys : list Z) :
  contiguous (k :: keys) -> contiguous keys.
Proof.
  intros H i j l a Hlt Hi Hl. apply (H (S i) (S j) (S l) a); [lia|done..].
Qed.

Lemma contiguous_head (k : Z) (keys : list Z) :
  contiguous (k :: keys) -> k ∈ keys -> head keys = Some k.
Proof.
  intros H Hin. apply list_elem_of_lookup in Hin as [j Hj].
  destruct j as [|j]; [by destruct keys|].
  specialize (H O 1%nat (S (S j)) k). simpl in H.
  rewrite <- head_lookup in H. apply H; [lia|done..].
Qed.

Lemma contiguous_change (c k : Z) (keys : list Z) :
  contiguous (c :: k :: keys) -> k ≠ c -> c ∉ k :: keys.
Proof.
  intros H Hne Hin. apply contiguous_head in Hin; [|done].
  simpl in Hin. congruence.
Qed.

Lemma rows_of_notin (c : Z) (response : list FullInfoRow.t) :
  c ∉ map FullInfoRow.cid response -> rows_of c response = [].
Proof.
  intros Hc. unfold rows_of. induction response as [|row rest IH]; [done|].
  simpl in *. rewrite bool_decide_eq_false_2.
  - apply IH. intros Hin. apply Hc. by right.
  - intros Heq. apply Hc. rewrite <- Heq. left.
Qed.

Lemma start_full_info_paired `{Ext : Externals} (row : FullInfoRow.t) :
  row_paired row -> exists info, start_full_info row = Return info
                                 /\ rdf_meta.labels info = [].
Proof.
  unfold row_paired, start_full_info, from_bytes. intros Hp.
  destruct (FullInfoRow.client_obj row); [|by eexists].
  destruct (FullInfoRow.client_startup_obj row); [by eexists|].
  destruct Hp as [? [=]]. by eexists.
Qed.

Lemma add_row_label_add_labels `{Ext : Externals} (row : FullInfoRow.t)
    (c : rdf_meta.ClientFullInfo) :
  add_row_label row c = add_labels (option_list (row_label row)) c.
Proof.
  unfold add_row_label, row_label, add_labels, labels_append.
  destruct c as [m ls s si rrg].
  destruct (FullInfoRow.label_owner row) as [[|a o]|],
           (FullInfoRow.label_name row) as [[|b n]|];
    simpl; by rewrite ?app_nil_r.
Qed.

Lemma add_labels_app `{Ext : Externals} (l1 l2 : list rdf_objects.ClientLabel)
    (c : rdf_meta.ClientFullInfo) :
  add_labels l2 (add_labels l1 c) = add_labels (l1 ++ l2) c.
Proof. unfold add_labels. simpl. by rewrite app_assoc. Qed.

Lemma add_labels_nil `{Ext : Externals} (c : rdf_meta.ClientFullInfo) :
  add_labels [] c = c.
Proof. destruct c. unfold add_labels. simpl. by rewrite app_nil_r. Qed.

Lemma labels_of_cons_same (row : FullInfoRow.t) (rest : list FullInfoRow.t) :
  labels_of (FullInfoRow.cid row) (row :: rest)
  = option_list (row_label row) ++ labels_of (FullInfoRow.cid row) rest.
Proof.
  unfold labels_of, rows_of. simpl. rewrite bool_decide_eq_true_2 by done.
  simpl. by destruct (row_label row).
Qed.

Lemma labels_of_cons_other (c : Z) (row : FullInfoRow.t) (rest : list FullInfoRow.t) :
  FullInfoRow.cid row ≠ c -> labels_of c (row :: rest) = labels_of c rest.
Proof.
  intros Hne. unfold labels_of, rows_of. simpl.
  by rewrite bool_decide_eq_false_2.
Qed.

Lemma yielded_for_cons_other `{Ext : Externals} (c : Z) (row : FullInfoRow.t)
    (rest : list FullInfoRow.t) (info : rdf_meta.ClientFullInfo) :
  FullInfoRow.cid row ≠ c -> yielded_for c rest info -> yielded_for c (row :: rest) info.
Proof.
  intros Hne (row' & info0 & Hhead & Hstart & ->).
  exists row', info0. rewrite labels_of_cons_other by done.
  split; [|done]. unfold rows_of in *. simpl.
  by rewrite bool_decide_eq_false_2.
Qed.

(** The generator, started in the middle of a response with a record in
    progress. *)
Lemma _ResponseToClientsFullInfo_from_spec `{Ext : Externals}
    (response : list FullInfoRow.t) :
  forall cur : option (Z * rdf_meta.ClientFullInfo),
    Forall row_paired response ->
    contiguous (cur_keys cur ++ map FullInfoRow.cid response) ->
    let g := _ResponseToClientsFullInfo_from cur response in
    stopped g = Return tt
    /\ NoDup (map fst (yielded g))
    /\ (forall c, c ∈ map fst (yielded g)
                  <-> c ∈ cur_keys cur ++ map FullInfoRow.cid response)
    /\ (forall c info,
           (c, info) ∈ yielded g ->
           match cur with
           | Some (c0, info0) =>
               if bool_decide (c = c0)
               then info = add_labels (labels_of c response) info0
               else yielded_for c response info
           | None => yielded_for c response info
           end).
Proof.
  induction response as [|row rest IH]; intros cur Hpaired Hcontig.
  - simpl. destruct cur as [[c0 info0]|]; simpl.
    + split_and!; [done| |done|].
      * apply NoDup_singleton.
      * intros c info Hin. apply list_elem_of_singleton in Hin as [= -> ->].
        rewrite bool_decide_eq_true_2 by done.
        by rewrite add_labels_nil.
    + split_and!; [done|constructor|done|].
      intros c info Hin. by apply elem_of_nil in Hin.
  - apply Forall_cons in Hpaired as [Hrow Hpaired].
    destruct (start_full_info_paired row Hrow) as (new & Hstart & Hnew).
    simpl. destruct cur as [[c0 info0]|]; simpl in *.
    + case_bool_decide as Hchange; simpl.
      * (* the client id changes: flush, start a record *)
        rewrite Hstart. simpl.
        pose proof (contiguous_change _ _ _ Hcontig Hchange) as Hfresh.
        destruct (IH (Some (FullInfoRow.cid row, add_row_label row new)) Hpaired)
          as (Hstop & Hnd & Hkeys & Hinfo).
        { simpl. by apply contiguous_tail in Hcontig. }
        simpl in *. split_and!; [done| | |].
        -- apply NoDup_cons. split; [|done]. by rewrite Hkeys.
        -- intros c. rewrite !elem_of_cons, Hkeys, elem_of_cons. tauto.
        -- intros c info Hin. apply elem_of_cons in Hin as [[= -> ->] | Hin].
           ++ rewrite bool_decide_eq_true_2 by done.
              unfold labels_of. rewrite rows_of_notin by done.
              by rewrite add_labels_nil.
           ++ assert (c ≠ c0) as Hne.
              { intros ->. apply Hfresh, Hkeys.
                apply list_elem_of_fmap. by exists (c0, info). }
              rewrite bool_decide_eq_false_2 by done.
              specialize (Hinfo c info Hin). simpl in Hinfo.
              case_bool_decide as Hc.
              ** subst c info. exists row, new. split_and!; [|done|].
                 { unfold rows_of. simpl. by rewrite bool_decide_eq_true_2. }
                 rewrite labels_of_cons_same, add_row_label_add_labels.
                 by rewrite add_labels_app.
              ** apply yielded_for_cons_other; [congruence|done].
      * (* the same client: one more row of the record in progress *)
        assert (FullInfoRow.cid row = c0) as Hsame
          by (destruct (decide (FullInfoRow.cid row = c0)); [done|by destruct Hchange]).
        destruct (IH (Some (c0, add_row_label row info0)) Hpaired)
          as (Hstop & Hnd & Hkeys & Hinfo).
        { simpl. apply contiguous_tail in Hcontig. by rewrite <- Hsame at 1. }
        simpl in *. split_and!; [done|done| |].
        -- intros c. rewrite Hkeys, !elem_of_cons. rewrite Hsame. tauto.
        -- intros c info Hin. specialize (Hinfo c info Hin). simpl in Hinfo.
           case_bool_decide as Hc.
           ++ subst c info. clear Hchange. subst c0.
              rewrite labels_of_cons_same, add_row_label_add_labels.
              by rewrite add_labels_app.
           ++ apply yielded_for_cons_other; [congruence|done].
    + (* the first row of the response *)
      rewrite Hstart. simpl.
      destruct (IH (Some (FullInfoRow.cid row, add_row_label row new)) Hpaired)
        as (Hstop & Hnd & Hkeys & Hinfo); [done|].
      simpl in *. split_and!; [done|done|done|].
      intros c info Hin. specialize (Hinfo c info Hin). simpl in Hinfo.
      case_bool_decide as Hc.
      * subst c info. exists row, new. split_and!; [|done|].
        { unfold rows_of. simpl. by rewrite bool_decide_eq_true_2. }
        rewrite labels_of_cons_same, add_row_label_add_labels.
        by rewrite add_labels_app.
      * apply yielded_for_cons_other; [congruence|done].
Qed.

(** The generator flushes when the client id changes and once at the end,
    whatever the order of the rows. *)
Lemma _ResponseToClientsFullInfo_from_keys `{Ext : Externals}
    (response : list FullInfoRow.t) :
  forall cur : option (Z * rdf_meta.ClientFullInfo),
    Forall row_paired response ->
    map fst (yielded (_ResponseToClientsFullInfo_from cur response))
    = collapse (cur_keys cur ++ map FullInfoRow.cid response).
Proof.
  induction response as [|row rest IH]; intros cur Hpaired.
  - by destruct cur as [[c0 info0]|].
  - apply Forall_cons in Hpaired as [Hrow Hpaired].
    destruct (start_full_info_paired row Hrow) as (new & Hstart & _).
    cbn [_ResponseToClientsFullInfo_from].
    destruct cur as [[c0 info0]|]; cbn [cur_keys app map].
    + destruct (decide (FullInfoRow.cid row = c0)) as [Hsame | Hchange].
      * rewrite (bool_decide_eq_false_2 (FullInfoRow.cid row ≠ c0)) by tauto.
        rewrite IH by done. cbn [cur_keys app collapse]. subst c0.
        by rewrite (bool_decide_eq_true_2 (FullInfoRow.cid row = FullInfoRow.cid row)).
      * rewrite (bool_decide_eq_true_2 (FullInfoRow.cid row ≠ c0)) by done.
        rewrite Hstart. cbn [yielded flush]. rewrite map_app, IH by done.
        cbn [cur_keys app map collapse fst].
        by rewrite (bool_decide_eq_false_2 (c0 = FullInfoRow.cid row)) by congruence.
    + rewrite Hstart. cbn [yielded flush app]. by rewrite IH.
Qed.

(** The checker is sound for [contiguous]. *)
Lemma contiguousb_sound (keys : list Z) : contiguousb keys = true -> contiguous keys.
Proof.
  induction keys as [|k0 rest IH]; intros Hb.
  - intros i j k a _ Hi. by rewrite lookup_nil in Hi.
  - simpl in Hb. apply andb_true_iff in Hb as [Hhead Hrest].
    specialize (IH Hrest).
    intros i j k a Hlt Hi Hk.
    destruct j as [|j]; [lia|]. destruct k as [|k]; [lia|]. simpl in *.
    destruct i as [|i]; simpl in *.
    + injection Hi as ->.
      apply orb_true_iff in Hhead as [Hnot | Hhd].
      * apply negb_true_iff, bool_decide_eq_false in Hnot.
        destruct Hnot. apply list_elem_of_lookup. eauto.
      * apply bool_decide_eq_true in Hhd. rewrite head_lookup in Hhd.
        destruct j as [|j]; [done|].
        apply (IH O (S j) k a); [lia|done..].
    + apply (IH i j k a); [lia|done..].
Qed.

Lemma start_full_info_labels `{Ext : Externals} (row : FullInfoRow.t)
    (info : rdf_meta.ClientFullInfo) :
  start_full_info row = Return info -> rdf_meta.labels info = [].
Proof.
  unfold start_full_info, from_bytes.
  destruct (FullInfoRow.client_obj row).
  - destruct (FullInfoRow.client_startup_obj row); [|discriminate].
    by intros [= <-].
  - by intros [= <-].
Qed.

(** C2, as the source has it.  For a response whose rows are contiguous by
    client id (and in which a snapshot column comes with its startup column),
    the generator runs to its end without raising and yields exactly one pair
    per client id of the response, one for each run of equal ids in row order
    (a flush at every change of id and one after the last row); the record of
    a client is the one started
    at the client's first row, and its labels are, in row order, the labels
    of the rows of that client whose owner and name are both set and
    non-empty.  MultiReadClientFullInfo maps each id to that record. *)
Theorem ResponseToClientsFullInfo_one_record_per_client `{Ext : Externals}
    (response : list FullInfoRow.t) :
  contiguous (map FullInfoRow.cid response) ->
  Forall row_paired response ->
  let g := _ResponseToClientsFullInfo response in
  stopped g = Return tt
  /\ map fst (yielded g) = collapse (map FullInfoRow.cid response)
  /\ NoDup (map fst (yielded g))
  /\ (forall c, c ∈ map fst (yielded g) <-> c ∈ map FullInfoRow.cid response)
  /\ (forall c info,
         (c, info) ∈ yielded g ->
         yielded_for c response info
         /\ rdf_meta.labels info = labels_of c response
         /\ forall client_ids,
             client_ids <> [] ->
             exists m, MultiReadClientFullInfo client_ids response = Return m
                       /\ m !! c = Some info).
Proof.
  intros Hcontig Hpaired g.
  destruct (_ResponseToClientsFullInfo_from_spec response None Hpaired Hcontig)
    as (Hstop & Hnd & Hkeys & Hinfo).
  fold (_ResponseToClientsFullInfo response) in *. fold g in Hstop, Hnd, Hkeys, Hinfo.
  split_and!; [done| |done..|].
  { subst g. unfold _ResponseToClientsFullInfo.
    by rewrite _ResponseToClientsFullInfo_from_keys. }
  intros c info Hin. pose proof (Hinfo c info Hin) as Hfor. simpl in Hfor.
  split_and!; [done| |].
  - destruct Hfor as (row & info0 & _ & Hstart & ->).
    apply start_full_info_labels in Hstart. simpl. by rewrite Hstart.
  - intros client_ids Hne. unfold MultiReadClientFullInfo.
    destruct client_ids; [done|]. simpl. fold g. rewrite Hstop.
    eexists. split; [reflexivity|]. by apply py_dict_update_in.
Qed.

(** The example response: the ids 1, 1, 2, 3 are contiguous; three records
    come out, client 1 with both its labels and client 2 with none. *)
Lemma ResponseToClientsFullInfo_one_record_per_client_witness :
  let g := _ResponseToClientsFullInfo (Ext := example_externals) example_response in
  stopped g = Return tt
  /\ map fst (yielded g) = [1; 2; 3]
  /\ NoDup (map fst (yielded g))
  /\ (forall c, c ∈ map fst (yielded g)
                <-> c ∈ map FullInfoRow.cid example_response)
  /\ map (fun p => (p.1, rdf_meta.labels p.2)) (yielded g)
     = [(1, [rdf_objects.mkClientLabel "a" "GRR"; rdf_objects.mkClientLabel "b" "GRR"]);
        (2, []);
        (3, [rdf_objects.mkClientLabel "x" "user"])].
Proof.
  intros g.
  destruct (ResponseToClientsFullInfo_one_record_per_client
              (Ext := example_externals) example_response)
    as (Hstop & Horder & Hnd & Hkeys & _).
  - apply contiguousb_sound. reflexivity.
  - repeat constructor; intros [? H]; discriminate H.
  - split_and!; [exact Hstop|exact Horder|exact Hnd|exact Hkeys|reflexivity].
Defined.

(** C2 as claimed fails on a label row whose label is the empty string: the
    row is a label row of client 7, and the record yielded for client 7 has no
    label. *)
Lemma ResponseToClientsFullInfo_counterexample :
  let response :=
    [FullInfoRow.mk 7 None None None None None None None None None None None
       None None (Some "GRR"%string) (Some ""%string)] in
  contiguous (map FullInfoRow.cid response)
  /\ omap row_label_claimed (rows_of 7 response)
     = [rdf_objects.mkClientLabel "" "GRR"]
  /\ map (fun p => (p.1, rdf_meta.labels p.2))
         (yielded (_ResponseToClientsFullInfo (Ext := example_externals) response))
     = [(7, [])].
Proof.
  intros response. split_and!.
  - apply contiguousb_sound. reflexivity.
  - reflexivity.
  - reflexivity.
Qed.

(** ** Fleet statistics *)

Lemma add_row_from_lookup {K K'} `{Countable K'} (mk : K -> K') (buckets : list Z)
    (k : K) (bucket : Z) (i : nat) :
  NoDup buckets -> buckets !! i = Some bucket ->
  forall (sums : list Z) (s : nat) (m : gmap (K' * Z) Z),
    (s + length sums <= length buckets)%nat ->
    foldl (fun m '(j, num_actives) =>
             if bool_decide (num_actives <= 0) then m
             else cell_add (mk k, buckets !!! j) num_actives m)
          m (zip (seq s (length sums)) sums) !! (mk k, bucket)
    = match sums !! (i - s)%nat with
      | Some num =>
          if bool_decide (s <= i)%nat && negb (bool_decide (num <= 0))
          then Some (default 0 (m !! (mk k, bucket)) + num)
          else m !! (mk k, bucket)
      | None => m !! (mk k, bucket)
      end.
Proof.
  intros Hnd Hi. induction sums as [|x sums IH]; intros s m Hlen.
  - simpl. by destruct (i - s)%nat.
  - simpl in *. rewrite IH by lia.
    assert (Hs : buckets !! s = Some (buckets !!! s)).
    { apply list_lookup_lookup_total, lookup_lt_is_Some. lia. }
    destruct (decide (s = i)) as [-> | Hne].
    + rewrite Nat.sub_diag. simpl.
      replace (i - S i)%nat with O by lia.
      rewrite (bool_decide_eq_false_2 (S i <= i)%nat) by lia. simpl.
      rewrite (bool_decide_eq_true_2 (i <= i)%nat) by lia. simpl.
      assert (buckets !!! i = bucket) as -> by (by apply list_lookup_total_correct).
      destruct (sums !! 0%nat); case_bool_decide; simpl; try done;
        unfold cell_add; by rewrite lookup_insert_eq.
    + assert (Hother : forall num,
                 cell_add (mk k, buckets !!! s) num m !! (mk k, bucket)
                 = m !! (mk k, bucket)).
      { intros num. unfold cell_add. apply lookup_insert_ne.
        intros [= Heq]. apply Hne. rewrite Heq in Hs.
        by apply (NoDup_lookup buckets s i bucket). }
      assert (Hm1 : (if bool_decide (x <= 0) then m
                     else cell_add (mk k, buckets !!! s) x m) !! (mk k, bucket)
                    = m !! (mk k, bucket))
        by (case_bool_decide; by rewrite ?Hother).
      rewrite Hm1.
      destruct (decide (s <= i)%nat) as [Hle | Hgt].
      * replace (i - s)%nat with (S (i - S s)) by lia. simpl.
        rewrite (bool_decide_eq_true_2 (s <= i)%nat) by lia.
        by rewrite (bool_decide_eq_true_2 (S s <= i)%nat) by lia.
      * rewrite (bool_decide_eq_false_2 (S s <= i)%nat) by lia.
        replace (i - s)%nat with O by lia. simpl.
        rewrite (bool_decide_eq_false_2 (s <= i)%nat) by lia. simpl.
        by destruct (sums !! (i - S s)%nat).
Qed.

Lemma add_row_lookup {K K'} `{Countable K'} (mk : K -> K') (buckets : list Z)
    (k : K) (sums : list Z) (bucket num : Z) (i : nat) (m : gmap (K' * Z) Z) :
  NoDup buckets -> buckets !! i = Some bucket -> sums !! i = Some num ->
  length sums = length buckets ->
  add_row mk buckets m (k, sums) !! (mk k, bucket)
  = if bool_decide (num <= 0) then m !! (mk k, bucket)
    else Some (default 0 (m !! (mk k, bucket)) + num).
Proof.
  intros Hnd Hi Hnum Hlen. unfold add_row, enumerate. simpl.
  rewrite (add_row_from_lookup mk buckets k bucket i Hnd Hi) by lia.
  rewrite Nat.sub_0_r, Hnum.
  rewrite (bool_decide_eq_true_2 (0 <= i)%nat) by lia.
  by case_bool_decide.
Qed.

Lemma add_row_lookup_other {K K'} `{Countable K'} (mk : K -> K') (buckets : list Z)
    (row : K * list Z) (k' : K') (bucket : Z) (m : gmap (K' * Z) Z) :
  k' ≠ mk row.1 -> add_row mk buckets m row !! (k', bucket) = m !! (k', bucket).
Proof.
  intros Hne. unfold add_row. generalize (enumerate row.2). intros l. revert m.
  induction l as [|[j num] l IH]; intros m; [done|].
  simpl. rewrite IH. case_bool_decide; [done|].
  unfold cell_add. apply lookup_insert_ne. congruence.
Qed.

(** The cell of a key and bucket after all rows: the positive sum of the
    row of that key, when there is one. *)
Lemma add_rows_lookup {K K'} `{Countable K'} (mk : K -> K') `{!Inj (=) (=) mk}
    (buckets : list Z) (bucket : Z) (i : nat) (k : K)
    (rows : list (K * list Z)) :
  NoDup buckets -> buckets !! i = Some bucket ->
  NoDup (map fst rows) ->
  Forall (fun row => length row.2 = length buckets) rows ->
  forall m : gmap (K' * Z) Z,
    add_rows mk buckets m rows !! (mk k, bucket)
    = match List.find (fun row => bool_decide (mk row.1 = mk k)) rows with
      | Some row =>
          let num := row.2 !!! i in
          if bool_decide (num <= 0) then m !! (mk k, bucket)
          else Some (default 0 (m !! (mk k, bucket)) + num)
      | None => m !! (mk k, bucket)
      end.
Proof.
  intros Hnd Hi Hkeys Hlens. unfold add_rows.
  induction rows as [|[k1 sums] rows IH]; intros m; [done|].
  simpl in *. apply NoDup_cons in Hkeys as [Hk1 Hkeys].
  apply Forall_cons in Hlens as [Hlen Hlens]. simpl in Hlen.
  rewrite IH by done.
  case_bool_decide as Hk.
  - apply (inj mk) in Hk. subst k1.
    assert (Hfind : List.find (fun row : K * list Z => bool_decide (mk row.1 = mk k)) rows
                    = None).
    { destruct (List.find _ rows) as [[k2 s2]|] eqn:Hf; [|done].
      apply find_some in Hf as [Hin Heq]. apply bool_decide_eq_true in Heq.
      apply (inj mk) in Heq. simpl in Heq. subst k2.
      destruct Hk1. apply list_elem_of_fmap. exists (k, s2).
      split; [done|]. by apply list_elem_of_In. }
    rewrite Hfind.
    assert (Hnum : sums !! i = Some (sums !!! i)).
    { apply list_lookup_lookup_total, lookup_lt_is_Some. rewrite Hlen.
      apply lookup_lt_is_Some. eauto. }
    by rewrite (add_row_lookup mk buckets k sums bucket (sums !!! i) i m).
  - rewrite !add_row_lookup_other by (simpl; congruence). done.
Qed.

Lemma sum_columns_length (n : nat) (rows : list (list Z)) :
  Forall (fun r => length r = n) rows -> length (sum_columns n rows) = n.
Proof.
  unfold sum_columns. induction 1 as [|r rows Hr Hrows IH]; simpl.
  - apply length_replicate.
  - rewrite length_zip_with. lia.
Qed.

Lemma sum_columns_lookup (n i : nat) (rows : list (list Z)) :
  Forall (fun r => length r = n) rows -> (i < n)%nat ->
  sum_columns n rows !!! i = col_sum i rows.
Proof.
  intros Hrows Hi. induction Hrows as [|r rows Hr Hrows IH]; simpl.
  - apply list_lookup_total_correct. unfold sum_columns. simpl.
    by apply lookup_replicate_2.
  - apply list_lookup_total_correct. unfold sum_columns in *. simpl.
    rewrite lookup_zip_with.
    assert (Hri : r !! i = Some (r !!! i)).
    { apply list_lookup_lookup_total, lookup_lt_is_Some. lia. }
    assert (Hsi : foldr (zip_with Z.add) (replicate n 0) rows !! i
                  = Some (foldr (zip_with Z.add) (replicate n 0) rows !!! i)).
    { apply list_lookup_lookup_total, lookup_lt_is_Some.
      fold (sum_columns n rows). rewrite sum_columns_length by done. lia. }
    rewrite Hri, Hsi. simpl. by rewrite IH.
Qed.

Lemma ping_casts_lookup (timestamp_buckets : list Z) (ping cutoff : Z) (i : nat) :
  timestamp_buckets !! i = Some cutoff ->
  ping_casts timestamp_buckets ping !!! i = if bool_decide (ping > cutoff) then 1 else 0.
Proof.
  intros Hi. apply list_lookup_total_correct. unfold ping_casts.
  change (map ?f ?l) with (f <$> l). by rewrite list_lookup_fmap, Hi.
Qed.

Lemma ping_casts_length (timestamp_buckets : list Z) (ping : Z) :
  length (ping_casts timestamp_buckets ping) = length timestamp_buckets.
Proof. unfold ping_casts. apply length_map. Qed.

Section GroupBy.
Context {K K' : Type} `{EqDecision K} `{Countable K'}.
Context (mk : K -> K') `{!Inj (=) (=) mk}.

Lemma sql_group_by_sum_keys (n : nat) (rows : list (K * list Z)) :
  map fst (sql_group_by_sum n rows) = remove_dups (map fst rows).
Proof.
  unfold sql_group_by_sum. rewrite map_map. simpl. apply map_id.
Qed.

Lemma sql_group_by_sum_lengths (n : nat) (rows : list (K * list Z)) :
  Forall (fun row => length row.2 = n) rows ->
  Forall (fun row => length row.2 = n) (sql_group_by_sum n rows).
Proof.
  intros Hrows. unfold sql_group_by_sum. apply Forall_forall.
  intros row Hrow. apply list_elem_of_fmap in Hrow as (k & -> & _). simpl.
  apply sum_columns_length. apply Forall_forall. intros r Hr.
  apply list_elem_of_fmap in Hr as (row & -> & Hrow).
  apply list_elem_of_In, filter_In in Hrow as [Hrow _].
  apply list_elem_of_In in Hrow.
  by apply (proj1 (Forall_forall _ _) Hrows) in Hrow.
Qed.

(** After the loop over the grouped rows, the cell of a key and bucket
    holds the SUM of that bucket's column over the rows of the key, when
    that sum is positive, and is absent otherwise. *)
Lemma grouped_cell (buckets : list Z) (bucket : Z) (i : nat) (k : K)
    (rows : list (K * list Z)) :
  NoDup buckets -> buckets !! i = Some bucket ->
  Forall (fun row => length row.2 = length buckets) rows ->
  add_rows mk buckets ∅ (sql_group_by_sum (length buckets) rows) !! (mk k, bucket)
  = cell (col_sum i (map snd (List.filter (fun r => bool_decide (r.1 = k)) rows))).
Proof.
  intros Hnd Hi Hrows.
  rewrite (add_rows_lookup mk buckets bucket i k); try done.
  2:{ rewrite sql_group_by_sum_keys. apply NoDup_remove_dups. }
  2:{ by apply sql_group_by_sum_lengths. }
  rewrite lookup_empty. simpl.
  assert (Hfiltered : Forall (fun r => length r = length buckets)
                        (map snd (List.filter (fun r => bool_decide (r.1 = k)) rows))).
  { apply Forall_forall. intros r Hr.
    apply list_elem_of_fmap in Hr as (row & -> & Hrow).
    apply list_elem_of_In, filter_In in Hrow as [Hrow _].
    apply list_elem_of_In in Hrow.
    by apply (proj1 (Forall_forall _ _) Hrows) in Hrow. }
  assert (Hilt : (i < length buckets)%nat) by (apply lookup_lt_is_Some; eauto).
  destruct (List.find _ _) as [row|] eqn:Hfind.
  - apply find_some in Hfind as [Hin Hkey].
    apply bool_decide_eq_true, (inj mk) in Hkey.
    unfold sql_group_by_sum in Hin.
    apply list_elem_of_In, list_elem_of_fmap in Hin as (k0 & -> & _).
    simpl in *. subst k0.
    rewrite sum_columns_lookup by done. unfold cell.
    by case_bool_decide.
  - assert (Hk : k ∉ map fst rows).
    { intros Hk. apply elem_of_remove_dups in Hk.
      pose proof (find_none _ _ Hfind
                    (k, sum_columns (length buckets)
                          (map snd (List.filter
                                      (fun r : K * list Z => bool_decide (r.1 = k))
                                      rows)))) as Hnone.
      simpl in Hnone. rewrite bool_decide_eq_true_2 in Hnone by done.
      assert (true = false) as Habs; [|discriminate Habs].
      apply Hnone, list_elem_of_In. unfold sql_group_by_sum.
      apply list_elem_of_fmap. exists k. split; [reflexivity|done]. }
    assert (Hnil : List.filter (fun r : K * list Z => bool_decide (r.1 = k)) rows = []).
    { apply elem_of_nil_inv. intros row Hrow.
      apply list_elem_of_In, filter_In in Hrow as [Hrow Hkey].
      apply bool_decide_eq_true in Hkey. apply Hk.
      apply list_elem_of_fmap. exists row. split; [done|].
      by apply list_elem_of_In. }
    by rewrite Hnil.
Qed.
End GroupBy.

#[local] Instance swap_key_inj : Inj (=) (=) swap_key.
Proof. intros [a b] [c d] [= -> ->]. reflexivity. Qed.

Lemma label_loop_maps (buckets : list Z)
    (rows : list ((option string * string) * list Z)) (b : FleetStats) :
  let b' :=
    foldl (fun b response_row =>
             let '((statistic_value, client_label), sums) := response_row in
             foldl (fun b '(i, num_actives) =>
                      if bool_decide (num_actives <= 0) then b
                      else IncrementLabel client_label statistic_value
                             (buckets !!! i) num_actives b)
                   b (enumerate sums))
          b rows in
  label_counts b' = add_rows swap_key buckets (label_counts b) rows
  /\ total_counts b' = total_counts b.
Proof.
  revert b. induction rows as [|[[v l] sums] rows IH]; intros b; [done|].
  simpl. unfold add_rows in *. simpl.
  match goal with |- context [foldl ?f (foldl ?g b ?e) rows] =>
    assert (Hinner : label_counts (foldl g b e)
                     = add_row swap_key buckets (label_counts b) (v, l, sums)
                     /\ total_counts (foldl g b e) = total_counts b)
  end.
  { unfold add_row. simpl. generalize (enumerate sums). intros e. revert b.
    induction e as [|[i num] e IHe]; intros b; [done|].
    simpl. case_bool_decide; [apply IHe|].
    destruct (IHe (IncrementLabel l v (buckets !!! i) num b)) as [-> ->]. done. }
  destruct Hinner as [Hl Ht].
  destruct (IH (foldl (fun b '(i, num_actives) =>
                         if bool_decide (num_actives <= 0) then b
                         else IncrementLabel l v (buckets !!! i) num_actives b)
                      b (enumerate sums))) as [IHl IHt].
  simpl in *. rewrite IHl, IHt, Hl, Ht. done.
Qed.

Lemma total_loop_maps (buckets : list Z)
    (rows : list (option string * list Z)) (b : FleetStats) :
  let b' :=
    foldl (fun b response_row =>
             let '(statistic_value, sums) := response_row in
             foldl (fun b '(i, num_actives) =>
                      if bool_decide (num_actives <= 0) then b
                      else IncrementTotal statistic_value (buckets !!! i)
                             num_actives b)
                   b (enumerate sums))
          b rows in
  total_counts b' = add_rows id buckets (total_counts b) rows
  /\ label_counts b' = label_counts b.
Proof.
  revert b. induction rows as [|[v sums] rows IH]; intros b; [done|].
  simpl. unfold add_rows in *. simpl.
  match goal with |- context [foldl ?f (foldl ?g b ?e) rows] =>
    assert (Hinner : total_counts (foldl g b e)
                     = add_row id buckets (total_counts b) (v, sums)
                     /\ label_counts (foldl g b e) = label_counts b)
  end.
  { unfold add_row. simpl. generalize (enumerate sums). intros e. revert b.
    induction e as [|[i num] e IHe]; intros b; [done|].
    simpl. case_bool_decide; [apply IHe|].
    destruct (IHe (IncrementTotal v (buckets !!! i) num b)) as [-> ->]. done. }
  destruct Hinner as [Ht Hl].
  destruct (IH (foldl (fun b '(i, num_actives) =>
                         if bool_decide (num_actives <= 0) then b
                         else IncrementTotal v (buckets !!! i) num_actives b)
                      b (enumerate sums))) as [IHt IHl].
  simpl in *. rewrite IHl, IHt, Hl, Ht. done.
Qed.

(** The SUM of a bucket's column over the rows of a statistic value counts
    the clients of that value whose last_ping is later than the cutoff. *)
Lemma select_pings_count (statistic : ClientRow -> option string)
    (timestamp_buckets : list Z) (cutoff : Z) (i : nat) (value : option string)
    (db : DB) :
  timestamp_buckets !! i = Some cutoff ->
  col_sum i (map snd (List.filter (fun r => bool_decide (r.1 = value))
                                  (select_pings statistic timestamp_buckets db)))
  = fleet_total (client_active cutoff) statistic value db.
Proof.
  intros Hi. unfold select_pings, fleet_total, active_clients, client_active.
  generalize (map_to_list (clients db)). intros L.
  induction L as [|[k r] L IH]; [done|].
  simpl. destruct (last_ping r) as [ping|]; simpl; [|exact IH].
  case_bool_decide as Hv; simpl.
  - rewrite (ping_casts_lookup _ _ cutoff) by done.
    rewrite IH. case_bool_decide; simpl; lia.
  - rewrite andb_false_r. exact IH.
Qed.

Lemma label_rows_count (s value : option string) (label : string) (casts : list Z)
    (i : nat) (labels : list LabelRow) :
  col_sum i (map snd (List.filter
                        (fun r : option string * string * list Z =>
                           bool_decide (r.1 = (value, label)))
                        (map (fun l => ((s, label_label l), casts)) labels)))
  = if bool_decide (s = value)
    then casts !!! i
         * Z.of_nat (length (List.filter
                               (fun l => bool_decide (label_label l = label)) labels))
    else 0.
Proof.
  induction labels as [|l labels IH]; simpl.
  - case_bool_decide; lia.
  - destruct (decide (s = value)) as [Hs | Hs];
      destruct (decide (label_label l = label)) as [Hl | Hl].
    + rewrite (bool_decide_eq_true_2 (_ = (value, label))) by congruence.
      rewrite (bool_decide_eq_true_2 (label_label l = label)) by done.
      simpl. rewrite IH.
      rewrite (bool_decide_eq_true_2 (s = value)) by done. simpl. lia.
    + rewrite (bool_decide_eq_false_2 (_ = (value, label))) by congruence.
      rewrite (bool_decide_eq_false_2 (label_label l = label)) by done.
      exact IH.
    + rewrite (bool_decide_eq_false_2 (_ = (value, label))) by congruence.
      rewrite IH. by rewrite (bool_decide_eq_false_2 (s = value)) by done.
    + rewrite (bool_decide_eq_false_2 (_ = (value, label))) by congruence.
      rewrite IH. by rewrite (bool_decide_eq_false_2 (s = value)) by done.
Qed.

Lemma filter_filter_length {A} (f g : A -> bool) (l : list A) :
  length (List.filter f (List.filter g l))
  = length (List.filter (fun x => g x && f x) l).
Proof.
  induction l as [|x l IH]; [done|]. simpl.
  destruct (g x); simpl; [|done]. destruct (f x); simpl; by rewrite IH.
Qed.

(** The per-label SUM counts the pairs of an active client of that value
    and one of its 'GRR' rows for that label. *)
Lemma select_label_pings_count (statistic : ClientRow -> option string)
    (timestamp_buckets : list Z) (cutoff : Z) (i : nat) (value : option string)
    (label : string) (db : DB) :
  timestamp_buckets !! i = Some cutoff ->
  col_sum i (map snd (List.filter (fun r => bool_decide (r.1 = (value, label)))
                                  (select_label_pings statistic timestamp_buckets db)))
  = fleet_label (client_active cutoff) statistic label value db.
Proof.
  intros Hi. unfold select_label_pings, fleet_label, active_clients, client_active.
  generalize (map_to_list (clients db)). intros L.
  induction L as [|[k r] L IH]; [done|].
  simpl. destruct (last_ping r) as [ping|]; simpl; [|exact IH].
  rewrite List.filter_app, List.map_app.
  assert (Happ : forall a b, col_sum i (a ++ b) = col_sum i a + col_sum i b).
  { intros a b. induction a as [|x a IHa]; simpl; [done|]. rewrite IHa. lia. }
  rewrite Happ, IH, label_rows_count.
  rewrite (ping_casts_lookup _ _ cutoff) by done.
  destruct (decide (ping > cutoff)) as [Hp | Hp];
    destruct (decide (statistic r = value)) as [Hv | Hv];
    repeat first
      [ rewrite (bool_decide_eq_true_2 (ping > cutoff)) by done
      | rewrite (bool_decide_eq_false_2 (ping > cutoff)) by done
      | rewrite (bool_decide_eq_true_2 (statistic r = value)) by done
      | rewrite (bool_decide_eq_false_2 (statistic r = value)) by done ];
    simpl; try lia.
  rewrite length_app, Nat2Z.inj_add. unfold grr_labels.
  rewrite filter_filter_length, ?Z.mul_1_l.
  reflexivity.
Qed.

Lemma select_pings_lengths (statistic : ClientRow -> option string)
    (timestamp_buckets : list Z) (db : DB) :
  Forall (fun row => length row.2 = length timestamp_buckets)
         (select_pings statistic timestamp_buckets db).
Proof.
  apply Forall_forall. intros row Hrow. unfold select_pings in Hrow.
  apply list_elem_of_In, in_flat_map in Hrow as ([k r] & _ & Hrow).
  simpl in Hrow. destruct (last_ping r); [|done].
  destruct Hrow as [<- | []]. apply ping_casts_length.
Qed.

Lemma select_label_pings_lengths (statistic : ClientRow -> option string)
    (timestamp_buckets : list Z) (db : DB) :
  Forall (fun row => length row.2 = length timestamp_buckets)
         (select_label_pings statistic timestamp_buckets db).
Proof.
  apply Forall_forall. intros row Hrow. unfold select_label_pings in Hrow.
  apply list_elem_of_In, in_flat_map in Hrow as ([k r] & _ & Hrow).
  simpl in Hrow. destruct (last_ping r); [|done].
  apply in_map_iff in Hrow as (l & <- & _). apply ping_casts_length.
Qed.

Lemma _CountClientStatisticByLabel_cells (now : RDFDatetime)
    (statistic : ClientRow -> option string) (day_buckets : gset Z) (db : DB)
    (day_bucket : Z) (value : option string) (label : string) :
  day_bucket ∈ day_buckets ->
  let stats := _CountClientStatisticByLabel now statistic day_buckets db in
  let active := client_active (bucket_cutoff now day_bucket) in
  total_counts stats !! (value, day_bucket)
  = cell (fleet_total active statistic value db)
  /\ label_counts stats !! (label, value, day_bucket)
     = cell (fleet_label active statistic label value db).
Proof.
  intros Hin stats active. subst stats.
  unfold _CountClientStatisticByLabel. cbv zeta.
  assert (Hperm : merge_sort Z.le (elements day_buckets) ≡ₚ elements day_buckets)
    by apply merge_sort_Permutation.
  assert (Hnd : NoDup (merge_sort Z.le (elements day_buckets))).
  { rewrite Hperm. apply NoDup_elements. }
  assert (Hi : exists i, merge_sort Z.le (elements day_buckets) !! i = Some day_bucket).
  { apply list_elem_of_lookup. rewrite Hperm. by apply elem_of_elements. }
  destruct Hi as [i Hi].
  assert (Hcut : map (fun day_bucket => RDFDatetimeToTimestamp (now - day_bucket * DAYS))
                     (merge_sort Z.le (elements day_buckets)) !! i
                 = Some (bucket_cutoff now day_bucket)).
  { change (map ?f ?l) with (f <$> l). by rewrite list_lookup_fmap, Hi. }
  match goal with
  | |- context [total_counts (foldl ?f2 (foldl ?f1 ?b0 ?rows1) ?rows2)] =>
      destruct (total_loop_maps (merge_sort Z.le (elements day_buckets)) rows2
                  (foldl f1 b0 rows1)) as [Ht Hl];
      destruct (label_loop_maps (merge_sort Z.le (elements day_buckets)) rows1 b0)
        as [Hl1 Ht1]
  end.
  split.
  - rewrite Ht, Ht1. simpl.
    etrans; [apply (grouped_cell id _ day_bucket i value); try done|].
    + eapply Forall_impl; [apply select_pings_lengths|].
      intros row Hrow. simpl in *. by rewrite Hrow, length_map.
    + by rewrite (select_pings_count _ _ (bucket_cutoff now day_bucket)).
  - rewrite Hl, Hl1. simpl.
    etrans; [apply (grouped_cell swap_key _ day_bucket i (value, label)); try done|].
    + eapply Forall_impl; [apply select_label_pings_lengths|].
      intros row Hrow. simpl in *. by rewrite Hrow, length_map.
    + by rewrite (select_label_pings_count _ _ (bucket_cutoff now day_bucket)).
Qed.

(** C3, as the source has it.  For each of CountClientVersionStringsByLabel,
    CountClientPlatformsByLabel and CountClientPlatformReleasesByLabel, each
    requested day bucket N and each statistic value: the fleet-wide cell is
    the number of clients with that value whose last_ping is strictly later
    than now - N days, and the cell of a label is the number of such clients
    counted once per row that gives them this label with owner 'GRR'; a cell
    whose count is zero is absent.  A client whose last_ping equals the
    cutoff is not counted. *)
Theorem fleet_statistics_count_pings_later_than_cutoff
    (count : RDFDatetime -> gset Z -> DB -> FleetStats)
    (statistic : ClientRow -> option string)
    (now : RDFDatetime) (day_buckets : gset Z) (db : DB)
    (day_bucket : Z) (value : option string) (label : string) :
  (count, statistic) ∈ statistic_methods ->
  day_bucket ∈ day_buckets ->
  let stats := count now day_buckets db in
  let active := client_active (bucket_cutoff now day_bucket) in
  total_counts stats !! (value, day_bucket)
  = cell (fleet_total active statistic value db)
  /\ label_counts stats !! (label, value, day_bucket)
     = cell (fleet_label active statistic label value db).
Proof.
  intros Hmethod Hin. unfold statistic_methods in Hmethod.
  repeat (apply elem_of_cons in Hmethod as [[= -> ->] | Hmethod];
          [by apply _CountClientStatisticByLabel_cells|]).
  by apply elem_of_nil in Hmethod.
Qed.

(** Client 7 was last seen at time 100.  With now = 150 + 1 day it is active
    within 7 days and counted once, fleet-wide and under its label. *)
Lemma fleet_statistics_count_pings_later_than_cutoff_witness :
  let stats := CountClientPlatformsByLabel (150 + DAYS) {[1; 7]} example_labelled_db in
  total_counts stats !! (Some "Linux"%string, 7) = Some 1
  /\ label_counts stats !! ("prod"%string, Some "Linux"%string, 7) = Some 1.
Proof.
  intros stats.
  destruct (fleet_statistics_count_pings_later_than_cutoff
              CountClientPlatformsByLabel last_platform (150 + DAYS) {[1; 7]}
              example_labelled_db 7 (Some "Linux"%string) "prod"%string)
    as [Htotal Hlabel].
  - apply elem_of_cons. right. apply elem_of_cons. left. reflexivity.
  - apply elem_of_union. right. apply elem_of_singleton. reflexivity.
  - split.
    + etrans; [exact Htotal|]. vm_compute. reflexivity.
    + etrans; [exact Hlabel|]. vm_compute. reflexivity.
Defined.

(** C3 as claimed fails when a client pinged exactly at the cutoff: with
    now = 100 + 1 day the cutoff of bucket 1 is 100, the last_ping of
    client 7.  "At or after the cutoff" counts the client once; the method
    has no cell for it, neither fleet-wide nor under its label. *)
Lemma fleet_statistics_counterexample :
  let now := 100 + DAYS in
  let stats := CountClientPlatformsByLabel now {[1]} example_labelled_db in
  bucket_cutoff now 1 = 100
  /\ last_ping <$> clients example_labelled_db !! 7 = Some (Some 100)
  /\ cell (fleet_total (client_active_claimed (bucket_cutoff now 1)) last_platform
             (Some "Linux"%string) example_labelled_db) = Some 1
  /\ total_counts stats !! (Some "Linux"%string, 1) = None
  /\ cell (fleet_label (client_active_claimed (bucket_cutoff now 1)) last_platform
             "prod" (Some "Linux"%string) example_labelled_db) = Some 1
  /\ label_counts stats !! ("prod"%string, Some "Linux"%string, 1) = None.
Proof.
  intros now stats. split_and!; vm_compute; reflexivity.
Qed.

(** ** Write, then read the latest value *)

Lemma row_pointers_ok_set_startup (db : DB) (cid ts : Z) (r : ClientRow) :
  is_Some (client_startup_history db !! (cid, ts)) ->
  row_pointers_ok db cid r (assign_all [set_last_startup_timestamp (Some ts)] r) = true.
Proof.
  intros Hrow. unfold row_pointers_ok, assign_all. destruct r. simpl.
  rewrite !pointer_ok_same. simpl.
  by rewrite (bool_decide_eq_true_2 (is_Some _)), orb_true_r.
Qed.

Lemma row_pointers_ok_set_crash (db : DB) (cid ts : Z) (r : ClientRow) :
  is_Some (client_crash_history db !! (cid, ts)) ->
  row_pointers_ok db cid r (assign_all [set_last_crash_timestamp (Some ts)] r) = true.
Proof.
  intros Hrow. unfold row_pointers_ok, assign_all. destruct r. simpl.
  rewrite !pointer_ok_same. simpl.
  by rewrite (bool_decide_eq_true_2 (is_Some _)), orb_true_r.
Qed.

(** X1.  For a client that has a row and no startup record at the time of
    the write, WriteClientStartupInfo returns, adds exactly that record to
    the startup stream and leaves the rows of the other clients alone; a
    ReadClientStartupInfo that follows returns the payload that was written,
    decoded, stamped with the time of the write. *)
Theorem WriteClientStartupInfo_then_ReadClientStartupInfo `{Ext : Externals}
    (now : Z) (client_id : ClientID) (startup_info : rdf_client.StartupInfo)
    (db : DB) :
  is_Some (clients db !! ClientIDToInt client_id) ->
  client_startup_history db !! (ClientIDToInt client_id, now) = None ->
  exists db',
    WriteClientStartupInfo now client_id startup_info db = (db', Return tt)
    /\ client_startup_history db'
       = <[(ClientIDToInt client_id, now) := StartupInfo_SerializeToBytes startup_info]>
           (client_startup_history db)
    /\ (forall other, other <> ClientIDToInt client_id ->
                      clients db' !! other = clients db !! other)
    /\ ReadClientStartupInfo client_id db'
       = (db', Return (Some (set_startup_timestamp (Some now)
                               (StartupInfo_FromSerializedBytes
                                  (StartupInfo_SerializeToBytes startup_info))))).
Proof.
  intros [r Hr] Hfresh.
  unfold WriteClientStartupInfo, ReadClientStartupInfo. py_unfold. simpl.
  unfold insert_startup_history, sql_insert_history. rewrite Hr, Hfresh. simpl.
  unfold sql_update_client. simpl. rewrite Hr.
  rewrite row_pointers_ok_set_startup by (simpl; rewrite lookup_insert_eq; eauto).
  simpl. eexists. split; [reflexivity|]. simpl.
  split; [reflexivity|].
  split; [intros other Hne; by rewrite lookup_insert_ne|].
  unfold select_latest. simpl. rewrite lookup_insert_eq. simpl.
  destruct r. unfold assign_all. simpl. rewrite lookup_insert_eq. reflexivity.
Qed.

(** Client 7 of the example store, first startup record at time 1000. *)
Lemma WriteClientStartupInfo_then_ReadClientStartupInfo_witness :
  exists db',
    WriteClientStartupInfo (Ext := example_externals) 1000 7
      (rdf_client.mkStartupInfo "boot" None) example_db = (db', Return tt)
    /\ ReadClientStartupInfo (Ext := example_externals) 7 db'
       = (db', Return (Some (rdf_client.mkStartupInfo "boot" (Some 1000)))).
Proof.
  destruct (WriteClientStartupInfo_then_ReadClientStartupInfo
              (Ext := example_externals) 1000 7
              (rdf_client.mkStartupInfo "boot" None) example_db)
    as (db' & Hwrite & _ & _ & Hread).
  - vm_compute. eauto.
  - reflexivity.
  - exists db'. split; [exact Hwrite | exact Hread].
Defined.

(** X2.  For a client that has a row and no crash record at the time of the
    write, WriteClientCrashInfo returns and a ReadClientCrashInfo that follows
    returns the crash that was written, decoded, stamped with the time of the
    write. *)
Theorem WriteClientCrashInfo_then_ReadClientCrashInfo `{Ext : Externals}
    (now : Z) (client_id : ClientID) (crash_info : rdf_client.ClientCrash)
    (db : DB) :
  is_Some (clients db !! ClientIDToInt client_id) ->
  client_crash_history db !! (ClientIDToInt client_id, now) = None ->
  exists db',
    WriteClientCrashInfo now client_id crash_info db = (db', Return tt)
    /\ client_crash_history db'
       = <[(ClientIDToInt client_id, now) := ClientCrash_SerializeToBytes crash_info]>
           (client_crash_history db)
    /\ (forall other, other <> ClientIDToInt client_id ->
                      clients db' !! other = clients db !! other)
    /\ ReadClientCrashInfo client_id db'
       = (db', Return (Some (rdf_client.mkClientCrash
                               (rdf_client.crash_body
                                  (ClientCrash_FromSerializedBytes
                                     (ClientCrash_SerializeToBytes crash_info)))
                               (Some now)))).
Proof.
  intros [r Hr] Hfresh.
  unfold WriteClientCrashInfo, ReadClientCrashInfo. py_unfold. simpl.
  unfold insert_crash_history, sql_insert_history. rewrite Hr, Hfresh. simpl.
  unfold sql_update_client. simpl. rewrite Hr.
  rewrite row_pointers_ok_set_crash by (simpl; rewrite lookup_insert_eq; eauto).
  simpl. eexists. split; [reflexivity|]. simpl.
  split; [reflexivity|].
  split; [intros other Hne; by rewrite lookup_insert_ne|].
  unfold select_latest. simpl. rewrite lookup_insert_eq. simpl.
  destruct r. unfold assign_all. simpl. rewrite lookup_insert_eq. reflexivity.
Qed.

(** Client 7 of the example store, first crash record at time 1000. *)
Lemma WriteClientCrashInfo_then_ReadClientCrashInfo_witness :
  exists db',
    WriteClientCrashInfo (Ext := example_externals) 1000 7
      (rdf_client.mkClientCrash "segv" None) example_db = (db', Return tt)
    /\ ReadClientCrashInfo (Ext := example_externals) 7 db'
       = (db', Return (Some (rdf_client.mkClientCrash "segv" (Some 1000)))).
Proof.
  destruct (WriteClientCrashInfo_then_ReadClientCrashInfo
              (Ext := example_externals) 1000 7
              (rdf_client.mkClientCrash "segv" None) example_db)
    as (db' & Hwrite & _ & _ & Hread).
  - vm_compute. eauto.
  - reflexivity.
  - exists db'. split; [exact Hwrite | exact Hread].
Defined.
(** ** The batched latest-value readers, in full *)

Lemma py_dict_const_notin {K V} `{Countable K} (ks : list K) (v : V) (k : K) :
  k ∉ ks -> py_dict (map (fun k => (k, v)) ks) !! k = None.
Proof.
  intros Hk. unfold py_dict. rewrite py_dict_update_notin; [apply lookup_empty|].
  rewrite map_map. simpl. by rewrite map_id.
Qed.

Lemma select_latest_snapshots_elem `{Ext : Externals} (ids : list Z) (db : DB)
    (row : Z * blob * Z * blob) :
  row ∈ select_latest_snapshots ids db
  <-> row.1.1.1 ∈ ids /\ latest_snapshot_row row.1.1.1 db = Some row.
Proof.
  unfold select_latest_snapshots, latest_snapshot_row.
  rewrite list_elem_of_omap. split.
  - intros ([k r] & Hkr & Hjoin).
    apply select_clients_in_elem in Hkr as [Hr Hk]. simpl in Hjoin.
    assert (row.1.1.1 = k) as Hkey.
    { destruct (last_snapshot_timestamp r); [|done]. simpl in Hjoin.
      destruct (client_snapshot_history db !! _); [|done]. simpl in Hjoin.
      destruct (last_startup_timestamp r); [|done]. simpl in Hjoin.
      destruct (client_startup_history db !! _); [|done]. simpl in Hjoin.
      by injection Hjoin as <-. }
    rewrite Hkey, Hr. by split.
  - intros [Hk Hjoin].
    destruct (clients db !! row.1.1.1) as [r|] eqn:Hr; [|done].
    exists (row.1.1.1, r). split; [by apply select_clients_in_elem|done].
Qed.

Lemma select_latest_snapshots_NoDup `{Ext : Externals} (ids : list Z) (db : DB) :
  NoDup (map (fun row : Z * blob * Z * blob => row.1.1.1)
             (select_latest_snapshots ids db)).
Proof.
  unfold select_latest_snapshots.
  pose proof (select_clients_in_NoDup ids db) as Hnd.
  induction (select_clients_in ids db) as [|[k r] l IH]; [constructor|].
  simpl in Hnd. apply NoDup_cons in Hnd as [Hk Hl]. simpl.
  destruct (last_snapshot_timestamp r) as [ts|]; simpl; [|by apply IH].
  destruct (client_snapshot_history db !! (k, ts)); simpl; [|by apply IH].
  destruct (last_startup_timestamp r) as [ts'|]; simpl; [|by apply IH].
  destruct (client_startup_history db !! (k, ts')); simpl; [|by apply IH].
  apply NoDup_cons. split; [|by apply IH].
  intros Hin. apply Hk.
  apply list_elem_of_fmap in Hin as (row & Hrow & Hin).
  apply list_elem_of_omap in Hin as ([k' r'] & Hin' & Hjoin). simpl in Hjoin.
  assert (row.1.1.1 = k') as Hkey.
  { destruct (last_snapshot_timestamp r'); [|done]. simpl in Hjoin.
    destruct (client_snapshot_history db !! _); [|done]. simpl in Hjoin.
    destruct (last_startup_timestamp r'); [|done]. simpl in Hjoin.
    destruct (client_startup_history db !! _); [|done]. simpl in Hjoin.
    by injection Hjoin as <-. }
  apply list_elem_of_fmap. exists (k', r'). split; [simpl; congruence|done].
Qed.

Lemma MultiReadClientSnapshot_lookup `{Ext : Externals}
    (client_ids : list ClientID) (db : DB) :
  exists m,
    MultiReadClientSnapshot client_ids db = (db, Return m)
    /\ forall c,
        m !! c = if bool_decide (c ∈ client_ids)
                 then Some (snapshot_of_row <$> latest_snapshot_row (ClientIDToInt c) db)
                 else None.
Proof.
  unfold MultiReadClientSnapshot. py_unfold. simpl.
  destruct client_ids as [|c0 cs] eqn:Hids.
  - simpl. eexists. split; [reflexivity|]. intros c.
    rewrite ?bool_decide_eq_false_2 by apply not_elem_of_nil. apply lookup_empty.
  - rewrite <- Hids. replace (py_bool client_ids) with true by (by rewrite Hids).
    simpl. eexists. split; [reflexivity|]. intros c.
    unfold ClientIDToInt, IntToClientID. rewrite map_id.
    pose proof (select_latest_snapshots_NoDup client_ids db) as Hnd.
    case_bool_decide as Hc.
    + destruct (latest_snapshot_row c db) as [row|] eqn:Hrow; simpl.
      * assert (row.1.1.1 = c) as Hkey.
        { unfold latest_snapshot_row in Hrow.
          destruct (clients db !! c) as [r|]; [|done]. simpl in Hrow.
          destruct (last_snapshot_timestamp r); [|done]. simpl in Hrow.
          destruct (client_snapshot_history db !! _); [|done]. simpl in Hrow.
          destruct (last_startup_timestamp r); [|done]. simpl in Hrow.
          destruct (client_startup_history db !! _); [|done]. simpl in Hrow.
          by injection Hrow as <-. }
        apply py_dict_update_in.
        -- by rewrite map_map.
        -- apply list_elem_of_fmap. exists row. split; [by rewrite Hkey|].
           apply select_latest_snapshots_elem. by rewrite Hkey.
      * rewrite py_dict_update_notin; [by apply py_dict_const_lookup|].
        rewrite map_map. simpl. intros Hin.
        apply list_elem_of_fmap in Hin as (row & -> & Hin).
        apply select_latest_snapshots_elem in Hin as [_ Hjoin]. congruence.
    + rewrite py_dict_update_notin; [by apply py_dict_const_notin|].
      rewrite map_map. simpl. intros Hin.
      apply list_elem_of_fmap in Hin as (row & -> & Hin).
      by apply select_latest_snapshots_elem in Hin as [Hk _].
Qed.

Lemma MultiReadClientMetadata_contents `{Ext : Externals}
    (client_ids : list ClientID) (db : DB) :
  client_ids <> [] ->
  exists m,
    MultiReadClientMetadata client_ids db = (db, Return m)
    /\ forall c,
        m !! c = if bool_decide (c ∈ client_ids)
                 then metadata_of_row <$> clients db !! ClientIDToInt c
                 else None.
Proof.
  intros Hne. unfold MultiReadClientMetadata. py_unfold.
  unfold ClientIDToInt, IntToClientID. rewrite map_id.
  destruct client_ids as [|c0 cs] eqn:Hids; [done|]. rewrite <- Hids in *.
  simpl. eexists. split; [reflexivity|]. intros c.
  case_bool_decide as Hc.
  - destruct (clients db !! c) as [r|] eqn:Hr; simpl.
    + apply py_dict_update_in.
      * rewrite map_map. simpl. apply select_clients_in_NoDup.
      * apply list_elem_of_fmap. exists (c, r). split; [done|].
        by apply select_clients_in_elem.
    + rewrite py_dict_update_notin; [apply lookup_empty|].
      rewrite map_map. simpl. intros Hkey.
      apply list_elem_of_fmap in Hkey as ([k r] & -> & Hkr).
      apply select_clients_in_elem in Hkr as [Hr' _]. simpl in Hr. congruence.
  - rewrite py_dict_update_notin; [apply lookup_empty|].
    rewrite map_map. simpl. intros Hin.
    apply list_elem_of_fmap in Hin as ([k r] & -> & Hkr).
    by apply select_clients_in_elem in Hkr as [_ Hk].
Qed.

(** X3.  MultiReadClientSnapshot returns a dictionary whose keys are exactly
    the requested ids.  An id is mapped to a snapshot exactly when the client
    has a row, both its snapshot pointer and its startup pointer are set, and
    each hits a row of its stream; the snapshot is then the stored snapshot at
    the snapshot pointer, carrying the startup record at the startup pointer
    and the snapshot pointer as its timestamp.  Every other requested id is
    mapped to None. *)
Theorem MultiReadClientSnapshot_result `{Ext : Externals}
    (client_ids : list ClientID) (db : DB) :
  exists m,
    MultiReadClientSnapshot client_ids db = (db, Return m)
    /\ forall c,
        m !! c = if bool_decide (c ∈ client_ids)
                 then Some (snapshot_of_row <$> latest_snapshot_row (ClientIDToInt c) db)
                 else None.
Proof. apply MultiReadClientSnapshot_lookup. Qed.

(** X4.  MultiReadClientMetadata, called with at least one id, returns a
    dictionary that maps exactly the requested ids that have a row in the
    client table, each to the record built from its row; a requested id
    without a row and an id that was not requested are not keys. *)
Theorem MultiReadClientMetadata_result `{Ext : Externals}
    (client_ids : list ClientID) (db : DB) :
  client_ids <> [] ->
  exists m,
    MultiReadClientMetadata client_ids db = (db, Return m)
    /\ forall c,
        m !! c = if bool_decide (c ∈ client_ids)
                 then metadata_of_row <$> clients db !! ClientIDToInt c
                 else None.
Proof. apply MultiReadClientMetadata_contents. Qed.

(** Clients 7 and 8 requested from the example store, which has only 7. *)
Lemma MultiReadClientMetadata_result_witness :
  exists m,
    MultiReadClientMetadata (Ext := example_externals) [7; 8] example_db
    = (example_db, Return m)
    /\ is_Some (m !! 7) /\ m !! 8 = None /\ m !! 9 = None.
Proof.
  destruct (MultiReadClientMetadata_result (Ext := example_externals)
              [7; 8] example_db) as (m & Hm & Hl).
  - discriminate.
  - exists m. split; [exact Hm|]. split_and!.
    + rewrite (Hl 7). vm_compute. eauto.
    + rewrite (Hl 8). vm_compute. reflexivity.
    + rewrite (Hl 9). vm_compute. reflexivity.
Defined.

(** ** WriteClientSnapshot, then read *)

Lemma row_pointers_ok_snapshot_update `{Ext : Externals} (db : DB) (cid now : Z)
    (r : ClientRow) (asg : list Assign) :
  is_Some (client_snapshot_history db !! (cid, now)) ->
  is_Some (client_startup_history db !! (cid, now)) ->
  last_snapshot_timestamp (assign_all asg r) = Some now ->
  last_startup_timestamp (assign_all asg r) = Some now ->
  last_crash_timestamp (assign_all asg r) = last_crash_timestamp r ->
  row_pointers_ok db cid r (assign_all asg r) = true.
Proof.
  intros Hsnap Hstart H1 H2 H3. unfold row_pointers_ok.
  rewrite H1, H2, H3, pointer_ok_same. simpl.
  by rewrite !(bool_decide_eq_true_2 (is_Some _)), !orb_true_r.
Qed.

(** X5.  For a client that has a row, a snapshot that carries its startup
    info and a time at which the client has no snapshot and no startup record
    yet, WriteClientSnapshot returns; both pointers of the client are then the
    time of the write (whatever they were), the three denormalised columns are
    those of the snapshot, the other columns are kept; and
    MultiReadClientSnapshot, asked for the client, returns the snapshot as it
    was serialised without its startup_info, with the startup info decoded
    from its own record and the time of the write as timestamp. *)
Theorem WriteClientSnapshot_then_MultiReadClientSnapshot `{Ext : Externals}
    (now : Z) (snapshot : rdf_objects.ClientSnapshot)
    (startup_info : rdf_client.StartupInfo) (db : DB) (r : ClientRow) :
  let cid := ClientIDToInt (rdf_objects.client_id snapshot) in
  clients db !! cid = Some r ->
  rdf_objects.startup_info snapshot = Some startup_info ->
  client_snapshot_history db !! (cid, now) = None ->
  client_startup_history db !! (cid, now) = None ->
  exists db',
    WriteClientSnapshot now (snapshot, db) = ((snapshot, db'), Return tt)
    /\ clients db' !! cid
       = Some (mkClientRow (certificate r) (first_seen r) (last_ping r)
                 (last_clock r) (last_ip r) (last_foreman r)
                 (Some now) (Some now) (last_crash_timestamp r)
                 (Some (GetGRRVersionString snapshot))
                 (Some (rdf_objects.knowledge_base_os snapshot))
                 (Some (Uname snapshot))
                 (last_fleetspeak_validation_info r))
    /\ forall client_ids,
        rdf_objects.client_id snapshot ∈ client_ids ->
        exists m,
          MultiReadClientSnapshot client_ids db' = (db', Return m)
          /\ m !! rdf_objects.client_id snapshot
             = Some (Some (snapshot_of_row
                             (cid,
                              ClientSnapshot_SerializeToBytes
                                (set_startup_info None snapshot),
                              now,
                              StartupInfo_SerializeToBytes startup_info))).
Proof.
  intros cid Hr Hsi Hsnap Hstart. subst cid.
  unfold WriteClientSnapshot. py_unfold. simpl.
  unfold insert_snapshot_history, sql_insert_history. rewrite Hr, Hsnap. simpl.
  rewrite Hsi. simpl.
  unfold insert_startup_history, sql_insert_history. simpl. rewrite Hr, Hstart.
  simpl. unfold sql_update_client. simpl. rewrite Hr.
  rewrite (row_pointers_ok_snapshot_update _ _ now);
    try (simpl; rewrite lookup_insert_eq; by eauto);
    try (by destruct r).
  simpl. rewrite (set_startup_info_back _ _ _ Hsi).
  eexists. split; [reflexivity|]. simpl.
  split; [rewrite lookup_insert_eq; by destruct r|].
  intros client_ids Hin.
  destruct (MultiReadClientSnapshot_lookup client_ids
              (with_clients
                 (insert (ClientIDToInt (rdf_objects.client_id snapshot))
                    (assign_all
                       [set_last_snapshot_timestamp (Some now);
                        set_last_startup_timestamp (Some now);
                        set_last_version_string (Some (GetGRRVersionString snapshot));
                        set_last_platform (Some (rdf_objects.knowledge_base_os snapshot));
                        set_last_platform_release (Some (Uname snapshot))] r))
                 (with_startup_history
                    (fun _ => <[(ClientIDToInt (rdf_objects.client_id snapshot), now)
                                 := StartupInfo_SerializeToBytes startup_info]>
                                (client_startup_history db))
                    (with_snapshot_history
                       (fun _ => <[(ClientIDToInt (rdf_objects.client_id snapshot), now)
                                    := ClientSnapshot_SerializeToBytes
                                         (set_startup_info None snapshot)]>
                                   (client_snapshot_history db))
                       db)))) as (m & Hm & Hl).
  exists m. split; [exact Hm|]. rewrite Hl, bool_decide_eq_true_2 by done.
  do 2 f_equal. unfold latest_snapshot_row. simpl.
  rewrite lookup_insert_eq. destruct r. unfold assign_all. simpl.
  by rewrite !lookup_insert_eq.
Qed.

(** Client 7 of the example store, first snapshot at time 1000. *)
Lemma WriteClientSnapshot_then_MultiReadClientSnapshot_witness :
  exists db' m,
    WriteClientSnapshot (Ext := example_externals) 1000
      (example_snapshot None, example_db) = ((example_snapshot None, db'), Return tt)
    /\ MultiReadClientSnapshot (Ext := example_externals) [7] db' = (db', Return m)
    /\ m !! 7
       = Some (Some (rdf_objects.mkClientSnapshot 0 EmptyString "snapshot"
                       (Some (rdf_client.mkStartupInfo "startup" None)) (Some 1000))).
Proof.
  destruct (WriteClientSnapshot_then_MultiReadClientSnapshot
              (Ext := example_externals) 1000 (example_snapshot None)
              (rdf_client.mkStartupInfo "startup" None) example_db
              (mkClientRow (Some "cert"%string) None (Some 100) None None None
                 None None None None (Some "Linux"%string) None None))
    as (db' & Hwrite & _ & Hread); try reflexivity.
  destruct (Hread [7]) as (m & Hm & Hl).
  - apply elem_of_cons. left. reflexivity.
  - exists db', m. split_and!; [exact Hwrite|exact Hm|exact Hl].
Defined.

(** ** Client stats: upsert, read, retention *)

Lemma upsert_stats_elem (cid ts : Z) (payload : blob) (rows : list StatsRow) :
  NoDup (map stats_key rows) ->
  forall r,
    r ∈ upsert_stats cid ts payload rows
    <-> r = mkStatsRow cid ts payload \/ (r ∈ rows /\ stats_key r <> (cid, ts)).
Proof.
  induction rows as [|r0 rs IH]; intros Hnd r; simpl.
  - rewrite list_elem_of_singleton. split; [by left|].
    intros [H|[H _]]; [done|]. by apply elem_of_nil in H.
  - apply NoDup_cons in Hnd as [Hr0 Hnd].
    destruct (bool_decide (stats_client_id r0 = cid)
              && bool_decide (stats_timestamp r0 = ts)) eqn:Hk.
    + apply andb_true_iff in Hk as [Hc Ht].
      apply bool_decide_eq_true in Hc, Ht.
      assert (Hk0 : stats_key r0 = (cid, ts)) by (unfold stats_key; congruence).
      rewrite !elem_of_cons. split.
      * intros [H|H]; [by left|]. right. split; [by right|].
        intros Hk. apply Hr0. rewrite Hk0, <- Hk.
        apply list_elem_of_fmap. by exists r.
      * intros [H|[[H|H] Hne]]; [by left| |by right]. subst r. done.
    + assert (Hk0 : stats_key r0 <> (cid, ts)).
      { unfold stats_key. intros [= Hc Ht].
        rewrite !bool_decide_eq_true_2 in Hk by done. discriminate. }
      rewrite !elem_of_cons, (IH Hnd). split.
      * intros [H|[H|[H Hne]]]; [subst; right; split; [by left|done]|by left|].
        right. split; [by right|done].
      * intros [H|[[H|H] Hne]]; [right; by left|by left|]. right. right. done.
Qed.

Lemma upsert_stats_keys (cid ts : Z) (payload : blob) (rows : list StatsRow) :
  forall k, k ∈ map stats_key (upsert_stats cid ts payload rows)
            <-> k = (cid, ts) \/ k ∈ map stats_key rows.
Proof.
  induction rows as [|r0 rs IH]; intros k; simpl.
  - rewrite list_elem_of_singleton. split; [by left|].
    intros [H|H]; [done|]. by apply elem_of_nil in H.
  - destruct (bool_decide (stats_client_id r0 = cid)
              && bool_decide (stats_timestamp r0 = ts)) eqn:Hk.
    + apply andb_true_iff in Hk as [Hc Ht].
      apply bool_decide_eq_true in Hc, Ht.
      assert (Hk0 : stats_key r0 = (cid, ts)) by (unfold stats_key; congruence).
      simpl. rewrite !elem_of_cons, Hk0. unfold stats_key at 1. simpl. tauto.
    + simpl. rewrite !elem_of_cons, IH. tauto.
Qed.

Lemma upsert_stats_NoDup (cid ts : Z) (payload : blob) (rows : list StatsRow) :
  NoDup (map stats_key rows) ->
  NoDup (map stats_key (upsert_stats cid ts payload rows)).
Proof.
  induction rows as [|r0 rs IH]; intros Hnd; simpl.
  - apply NoDup_singleton.
  - apply NoDup_cons in Hnd as [Hr0 Hnd].
    destruct (bool_decide (stats_client_id r0 = cid)
              && bool_decide (stats_timestamp r0 = ts)) eqn:Hk.
    + apply andb_true_iff in Hk as [Hc Ht].
      apply bool_decide_eq_true in Hc, Ht.
      assert (Hk0 : stats_key r0 = (cid, ts)) by (unfold stats_key; congruence).
      simpl. apply NoDup_cons. split; [|done].
      unfold stats_key at 1. simpl. by rewrite <- Hk0.
    + assert (Hk0 : stats_key r0 <> (cid, ts)).
      { unfold stats_key. intros [= Hc Ht].
        rewrite !bool_decide_eq_true_2 in Hk by done. discriminate. }
      simpl. apply NoDup_cons. split; [|by apply IH].
      rewrite upsert_stats_keys. intros [H|H]; done.
Qed.

(** X6.  For a client that has a row, WriteClientStats returns and changes
    only the stats table.  A missing timestamp of the caller's stats object is
    filled in with the current time, on the object itself.  When the table had
    one row per (client, timestamp), it still has: the sample of that client
    and time is the one just written, every row of another key is kept, and
    ReadClientStats over a range that holds the time returns the sample. *)
Theorem WriteClientStats_upserts_sample `{Ext : Externals}
    (now : RDFDatetime) (client_id : ClientID)
    (stats : rdf_client_stats.ClientStats) (db : DB) :
  let cid := ClientIDToInt client_id in
  let stats' := stamped now stats in
  let ts := RDFDatetimeToTimestamp
              (default now (rdf_client_stats.timestamp stats)) in
  let payload := ClientStats_SerializeToBytes stats' in
  is_Some (clients db !! cid) ->
  NoDup (map stats_key (client_stats db)) ->
  exists rows,
    WriteClientStats now client_id (stats, db)
    = ((stats', with_stats (fun _ => rows) db), Return tt)
    /\ rdf_client_stats.timestamp stats' = Some ts
    /\ NoDup (map stats_key rows)
    /\ (forall r, r ∈ rows
                  <-> r = mkStatsRow cid ts payload
                      \/ (r ∈ client_stats db /\ stats_key r <> (cid, ts)))
    /\ forall min_timestamp max_timestamp,
        min_timestamp <= ts <= max_timestamp ->
        exists samples,
          ReadClientStats client_id min_timestamp max_timestamp
            (with_stats (fun _ => rows) db)
          = (with_stats (fun _ => rows) db, Return samples)
          /\ ClientStats_FromSerializedBytes payload ∈ samples.
Proof.
  intros cid stats' ts payload [r0 Hr0] Hnd.
  exists (upsert_stats cid ts payload (client_stats db)).
  split_and!.
  - unfold WriteClientStats. py_unfold. unfold sql_upsert_stats.
    subst cid stats' ts payload. unfold stamped.
    destruct stats as [b [t|]]; simpl; rewrite Hr0; simpl; reflexivity.
  - subst stats' ts. unfold stamped, RDFDatetimeToTimestamp.
    by destruct stats as [b [t|]].
  - by apply upsert_stats_NoDup.
  - by apply upsert_stats_elem.
  - intros lo hi Hrange. unfold ReadClientStats. py_unfold. simpl.
    eexists. split; [reflexivity|].
    apply list_elem_of_fmap. exists payload. split; [done|].
    unfold select_stats. apply list_elem_of_fmap.
    exists (mkStatsRow cid ts payload). split; [done|].
    rewrite merge_sort_Permutation. apply list_elem_of_In, filter_In. split.
    + apply list_elem_of_In, upsert_stats_elem; [done|by left].
    + simpl. unfold RDFDatetimeToTimestamp.
      rewrite !bool_decide_eq_true_2; done.
Qed.

(** Two samples at time 5 written to client 7 of the example store. *)
Lemma WriteClientStats_upserts_sample_witness :
  exists rows,
    WriteClientStats (Ext := example_externals) 9 7
      (rdf_client_stats.mkClientStats "second" (Some 5),
       with_stats (fun _ => [mkStatsRow 7 5 "first"; mkStatsRow 7 6 "other"])
         example_db)
    = ((rdf_client_stats.mkClientStats "second" (Some 5),
        with_stats (fun _ => rows) example_db), Return tt)
    /\ forall r, r ∈ rows
                 <-> r = mkStatsRow 7 5 "second"
                     \/ (r ∈ [mkStatsRow 7 5 "first"; mkStatsRow 7 6 "other"]
                         /\ stats_key r <> (7, 5)).
Proof.
  destruct (WriteClientStats_upserts_sample (Ext := example_externals) 9 7
              (rdf_client_stats.mkClientStats "second" (Some 5))
              (with_stats (fun _ => [mkStatsRow 7 5 "first"; mkStatsRow 7 6 "other"])
                 example_db))
    as (rows & Hw & _ & _ & Hrows & _).
  - vm_compute. eauto.
  - apply (bool_decide_unpack _). vm_compute. exact I.
  - exists rows. split; [exact Hw|exact Hrows].
Defined.

Lemma sql_delete_limit_keeps {A} (P : A -> bool) (k : nat) (rows : list A) :
  List.filter (fun r => negb (P r)) (sql_delete_limit P k rows).1
  = List.filter (fun r => negb (P r)) rows.
Proof.
  revert k. induction rows as [|r rs IH]; intros k; [reflexivity|].
  destruct k as [|k]; [reflexivity|]. simpl.
  destruct (P r) eqn:HP.
  - specialize (IH k). destruct (sql_delete_limit P k rs) as [rs' n].
    simpl in *. exact IH.
  - specialize (IH (S k)). destruct (sql_delete_limit P (S k) rs) as [rs' n].
    simpl in *. rewrite HP. simpl. by rewrite IH.
Qed.

Lemma filter_none_eligible {A} (P : A -> bool) (rows : list A) :
  length (List.filter P rows) = O ->
  List.filter (fun r => negb (P r)) rows = rows.
Proof.
  induction rows as [|r rs IH]; [reflexivity|]. simpl.
  destruct (P r); simpl; [discriminate|]. intros H. by rewrite IH.
Qed.

Lemma DeleteOldClientStats_loop_keeps (cutoff_time batch_size : Z) (n : nat) :
  forall db : DB,
    eligible cutoff_time db = n ->
    exists rows,
      (DeleteOldClientStats_loop cutoff_time batch_size db).1
      = with_stats (fun _ => rows) db
      /\ List.filter (fun r => negb (older_than cutoff_time r)) rows
         = List.filter (fun r => negb (older_than cutoff_time r)) (client_stats db).
Proof.
  induction n as [n IH] using lt_wf_ind. intros db Hn.
  rewrite DeleteOldClientStats_loop_round.
  unfold _DeleteClientStatsBatch, WithTransaction.
  destruct (bool_decide (batch_size < 0)).
  { exists (client_stats db). split; [by destruct db|done]. }
  pose proof (sql_delete_limit_keeps (older_than (RDFDatetimeToTimestamp cutoff_time))
                (Z.to_nat batch_size) (client_stats db)) as Hkeep.
  pose proof (sql_delete_limit_rowcount (older_than (RDFDatetimeToTimestamp cutoff_time))
                (Z.to_nat batch_size) (client_stats db)) as Hcount.
  pose proof (sql_delete_limit_remaining (older_than (RDFDatetimeToTimestamp cutoff_time))
                (Z.to_nat batch_size) (client_stats db)) as Hrem.
  destruct (sql_delete_limit (older_than (RDFDatetimeToTimestamp cutoff_time))
              (Z.to_nat batch_size) (client_stats db)) as [rows k].
  simpl in Hkeep, Hcount, Hrem. unfold RDFDatetimeToTimestamp in *.
  case_bool_decide as Hpos.
  - destruct (IH (eligible cutoff_time (with_stats (fun _ => rows) db)))
      with (db := with_stats (fun _ => rows) db) as (rows' & Hrows' & Hfilter).
    + unfold eligible in *. simpl. lia.
    + reflexivity.
    + destruct (DeleteOldClientStats_loop cutoff_time batch_size
                  (with_stats (fun _ => rows) db)) as [db'' g].
      simpl in *. exists rows'. split; [by rewrite Hrows'|].
      by rewrite Hfilter.
  - exists rows. split; [reflexivity|done].
Qed.

Lemma DeleteOldClientStats_final_table `{Ext : Externals}
    (cutoff_time batch_size : Z) (db : DB) :
  0 < batch_size ->
  (DeleteOldClientStats cutoff_time (Some batch_size) db).1
  = with_stats (List.filter (fun r => bool_decide (cutoff_time <= stats_timestamp r))) db.
Proof.
  intros Hpos. unfold DeleteOldClientStats. simpl.
  destruct (DeleteOldClientStats_loop_counts cutoff_time batch_size db Hpos)
    as (db' & Hloop & Hnone).
  destruct (DeleteOldClientStats_loop_keeps cutoff_time batch_size
              (eligible cutoff_time db) db eq_refl) as (rows & Hrows & Hfilter).
  rewrite Hloop in Hrows. simpl in Hrows. rewrite Hloop. simpl. subst db'.
  unfold eligible in Hnone. simpl in Hnone.
  apply filter_none_eligible in Hnone. rewrite Hnone in Hfilter.
  unfold with_stats. simpl. f_equal. rewrite Hfilter.
  apply List.filter_ext. intros r. unfold older_than.
  destruct (decide (stats_timestamp r < cutoff_time)).
  - rewrite bool_decide_eq_true_2, bool_decide_eq_false_2 by lia. done.
  - rewrite bool_decide_eq_false_2, bool_decide_eq_true_2 by lia. done.
Qed.

(** X7.  Driven to its end with a positive batch size, DeleteOldClientStats
    leaves in the stats table exactly the samples that are not older than the
    cutoff, in the order they had, whatever the batch size; a sample taken at
    the cutoff itself stays.  No other table changes. *)
Theorem DeleteOldClientStats_keeps_recent_samples `{Ext : Externals}
    (cutoff_time batch_size : Z) (db : DB) :
  0 < batch_size ->
  (DeleteOldClientStats cutoff_time (Some batch_size) db).1
  = with_stats (List.filter (fun r => bool_decide (cutoff_time <= stats_timestamp r))) db.
Proof. apply DeleteOldClientStats_final_table. Qed.

(** The example stats table, cutoff 12, batches of two. *)
Lemma DeleteOldClientStats_keeps_recent_samples_witness :
  (DeleteOldClientStats (Ext := example_externals) 12 (Some 2) example_stats_db).1
  = with_stats (List.filter (fun r => bool_decide (12 <= stats_timestamp r)))
      example_stats_db.
Proof.
  apply (DeleteOldClientStats_keeps_recent_samples (Ext := example_externals)
           12 2 example_stats_db).
  lia.
Defined.

(** X8.  A batch size that is not positive makes DeleteOldClientStats do
    nothing: with 0 the first batch deletes no row, so the loop ends at once,
    yields nothing and leaves every eligible sample in place; a negative
    size makes the statement fail, and the error leaves the generator before
    anything is yielded. *)
Theorem DeleteOldClientStats_batch_size_not_positive `{Ext : Externals}
    (cutoff_time batch_size : Z) (db : DB) :
  batch_size <= 0 ->
  DeleteOldClientStats cutoff_time (Some batch_size) db
  = (db, mkGenerated []
           (if bool_decide (batch_size = 0) then Return tt
            else Raise (ProgrammingError PARSE_ERROR))).
Proof.
  intros Hle. unfold DeleteOldClientStats. simpl.
  rewrite DeleteOldClientStats_loop_round.
  unfold _DeleteClientStatsBatch, WithTransaction.
  destruct (decide (batch_size = 0)) as [->|Hne].
  - simpl. destruct db as [? ? ? ? [|r rs] ? ?]; reflexivity.
  - rewrite (bool_decide_eq_true_2 (batch_size < 0)) by lia.
    rewrite (bool_decide_eq_false_2 (batch_size = 0)) by done. reflexivity.
Qed.

Lemma DeleteOldClientStats_batch_size_not_positive_witness :
  DeleteOldClientStats (Ext := example_externals) 12 (Some 0) example_stats_db
  = (example_stats_db, mkGenerated [] (Return tt))
  /\ (eligible 12 example_stats_db > 0)%nat.
Proof.
  split.
  - apply (DeleteOldClientStats_batch_size_not_positive (Ext := example_externals)
             12 0 example_stats_db). lia.
  - vm_compute. lia.
Defined.

(** ** Failing writes *)

Lemma snapshot_timestamps_cons (c0 : rdf_objects.ClientSnapshot)
    (rest : list rdf_objects.ClientSnapshot) (t0 : Z) :
  rdf_objects.timestamp c0 = Some t0 ->
  Forall (fun c => is_Some (rdf_objects.timestamp c)) rest ->
  exists ts, snapshot_timestamps (c0 :: rest) = Some (t0 :: ts)
             /\ length ts = length rest.
Proof.
  intros Ht0 Hrest. unfold snapshot_timestamps.
  assert (Hsome : is_Some (mapM rdf_objects.timestamp rest)).
  { apply mapM_is_Some. eapply Forall_impl; [exact Hrest|]. done. }
  destruct Hsome as [ts Hts]. exists ts. simpl. rewrite Ht0, Hts. simpl.
  split; [done|]. symmetry. by eapply length_mapM.
Qed.

(** X9.  WriteClientSnapshotHistory has no [finally]: when the insert of the
    first snapshot fails, because the client is unknown or because the client
    already has a snapshot at that time, the call raises UnknownClientError
    in both cases, the database is as before, and the first snapshot of the
    caller's list is left without its startup_info. *)
Theorem WriteClientSnapshotHistory_failed_insert_detaches_startup_info
    `{Ext : Externals}
    (c0 : rdf_objects.ClientSnapshot) (rest : list rdf_objects.ClientSnapshot)
    (t0 : Z) (startup_info : rdf_client.StartupInfo) (db : DB) :
  let cid := ClientIDToInt (rdf_objects.client_id c0) in
  rdf_objects.timestamp c0 = Some t0 ->
  Forall (fun c => is_Some (rdf_objects.timestamp c)) rest ->
  rdf_objects.startup_info c0 = Some startup_info ->
  clients db !! cid = None \/ is_Some (client_snapshot_history db !! (cid, t0)) ->
  WriteClientSnapshotHistory (c0 :: rest, db)
  = ((set_startup_info None c0 :: rest, db),
     Raise (UnknownClientError (rdf_objects.client_id c0))).
Proof.
  intros cid Ht0 Hrest Hsi Hfail. subst cid.
  destruct (snapshot_timestamps_cons c0 rest t0 Ht0 Hrest) as (ts & Hts & Hlen).
  unfold WriteClientSnapshotHistory. py_unfold. simpl. rewrite Hts.
  unfold for_each. simpl. fold (@for_each (list rdf_objects.ClientSnapshot * DB)).
  unfold WriteClientSnapshotHistory_step. py_unfold. simpl. rewrite Hsi. simpl.
  unfold serialize_startup. py_unfold. simpl.
  unfold insert_snapshot_history, sql_insert_history, RDFDatetimeToTimestamp.
  simpl.
  destruct Hfail as [Hnone|[p Hdup]].
  - rewrite Hnone. reflexivity.
  - rewrite Hdup. destruct (clients db !! _); reflexivity.
Qed.

(** Client 7 of the example store already has a snapshot at time 5. *)
Lemma WriteClientSnapshotHistory_failed_insert_detaches_startup_info_witness :
  WriteClientSnapshotHistory (Ext := example_externals)
    ([example_snapshot (Some 5); example_snapshot (Some 6)],
     with_snapshot_history (insert (7, 5) "old"%string) example_db)
  = (([set_startup_info None (example_snapshot (Some 5)); example_snapshot (Some 6)],
      with_snapshot_history (insert (7, 5) "old"%string) example_db),
     Raise (UnknownClientError 7)).
Proof.
  apply (WriteClientSnapshotHistory_failed_insert_detaches_startup_info
           (Ext := example_externals)
           (example_snapshot (Some 5)) [example_snapshot (Some 6)] 5
           (rdf_client.mkStartupInfo "startup" None)
           (with_snapshot_history (insert (7, 5) "old"%string) example_db)).
  - reflexivity.
  - repeat constructor. simpl. eauto.
  - reflexivity.
  - right. vm_compute. eauto.
Defined.

(** X10.  Two records of one stream cannot share a time.  For a client that
    has a row, WriteClientStartupInfo and WriteClientCrashInfo at a time at
    which the client already has a record of that stream raise
    UnknownClientError although the client is known: they translate every
    integrity error.  WriteClientSnapshot translates only the missing-client
    error, so a second snapshot at the same time raises the duplicate-key
    error itself.  In all three cases the database is as before, and the
    snapshot keeps its startup_info. *)
Theorem writers_at_a_taken_timestamp `{Ext : Externals}
    (now : Z) (client_id : ClientID) (db : DB)
    (snapshot : rdf_objects.ClientSnapshot)
    (startup_info : rdf_client.StartupInfo)
    (crash_info : rdf_client.ClientCrash) :
  is_Some (clients db !! ClientIDToInt client_id) ->
  (is_Some (client_startup_history db !! (ClientIDToInt client_id, now)) ->
   WriteClientStartupInfo now client_id startup_info db
   = (db, Raise (UnknownClientError client_id)))
  /\ (is_Some (client_crash_history db !! (ClientIDToInt client_id, now)) ->
      WriteClientCrashInfo now client_id crash_info db
      = (db, Raise (UnknownClientError client_id)))
  /\ (rdf_objects.client_id snapshot = client_id ->
      is_Some (client_snapshot_history db !! (ClientIDToInt client_id, now)) ->
      WriteClientSnapshot now (snapshot, db)
      = ((snapshot, db), Raise (IntegrityError DUP_ENTRY))).
Proof.
  intros [r Hr]. split_and!.
  - intros [p Hp]. unfold WriteClientStartupInfo. py_unfold. simpl.
    unfold insert_startup_history, sql_insert_history. by rewrite Hr, Hp.
  - intros [p Hp]. unfold WriteClientCrashInfo. py_unfold. simpl.
    unfold insert_crash_history, sql_insert_history. by rewrite Hr, Hp.
  - intros <- [p Hp]. unfold WriteClientSnapshot. py_unfold. simpl.
    unfold insert_snapshot_history, sql_insert_history. rewrite Hr, Hp. simpl.
    by rewrite set_startup_info_restore.
Qed.

(** Client 7 of the example store with a startup record at time 5. *)
Lemma writers_at_a_taken_timestamp_witness :
  WriteClientStartupInfo (Ext := example_externals) 5 7
    (rdf_client.mkStartupInfo "again" None)
    (with_startup_history (insert (7, 5) "old"%string) example_db)
  = (with_startup_history (insert (7, 5) "old"%string) example_db,
     Raise (UnknownClientError 7)).
Proof.
  apply (writers_at_a_taken_timestamp (Ext := example_externals) 5 7
           (with_startup_history (insert (7, 5) "old"%string) example_db)
           (example_snapshot None) (rdf_client.mkStartupInfo "again" None)
           (rdf_client.mkClientCrash "crash" None)).
  - vm_compute. eauto.
  - vm_compute. eauto.
Defined.

(** ** WriteClientMetadata, then read *)

Lemma py_bool_Some {A} `{PyBool A} (a : A) : py_bool (Some a) = py_bool a.
Proof. reflexivity. Qed.

(** X11.  What WriteClientMetadata stores, MultiReadClientMetadata returns:
    for a requested client the supplied first_seen and ping come back as they
    were given, clock only when it is truthy, certificate and ip through
    their codecs; a field that was not supplied is read as the row had it (as
    NULL for a client that had no row), and the two pointers the record shows
    are untouched.  The fleetspeak validation info is read back only when its
    stored bytes are not empty.  The entries of the other requested clients
    are as before the write. *)
Theorem WriteClientMetadata_then_MultiReadClientMetadata `{Ext : Externals}
    (client_id : ClientID)
    (new_certificate : option RDFX509Cert)
    (new_first_seen new_last_ping new_last_clock : option RDFDatetime)
    (new_last_ip : option NetworkAddress)
    (new_last_foreman : option RDFDatetime)
    (fleetspeak_validation_info : option (list (string * string)))
    (client_ids : list ClientID) (db : DB) :
  client_id ∈ client_ids ->
  let r := default default_row (clients db !! ClientIDToInt client_id) in
  exists db' m md,
    WriteClientMetadata client_id new_certificate new_first_seen new_last_ping
      new_last_clock new_last_ip new_last_foreman fleetspeak_validation_info db
    = (db', Return tt)
    /\ MultiReadClientMetadata client_ids db' = (db', Return m)
    /\ m !! client_id = Some md
    /\ rdf_meta.certificate md
       = match new_certificate with
         | Some c => if py_bool c then Some (RDFX509Cert_SerializeToBytes c)
                     else certificate r
         | None => certificate r
         end
    /\ rdf_meta.first_seen md
       = match new_first_seen with Some t => Some t | None => first_seen r end
    /\ rdf_meta.ping md
       = match new_last_ping with Some t => Some t | None => last_ping r end
    /\ rdf_meta.clock md
       = match new_last_clock with
         | Some t => if RDFDatetime_bool t then Some t else last_clock r
         | None => last_clock r
         end
    /\ rdf_meta.ip md
       = match new_last_ip with
         | Some a =>
             if py_bool a
             then Some (NetworkAddress_FromSerializedBytes
                          (NetworkAddress_SerializeToBytes a))
             else NetworkAddress_FromSerializedBytes <$> last_ip r
         | None => NetworkAddress_FromSerializedBytes <$> last_ip r
         end
    /\ rdf_meta.last_foreman_time md
       = match new_last_foreman with
         | Some t => if RDFDatetime_bool t then Some t else last_foreman r
         | None => last_foreman r
         end
    /\ rdf_meta.startup_info_timestamp md = last_startup_timestamp r
    /\ rdf_meta.last_crash_timestamp md = last_crash_timestamp r
    /\ rdf_meta.last_fleetspeak_validation_info md
       = match fleetspeak_validation_info with
         | Some ((_ :: _) as d) =>
             let bytes := FleetspeakValidationInfo_SerializeToBytes (FromStringDict d) in
             if py_bool bytes
             then Some (FleetspeakValidationInfo_FromSerializedBytes bytes)
             else None
         | Some [] | None => None
         end
    /\ forall other,
        other <> client_id ->
        m !! other
        = if bool_decide (other ∈ client_ids)
          then metadata_of_row <$> clients db !! ClientIDToInt other
          else None.
Proof.
  intros Hin r.
  assert (Hne : client_ids <> []) by (intros ->; by apply elem_of_nil in Hin).
  set (r' := assign_all (WriteClientMetadata_values new_certificate new_first_seen
                           new_last_ping new_last_clock new_last_ip new_last_foreman
                           fleetspeak_validation_info) r).
  assert (Hwrite :
    WriteClientMetadata client_id new_certificate new_first_seen new_last_ping
      new_last_clock new_last_ip new_last_foreman fleetspeak_validation_info db
    = (with_clients (insert (ClientIDToInt client_id) r') db, Return tt)).
  { unfold WriteClientMetadata. py_unfold. simpl.
    unfold sql_upsert_client. fold r. fold r'. subst r'.
    rewrite WriteClientMetadata_values_assign.
    unfold row_pointers_ok. simpl.
    rewrite !pointer_ok_same. simpl. reflexivity. }
  destruct (MultiReadClientMetadata_contents client_ids
              (with_clients (insert (ClientIDToInt client_id) r') db) Hne)
    as (m & Hm & Hl).
  exists (with_clients (insert (ClientIDToInt client_id) r') db), m, (metadata_of_row r').
  split; [exact Hwrite|]. split; [exact Hm|].
  split.
  { rewrite Hl, bool_decide_eq_true_2 by done. simpl.
    by rewrite lookup_insert_eq. }
  assert (Hothers : forall other,
             other <> client_id ->
             m !! other
             = if bool_decide (other ∈ client_ids)
               then metadata_of_row <$> clients db !! ClientIDToInt other
               else None).
  { intros other Hother. rewrite Hl. simpl.
    unfold ClientIDToInt. rewrite lookup_insert_ne by done. reflexivity. }
  subst r'. rewrite WriteClientMetadata_values_assign.
  unfold metadata_of_row, StringToRDFProto, TimestampToRDFDatetime,
    RDFDatetimeToTimestamp. simpl.
  destruct fleetspeak_validation_info as [[|p d]|]; simpl;
    rewrite ?py_bool_Some;
    try destruct (py_bool (FleetspeakValidationInfo_SerializeToBytes _)); simpl;
    (split_and!; [..|exact Hothers]);
    try reflexivity;
    try (destruct new_last_ip as [a|]; [destruct (py_bool a)|]; reflexivity).
Qed.

(** Client 8 is new to the example store. *)
Lemma WriteClientMetadata_then_MultiReadClientMetadata_witness :
  exists db' m md,
    WriteClientMetadata (Ext := example_externals) 8 None (Some 3) (Some 4) None
      None None None example_db = (db', Return tt)
    /\ MultiReadClientMetadata (Ext := example_externals) [7; 8] db' = (db', Return m)
    /\ m !! 8 = Some md
    /\ rdf_meta.first_seen md = Some 3
    /\ rdf_meta.ping md = Some 4
    /\ rdf_meta.clock md = None.
Proof.
  destruct (WriteClientMetadata_then_MultiReadClientMetadata
              (Ext := example_externals) 8 None (Some 3) (Some 4) None None None None
              [7; 8] example_db)
    as (db' & m & md & Hw & Hm & Hmd & _ & Hfirst & Hping & Hclock & _).
  - apply elem_of_cons. right. apply elem_of_cons. left. reflexivity.
  - exists db', m, md. split_and!;
      [exact Hw|exact Hm|exact Hmd|exact Hfirst|exact Hping|exact Hclock].
Defined.

(** ** DeleteClient: unknown clients, and what follows a deletion *)

Lemma DeleteClient_known (cascade : bool) (client_id : ClientID)
    (db : DB) (r : ClientRow) :
  clients db !! ClientIDToInt client_id = Some r ->
  exists db2,
    DeleteClient cascade client_id db = (db2, Return tt)
    /\ clients db2 = delete (ClientIDToInt client_id) (clients db).
Proof.
  intros Hr.
  destruct (DeleteClient_statements cascade (ClientIDToInt client_id) db r Hr)
    as (db2 & Hupd & _ & Hdel & Hrows).
  exists db2. split; [|exact Hrows].
  unfold DeleteClient. py_unfold. simpl. unfold count_clients. rewrite Hr. simpl.
  rewrite Hupd. simpl. by rewrite Hdel.
Qed.

(** X12.  DeleteClient of an id that has no row raises UnknownClientError
    and changes nothing.  For a client that has a row it returns; afterwards
    the rows of all other clients are as before and the client is unknown
    again: a second DeleteClient raises UnknownClientError, so do
    WriteClientStartupInfo and WriteClientCrashInfo, each leaving the database
    as the deletion left it, and MultiReadClientMetadata has no entry for the
    client. *)
Theorem DeleteClient_makes_client_unknown `{Ext : Externals}
    (cascade : bool) (client_id : ClientID) (db : DB) :
  (clients db !! ClientIDToInt client_id = None ->
   DeleteClient cascade client_id db = (db, Raise (UnknownClientError client_id)))
  /\ (is_Some (clients db !! ClientIDToInt client_id) ->
      exists db2,
        DeleteClient cascade client_id db = (db2, Return tt)
        /\ (forall other,
              other <> client_id ->
              clients db2 !! ClientIDToInt other = clients db !! ClientIDToInt other)
        /\ DeleteClient cascade client_id db2
           = (db2, Raise (UnknownClientError client_id))
        /\ (forall now startup_info,
              WriteClientStartupInfo now client_id startup_info db2
              = (db2, Raise (UnknownClientError client_id)))
        /\ (forall now crash_info,
              WriteClientCrashInfo now client_id crash_info db2
              = (db2, Raise (UnknownClientError client_id)))
        /\ forall client_ids,
            client_id ∈ client_ids ->
            exists m,
              MultiReadClientMetadata client_ids db2 = (db2, Return m)
              /\ m !! client_id = None).
Proof.
  split.
  { intros Hr. unfold DeleteClient. py_unfold. simpl. unfold count_clients.
    by rewrite Hr. }
  intros [r Hr].
  destruct (DeleteClient_known cascade client_id db r Hr) as (db2 & Hdel & Hcl).
  assert (Hgone : clients db2 !! ClientIDToInt client_id = None).
  { rewrite Hcl. apply lookup_delete_eq. }
  exists db2. split_and!.
  - exact Hdel.
  - intros other Hother. rewrite Hcl. unfold ClientIDToInt in *.
    by rewrite lookup_delete_ne.
  - unfold DeleteClient. py_unfold. simpl. unfold count_clients. by rewrite Hgone.
  - intros now startup_info. unfold WriteClientStartupInfo. py_unfold. simpl.
    unfold insert_startup_history.
    by rewrite sql_insert_history_unknown.
  - intros now crash_info. unfold WriteClientCrashInfo. py_unfold. simpl.
    unfold insert_crash_history.
    by rewrite sql_insert_history_unknown.
  - intros client_ids Hin.
    destruct (MultiReadClientMetadata_lookup client_ids db2 client_id Hin)
      as (m & Hm & Hl).
    exists m. split; [exact Hm|]. by rewrite Hl, Hgone.
Qed.

(** Client 7 of the example store is deleted, then deleted again. *)
Lemma DeleteClient_makes_client_unknown_witness :
  exists db2,
    DeleteClient true 7 example_db = (db2, Return tt)
    /\ DeleteClient true 7 db2
       = (db2, Raise (UnknownClientError 7)).
Proof.
  destruct (DeleteClient_makes_client_unknown (Ext := example_externals)
              true 7 example_db) as [_ Hknown].
  destruct Hknown as (db2 & Hdel & _ & Hagain & _).
  - vm_compute. eauto.
  - exists db2. split; [exact Hdel|exact Hagain].
Defined.

(** ** The keyword index *)

Lemma upsert_keywords_notin (now : Z) (args : list (Z * blob * string))
    (k : Z * blob) :
  forall t : gmap (Z * blob) (string * Z),
    k ∉ map (fun a : Z * blob * string => (a.1.1, a.1.2)) args ->
    foldl (fun t a => <[(a.1.1, a.1.2) :=
                         (default a.2 (fst <$> t !! (a.1.1, a.1.2)), now)]> t) t args !! k
    = t !! k.
Proof.
  induction args as [|a args IH]; intros t Hk; [reflexivity|].
  simpl in *. apply not_elem_of_cons in Hk as [Hne Hk].
  rewrite IH by done. by rewrite lookup_insert_ne.
Qed.

Lemma upsert_keywords_in (now : Z) (args : list (Z * blob * string))
    (k : Z * blob) :
  forall t : gmap (Z * blob) (string * Z),
    k ∈ map (fun a : Z * blob * string => (a.1.1, a.1.2)) args ->
    snd <$> foldl (fun t a => <[(a.1.1, a.1.2) :=
                         (default a.2 (fst <$> t !! (a.1.1, a.1.2)), now)]> t) t args !! k
    = Some now.
Proof.
  induction args as [|a args IH]; intros t Hk; [by apply elem_of_nil in Hk|].
  simpl in *.
  destruct (decide (k ∈ map (fun a : Z * blob * string => (a.1.1, a.1.2)) args))
    as [Hin|Hnotin].
  - by apply IH.
  - apply elem_of_cons in Hk as [->|Hk]; [|done].
    rewrite upsert_keywords_notin by done.
    by rewrite lookup_insert_eq.
Qed.

Lemma keyword_args_elem `{Ext : Externals} (client_ids : list ClientID)
    (keywords : list string) (k : Z * blob) :
  k ∈ map (fun a : Z * blob * string => (a.1.1, a.1.2))
        (flat_map (fun client_id =>
                     map (fun keyword => (ClientIDToInt client_id, Hash keyword, keyword))
                         keywords)
                  client_ids)
  <-> exists c kw, c ∈ client_ids /\ kw ∈ keywords /\ k = (ClientIDToInt c, Hash kw).
Proof.
  rewrite list_elem_of_fmap. split.
  - intros (a & -> & Ha). apply list_elem_of_In, in_flat_map in Ha as (c & Hc & Ha).
    apply in_map_iff in Ha as (kw & <- & Hkw).
    exists c, kw. by rewrite !list_elem_of_In.
  - intros (c & kw & Hc & Hkw & ->).
    exists (ClientIDToInt c, Hash kw, kw). split; [done|].
    apply list_elem_of_In, in_flat_map. exists c. split; [by apply list_elem_of_In|].
    apply in_map_iff. exists kw. split; [done|by apply list_elem_of_In].
Qed.

Lemma keyword_args_known `{Ext : Externals} (client_ids : list ClientID)
    (keywords : list string) (db : DB) :
  keywords <> [] ->
  forallb (fun a : Z * blob * string => bool_decide (is_Some (clients db !! a.1.1)))
    (flat_map (fun client_id =>
                 map (fun keyword => (ClientIDToInt client_id, Hash keyword, keyword))
                     keywords)
              client_ids)
  = forallb (fun c => bool_decide (is_Some (clients db !! ClientIDToInt c))) client_ids.
Proof.
  intros Hkw. induction client_ids as [|c cs IH]; [reflexivity|].
  simpl. rewrite forallb_app, IH. f_equal.
  destruct keywords as [|kw kws]; [done|]. simpl.
  destruct (bool_decide (is_Some (clients db !! ClientIDToInt c))) eqn:Hb;
    simpl; [|done].
  clear IH. induction kws as [|k ks IHk]; [reflexivity|]. simpl. rewrite Hb. simpl. by apply IHk.
Qed.

Lemma MultiAddClientKeywords_known `{Ext : Externals}
    (now : Z) (client_ids : list ClientID) (keywords : list string) (db : DB) :
  client_ids <> [] -> keywords <> [] ->
  Forall (fun c => is_Some (clients db !! ClientIDToInt c)) client_ids ->
  exists t,
    MultiAddClientKeywords now client_ids keywords db
    = (with_keywords (fun _ => t) db, Return tt)
    /\ (forall c kw, c ∈ client_ids -> kw ∈ keywords ->
                     snd <$> t !! (ClientIDToInt c, Hash kw) = Some now)
    /\ (forall k, (forall c kw, c ∈ client_ids -> kw ∈ keywords ->
                               k <> (ClientIDToInt c, Hash kw)) ->
                  t !! k = client_keywords db !! k).
Proof.
  intros Hids Hkws Hknown.
  unfold MultiAddClientKeywords. py_unfold.
  destruct client_ids as [|c0 cs] eqn:Ec; [done|].
  destruct keywords as [|k0 ks] eqn:Ek; [done|].
  rewrite <- Ec, <- Ek in *.
  replace (py_bool client_ids) with true by (by rewrite Ec).
  replace (py_bool keywords) with true by (by rewrite Ek).
  simpl. unfold sql_upsert_keywords.
  rewrite keyword_args_known by done.
  replace (forallb _ client_ids) with true.
  2:{ symmetry. apply forallb_forall. intros c Hc.
      apply bool_decide_eq_true. apply list_elem_of_In in Hc.
      eapply Forall_forall in Hknown; eauto. }
  simpl. eexists. split; [reflexivity|]. split.
  - intros c kw Hc Hkw. apply upsert_keywords_in.
    apply keyword_args_elem. eauto.
  - intros k Hk. apply upsert_keywords_notin.
    rewrite keyword_args_elem. intros (c & kw & Hc & Hkw & ->).
    by eapply Hk.
Qed.

Lemma MultiAddClientKeywords_unknown `{Ext : Externals}
    (now : Z) (client_ids : list ClientID) (keywords : list string) (db : DB) :
  client_ids <> [] -> keywords <> [] ->
  Exists (fun c => clients db !! ClientIDToInt c = None) client_ids ->
  MultiAddClientKeywords now client_ids keywords db
  = (db, Raise (AtLeastOneUnknownClientError client_ids)).
Proof.
  intros Hids Hkws Hunknown.
  unfold MultiAddClientKeywords. py_unfold.
  destruct client_ids as [|c0 cs] eqn:Ec; [done|].
  destruct keywords as [|k0 ks] eqn:Ek; [done|].
  rewrite <- Ec, <- Ek in *.
  replace (py_bool client_ids) with true by (by rewrite Ec).
  replace (py_bool keywords) with true by (by rewrite Ek).
  simpl. unfold sql_upsert_keywords.
  rewrite keyword_args_known by done.
  replace (forallb _ client_ids) with false; [reflexivity|].
  symmetry. apply not_true_is_false. intros Hall.
  rewrite forallb_forall in Hall.
  apply Exists_exists in Hunknown as (c & Hc & Hnone).
  apply list_elem_of_In, Hall, bool_decide_eq_true in Hc.
  rewrite Hnone in Hc. by destruct Hc.
Qed.

(** X13.  MultiAddClientKeywords with at least one client and one keyword
    applies the whole cross product or nothing.  When every client has a row
    it returns, every (client, hash of keyword) pair of the batch is in the
    index with the time of the call as its timestamp, whether the pair is new
    or was there before, every other pair is as it was, and no other table
    changes.  When one client has no row it raises
    AtLeastOneUnknownClientError with all the ids of the batch, and the index
    is as before, also for the clients that are known. *)
Theorem MultiAddClientKeywords_all_or_nothing `{Ext : Externals}
    (now : Z) (client_ids : list ClientID) (keywords : list string) (db : DB) :
  client_ids <> [] -> keywords <> [] ->
  (Forall (fun c => is_Some (clients db !! ClientIDToInt c)) client_ids ->
   exists t,
     MultiAddClientKeywords now client_ids keywords db
     = (with_keywords (fun _ => t) db, Return tt)
     /\ (forall c kw, c ∈ client_ids -> kw ∈ keywords ->
                      snd <$> t !! (ClientIDToInt c, Hash kw) = Some now)
     /\ (forall k, (forall c kw, c ∈ client_ids -> kw ∈ keywords ->
                                k <> (ClientIDToInt c, Hash kw)) ->
                   t !! k = client_keywords db !! k))
  /\ (Exists (fun c => clients db !! ClientIDToInt c = None) client_ids ->
      MultiAddClientKeywords now client_ids keywords db
      = (db, Raise (AtLeastOneUnknownClientError client_ids))).
Proof.
  intros Hids Hkws. split.
  - by apply MultiAddClientKeywords_known.
  - by apply MultiAddClientKeywords_unknown.
Qed.

(** Client 7 is in the example store, client 8 is not. *)
Lemma MultiAddClientKeywords_all_or_nothing_witness :
  MultiAddClientKeywords (Ext := example_externals) 50 [7; 8] ["host"%string] example_db
  = (example_db, Raise (AtLeastOneUnknownClientError [7; 8])).
Proof.
  apply (MultiAddClientKeywords_all_or_nothing (Ext := example_externals)
           50 [7; 8] ["host"%string] example_db).
  - discriminate.
  - discriminate.
  - apply Exists_cons_tl, Exists_cons_hd. reflexivity.
Defined.

Lemma NoDup_omap_inj {A B} (f : A -> option B) (l : list A) :
  NoDup l ->
  (forall x y z, x ∈ l -> y ∈ l -> f x = Some z -> f y = Some z -> x = y) ->
  NoDup (omap f l).
Proof.
  induction 1 as [|x l Hx Hnd IH]; intros Hinj; simpl; [constructor|].
  assert (IH' : NoDup (omap f l)).
  { apply IH. intros a b z Ha Hb. apply Hinj; by right. }
  destruct (f x) as [z|] eqn:Hfx; [|done].
  constructor; [|done].
  intros Hz. apply list_elem_of_omap in Hz as (y & Hy & Hfy).
  assert (x = y) by (eapply Hinj; eauto; [by left|by right]).
  by subst.
Qed.

Lemma py_dict_list_to_map {K V} `{Countable K} (pairs : list (K * V)) :
  NoDup (map fst pairs) -> py_dict pairs = list_to_map pairs.
Proof.
  intros Hnd. apply map_eq. intros k. unfold py_dict.
  destruct (list_to_map (M := gmap K V) pairs !! k) as [v|] eqn:Hk.
  - apply elem_of_list_to_map in Hk; [|done].
    by apply py_dict_update_in.
  - apply not_elem_of_list_to_map in Hk.
    rewrite py_dict_update_notin by done. apply lookup_empty.
Qed.

Lemma py_dict_length {K V} `{Countable K} (pairs : list (K * V)) :
  NoDup (map fst pairs) -> length (map_to_list (py_dict pairs)) = length pairs.
Proof.
  intros Hnd. rewrite py_dict_list_to_map by done.
  by rewrite map_to_list_to_map.
Qed.

Lemma py_dict_lookup_Some {K V} `{Countable K} (pairs : list (K * V)) (k : K) (v : V) :
  NoDup (map fst pairs) -> py_dict pairs !! k = Some v <-> (k, v) ∈ pairs.
Proof.
  intros Hnd. rewrite py_dict_list_to_map by done.
  symmetry. by apply elem_of_list_to_map.
Qed.

Lemma py_dict_keys {K V} `{Countable K} (pairs : list (K * V)) (k : K) :
  NoDup (map fst pairs) ->
  k ∈ map fst (map_to_list (py_dict pairs)) <-> k ∈ map fst pairs.
Proof.
  intros Hnd. rewrite !list_elem_of_fmap. split.
  - intros ([k' v] & -> & Hkv). apply elem_of_map_to_list in Hkv.
    apply py_dict_lookup_Some in Hkv; [|done]. by exists (k', v).
  - intros ([k' v] & -> & Hkv). exists (k', v). split; [done|].
    apply elem_of_map_to_list. by apply py_dict_lookup_Some.
Qed.

Section KeywordLookup.
Context `{Ext : Externals}.
Variable keywords : list string.
Hypothesis keywords_NoDup : NoDup keywords.
Hypothesis Hash_inj :
  forall k1 k2, k1 ∈ keywords -> k2 ∈ keywords -> Hash k1 = Hash k2 -> k1 = k2.

Lemma hash_pairs_NoDup : NoDup (map fst (map (fun kw => (Hash kw, kw)) keywords)).
Proof.
  rewrite map_map. simpl.
  apply NoDup_fmap_2_strong; [|done].
  intros k1 k2 H1 H2. by apply Hash_inj.
Qed.

Lemma hash_to_kw_lookup (h : blob) (kw : string) :
  py_dict (map (fun kw => (Hash kw, kw)) keywords) !! h = Some kw
  <-> kw ∈ keywords /\ h = Hash kw.
Proof.
  rewrite py_dict_lookup_Some by apply hash_pairs_NoDup.
  rewrite list_elem_of_fmap. split.
  - intros (k & [= -> ->] & Hk). done.
  - intros [Hk ->]. by exists kw.
Qed.

Lemma hash_to_kw_keys (h : blob) :
  h ∈ map fst (map_to_list (py_dict (map (fun kw => (Hash kw, kw)) keywords)))
  <-> exists kw, kw ∈ keywords /\ h = Hash kw.
Proof.
  rewrite py_dict_keys by apply hash_pairs_NoDup.
  rewrite map_map. simpl. rewrite list_elem_of_fmap. split.
  - intros (kw & -> & Hkw). by exists kw.
  - intros (kw & Hkw & ->). by exists kw.
Qed.

Lemma keyword_fold_lookup (rows : list (blob * Z)) (kw : string) :
  forall result : gmap string (list ClientID),
    foldl (fun result (row : blob * Z) =>
             match py_dict (map (fun kw => (Hash kw, kw)) keywords) !! row.1 with
             | Some kw => py_dict_append result kw (IntToClientID row.2)
             | None => result
             end)
          result rows !! kw
    = (fun l => l ++ omap (fun row : blob * Z =>
                             if bool_decide (row.1 = Hash kw /\ kw ∈ keywords)
                             then Some (IntToClientID row.2) else None) rows)
        <$> result !! kw.
Proof.
  induction rows as [|[h c] rows IH]; intros result; simpl.
  - destruct (result !! kw); simpl; [by rewrite app_nil_r|done].
  - rewrite IH. clear IH.
    destruct (py_dict (map (fun kw => (Hash kw, kw)) keywords) !! h) as [kw'|] eqn:Hh.
    + apply hash_to_kw_lookup in Hh as [Hkw' ->].
      unfold py_dict_append.
      destruct (decide (kw' = kw)) as [->|Hne].
      * rewrite lookup_alter_eq, bool_decide_eq_true_2 by done.
        destruct (result !! kw); simpl; [|done]. by rewrite <- app_assoc.
      * rewrite lookup_alter_ne by done.
        rewrite bool_decide_eq_false_2; [done|].
        intros [Heq Hin]. apply Hne. by apply Hash_inj.
    + rewrite bool_decide_eq_false_2; [done|].
      intros [-> Hin].
      assert (Hsome : py_dict (map (fun kw => (Hash kw, kw)) keywords) !! Hash kw
                      = Some kw) by (by apply hash_to_kw_lookup).
      congruence.
Qed.
End KeywordLookup.

Lemma select_keyword_clients_elem (hashes : list blob) (start : option Z) (db : DB)
    (h : blob) (c : Z) :
  (h, c) ∈ select_keyword_clients hashes start db
  <-> exists stored ts,
        client_keywords db !! (c, h) = Some (stored, ts)
        /\ h ∈ hashes
        /\ match start with Some t => t <= ts | None => True end.
Proof.
  unfold select_keyword_clients. rewrite list_elem_of_omap. split.
  - intros ([[c' h'] [stored ts]] & Hin & Hf). simpl in Hf.
    apply elem_of_map_to_list in Hin.
    destruct (bool_decide (h' ∈ hashes)) eqn:Hh; simpl in Hf; [|done].
    apply bool_decide_eq_true in Hh.
    destruct start as [t|].
    + case_bool_decide; [|done]. injection Hf as -> ->. eauto.
    + injection Hf as -> ->. eauto.
  - intros (stored & ts & Hl & Hh & Hs).
    exists ((c, h), (stored, ts)). split; [by apply elem_of_map_to_list|].
    simpl. rewrite bool_decide_eq_true_2 by done. simpl.
    destruct start as [t|]; [by rewrite bool_decide_eq_true_2|done].
Qed.

Lemma select_keyword_clients_NoDup (hashes : list blob) (start : option Z) (db : DB) :
  NoDup (select_keyword_clients hashes start db).
Proof.
  unfold select_keyword_clients. apply NoDup_omap_inj.
  - apply NoDup_map_to_list.
  - intros [[c1 h1] v1] [[c2 h2] v2] z H1 H2. simpl.
    destruct (_ && _); [|done]. destruct (_ && _); [|done].
    intros [= <-] [= -> ->].
    apply elem_of_map_to_list in H1, H2. congruence.
Qed.

Lemma ListClientsForKeywords_contents `{Ext : Externals}
    (keywords : list string) (start_time : option RDFDatetime) (db : DB) :
  keywords <> [] ->
  (forall k1 k2, k1 ∈ keywords -> k2 ∈ keywords -> Hash k1 = Hash k2 -> k1 = k2) ->
  exists m,
    ListClientsForKeywords keywords start_time db = (db, Return m)
    /\ forall kw,
        if bool_decide (kw ∈ keywords)
        then exists l,
               m !! kw = Some l
               /\ NoDup l
               /\ forall c,
                   c ∈ l
                   <-> exists stored ts,
                         client_keywords db !! (ClientIDToInt c, Hash kw)
                         = Some (stored, ts)
                         /\ match start_time with
                            | Some t => RDFDatetime_bool t = true ->
                                        RDFDatetimeToTimestamp t <= ts
                            | None => True
                            end
        else m !! kw = None.
Proof.
  intros Hne Hinj.
  assert (Hnd : NoDup (remove_dups keywords)) by apply NoDup_remove_dups.
  assert (Hinj' : forall k1 k2, k1 ∈ remove_dups keywords ->
                                k2 ∈ remove_dups keywords ->
                                Hash k1 = Hash k2 -> k1 = k2).
  { intros k1 k2. rewrite !elem_of_remove_dups. apply Hinj. }
  unfold ListClientsForKeywords. py_unfold. simpl.
  assert (Hlen : length (map fst (map_to_list
                                    (py_dict (map (fun kw => (Hash kw, kw))
                                                  (remove_dups keywords)))))
                 = length (remove_dups keywords)).
  { rewrite length_map, py_dict_length by (by apply hash_pairs_NoDup).
    by rewrite length_map. }
  rewrite (bool_decide_eq_true_2 _ Hlen). simpl.
  destruct (remove_dups keywords) as [|k0 ks] eqn:Hkws.
  { destruct keywords as [|k0 ks]; [done|].
    assert (k0 ∈ remove_dups (k0 :: ks)) by (apply elem_of_remove_dups; by left).
    rewrite Hkws in *. by apply elem_of_nil in H. }
  rewrite <- Hkws in *. eexists. split; [reflexivity|].
  intros kw. rewrite (keyword_fold_lookup _ Hnd Hinj').
  case_bool_decide as Hkw.
  - rewrite (py_dict_const_lookup _ _ kw) by (by apply elem_of_remove_dups).
    simpl. eexists. split; [reflexivity|]. split.
    + apply NoDup_omap_inj; [apply select_keyword_clients_NoDup|].
      intros [h1 c1] [h2 c2] z _ _. simpl.
      case_bool_decide as H1; [|done]. case_bool_decide as H2; [|done].
      destruct H1 as [-> _], H2 as [-> _]. unfold IntToClientID. congruence.
    + intros c. rewrite list_elem_of_omap. split.
      * intros ([h c'] & Hrow & Hf). simpl in Hf.
        case_bool_decide as H1; [|done]. destruct H1 as [-> _].
        injection Hf as Hc. unfold IntToClientID, ClientIDToInt in *. subst c'.
        apply select_keyword_clients_elem in Hrow as (stored & ts & Hl & _ & Hs).
        exists stored, ts. split; [done|].
        destruct start_time as [t|]; [|done]. simpl in Hs.
        intros Htruthy. by rewrite Htruthy in Hs.
      * intros (stored & ts & Hl & Hs).
        exists (Hash kw, ClientIDToInt c). split.
        -- apply select_keyword_clients_elem. exists stored, ts.
           split; [done|]. split.
           ++ apply (hash_to_kw_keys _ Hnd Hinj'). exists kw.
              split; [by apply elem_of_remove_dups|done].
           ++ destruct start_time as [t|]; [|done]. simpl.
              destruct (RDFDatetime_bool t); [by apply Hs|done].
        -- simpl. rewrite bool_decide_eq_true_2; [done|].
           split; [done|by apply elem_of_remove_dups].
  - rewrite py_dict_const_notin; [done|].
    by rewrite elem_of_remove_dups.
Qed.

(** X14.  ListClientsForKeywords, called with at least one keyword and with
    keywords of pairwise different hashes, returns a dictionary whose keys
    are exactly the requested keywords, also those that no client has.  The
    list of a keyword holds each client once, and holds a client exactly when
    the index has the pair of the client and the hash of the keyword, with a
    timestamp at or after start_time when a truthy start_time is given. *)
Theorem ListClientsForKeywords_lists_indexed_clients `{Ext : Externals}
    (keywords : list string) (start_time : option RDFDatetime) (db : DB) :
  keywords <> [] ->
  (forall k1 k2, k1 ∈ keywords -> k2 ∈ keywords -> Hash k1 = Hash k2 -> k1 = k2) ->
  exists m,
    ListClientsForKeywords keywords start_time db = (db, Return m)
    /\ forall kw,
        if bool_decide (kw ∈ keywords)
        then exists l,
               m !! kw = Some l
               /\ NoDup l
               /\ forall c,
                   c ∈ l
                   <-> exists stored ts,
                         client_keywords db !! (ClientIDToInt c, Hash kw)
                         = Some (stored, ts)
                         /\ match start_time with
                            | Some t => RDFDatetime_bool t = true ->
                                        RDFDatetimeToTimestamp t <= ts
                            | None => True
                            end
        else m !! kw = None.
Proof. apply ListClientsForKeywords_contents. Qed.

(** Two keywords asked of the example store, whose index is empty. *)
Lemma ListClientsForKeywords_lists_indexed_clients_witness :
  exists m,
    ListClientsForKeywords (Ext := example_externals)
      ["host"%string; "user"%string] None example_db = (example_db, Return m)
    /\ m !! "host"%string = Some [] /\ m !! "user"%string = Some []
    /\ m !! "other"%string = None.
Proof.
  destruct (ListClientsForKeywords_lists_indexed_clients (Ext := example_externals)
              ["host"%string; "user"%string] None example_db) as (m & Hm & Hl).
  - discriminate.
  - intros k1 k2 _ _ Hk. exact Hk.
  - exists m. split; [exact Hm|].
    vm_compute in Hm. injection Hm as <-. vm_compute. done.
Defined.

(** X15.  What MultiAddClientKeywords adds, ListClientsForKeywords finds:
    after a batch for known clients, every client of the batch is listed
    under every keyword of the batch, provided the keywords have pairwise
    different hashes and start_time, if given and truthy, is not after the
    time of the write. *)
Theorem MultiAddClientKeywords_then_ListClientsForKeywords `{Ext : Externals}
    (now : Z) (client_ids : list ClientID) (keywords : list string)
    (start_time : option RDFDatetime) (db : DB) :
  client_ids <> [] -> keywords <> [] ->
  Forall (fun c => is_Some (clients db !! ClientIDToInt c)) client_ids ->
  (forall k1 k2, k1 ∈ keywords -> k2 ∈ keywords -> Hash k1 = Hash k2 -> k1 = k2) ->
  match start_time with
  | Some t => RDFDatetime_bool t = true -> RDFDatetimeToTimestamp t <= now
  | None => True
  end ->
  exists db' m,
    MultiAddClientKeywords now client_ids keywords db = (db', Return tt)
    /\ ListClientsForKeywords keywords start_time db' = (db', Return m)
    /\ forall kw, kw ∈ keywords ->
                  exists l, m !! kw = Some l /\ forall c, c ∈ client_ids -> c ∈ l.
Proof.
  intros Hids Hkws Hknown Hinj Hstart.
  destruct (MultiAddClientKeywords_known now client_ids keywords db Hids Hkws Hknown)
    as (t & Hadd & Hnew & _).
  destruct (ListClientsForKeywords_contents keywords start_time
              (with_keywords (fun _ => t) db) Hkws Hinj) as (m & Hm & Hl).
  exists (with_keywords (fun _ => t) db), m. split; [exact Hadd|].
  split; [exact Hm|]. intros kw Hkw. specialize (Hl kw).
  rewrite bool_decide_eq_true_2 in Hl by done.
  destruct Hl as (l & Hlk & _ & Hmem). exists l. split; [exact Hlk|].
  intros c Hc. apply Hmem. specialize (Hnew c kw Hc Hkw). simpl.
  destruct (t !! (ClientIDToInt c, Hash kw)) as [[stored ts]|]; [|done].
  simpl in Hnew. injection Hnew as ->. eauto.
Qed.

(** Client 7 of the example store gets the keyword host at time 50. *)
Lemma MultiAddClientKeywords_then_ListClientsForKeywords_witness :
  exists db' m,
    MultiAddClientKeywords (Ext := example_externals) 50 [7] ["host"%string] example_db
    = (db', Return tt)
    /\ ListClientsForKeywords (Ext := example_externals) ["host"%string] (Some 50) db'
       = (db', Return m)
    /\ exists l, m !! "host"%string = Some l /\ 7 ∈ l.
Proof.
  destruct (MultiAddClientKeywords_then_ListClientsForKeywords
              (Ext := example_externals) 50 [7] ["host"%string] (Some 50) example_db)
    as (db' & m & Hadd & Hm & Hl).
  - discriminate.
  - discriminate.
  - repeat constructor. vm_compute. eauto.
  - intros k1 k2 _ _ Hk. exact Hk.
  - intros _. unfold RDFDatetimeToTimestamp. lia.
  - exists db', m. split; [exact Hadd|]. split; [exact Hm|].
    destruct (Hl "host"%string) as (l & Hlk & Hin).
    + apply elem_of_cons. left. reflexivity.
    + exists l. split; [exact Hlk|]. apply Hin. apply elem_of_cons. left. reflexivity.
Defined.

(** X16.  RemoveClientKeyword never raises, whether or not the client or the
    pair exists, and removes the one pair of the client and the hash of the
    keyword.  Afterwards ListClientsForKeywords no longer lists the client
    under the keyword, and lists every other client under it exactly when it
    did before. *)
Theorem RemoveClientKeyword_then_ListClientsForKeywords `{Ext : Externals}
    (client_id : ClientID) (keyword : string) (keywords : list string)
    (start_time : option RDFDatetime) (db : DB) :
  keyword ∈ keywords ->
  (forall k1 k2, k1 ∈ keywords -> k2 ∈ keywords -> Hash k1 = Hash k2 -> k1 = k2) ->
  let db' := with_keywords (delete (ClientIDToInt client_id, Hash keyword)) db in
  exists before after l0 l,
    RemoveClientKeyword client_id keyword db = (db', Return tt)
    /\ ListClientsForKeywords keywords start_time db = (db, Return before)
    /\ ListClientsForKeywords keywords start_time db' = (db', Return after)
    /\ before !! keyword = Some l0
    /\ after !! keyword = Some l
    /\ (client_id ∉ l)
    /\ forall c, c <> client_id -> (c ∈ l <-> c ∈ l0).
Proof.
  intros Hkw Hinj db'.
  assert (Hne : keywords <> []) by (intros ->; by apply elem_of_nil in Hkw).
  destruct (ListClientsForKeywords_contents keywords start_time db Hne Hinj)
    as (before & Hbefore & Hl0).
  destruct (ListClientsForKeywords_contents keywords start_time db' Hne Hinj)
    as (after & Hafter & Hl).
  specialize (Hl0 keyword). specialize (Hl keyword).
  rewrite bool_decide_eq_true_2 in Hl0, Hl by done.
  destruct Hl0 as (l0 & Hk0 & _ & Hmem0). destruct Hl as (l & Hk & _ & Hmem).
  exists before, after, l0, l. split_and!; try done.
  - intros Hin. apply Hmem in Hin as (stored & ts & Hlook & _).
    subst db'. simpl in Hlook. by rewrite lookup_delete_eq in Hlook.
  - intros c Hc. rewrite Hmem, Hmem0. subst db'. simpl.
    rewrite lookup_delete_ne; [done|].
    unfold ClientIDToInt. congruence.
Qed.

Lemma RemoveClientKeyword_then_ListClientsForKeywords_witness :
  exists after,
    ListClientsForKeywords (Ext := example_externals) ["host"%string] None
      (with_keywords (delete (7, "host"%string))
         (with_keywords (insert (7, "host"%string) ("host"%string, 50)) example_db))
    = (with_keywords (delete (7, "host"%string))
         (with_keywords (insert (7, "host"%string) ("host"%string, 50)) example_db),
       Return after)
    /\ exists l, after !! "host"%string = Some l /\ 7 ∉ l.
Proof.
  destruct (RemoveClientKeyword_then_ListClientsForKeywords
              (Ext := example_externals) 7 "host"%string ["host"%string] None
              (with_keywords (insert (7, "host"%string) ("host"%string, 50)) example_db))
    as (before & after & l0 & l & _ & _ & Hafter & _ & Hl & Hnotin & _).
  - apply elem_of_cons. left. reflexivity.
  - intros k1 k2 _ _ Hk. exact Hk.
  - exists after. split; [exact Hafter|]. exists l. split; [exact Hl|exact Hnotin].
Defined.

(** ** The label index *)

Lemma label_key_le_total : Total label_key_le.
Proof.
  intros a b. unfold label_key_le.
  rewrite (String.compare_antisym (rdf_objects.owner a) (rdf_objects.owner b)).
  destruct (String.compare (rdf_objects.owner b) (rdf_objects.owner a)) eqn:Hc; simpl.
  - destruct (String.leb_total (rdf_objects.name a) (rdf_objects.name b));
      [by left|by right].
  - by right.
  - by left.
Qed.

Lemma label_fold_lookup (rows : list (Z * string * string)) (c : ClientID) :
  forall d : gmap ClientID (list rdf_objects.ClientLabel),
    foldl (fun d (row : Z * string * string) =>
             py_dict_append d (IntToClientID row.1.1)
               (rdf_objects.mkClientLabel row.2 row.1.2))
          d rows !! c
    = (fun l => l ++ omap (fun row : Z * string * string =>
                             if bool_decide (row.1.1 = c)
                             then Some (rdf_objects.mkClientLabel row.2 row.1.2)
                             else None) rows)
        <$> d !! c.
Proof.
  induction rows as [|[[k o] n] rows IH]; intros d; simpl.
  - destruct (d !! c); simpl; [by rewrite app_nil_r|done].
  - rewrite IH. clear IH. unfold py_dict_append, IntToClientID.
    destruct (decide (k = c)) as [->|Hne].
    + rewrite lookup_alter_eq, bool_decide_eq_true_2 by done.
      destruct (d !! c); simpl; [|done]. by rewrite <- app_assoc.
    + rewrite lookup_alter_ne, bool_decide_eq_false_2 by done. done.
Qed.

Lemma select_labels_in_of (ids : list Z) (db : DB) (c : Z) :
  c ∈ ids ->
  omap (fun row : Z * string * string =>
          if bool_decide (row.1.1 = c)
          then Some (rdf_objects.mkClientLabel row.2 row.1.2) else None)
       (select_labels_in ids db)
  = client_labels_of c db.
Proof.
  intros Hc. unfold select_labels_in, client_labels_of.
  induction (client_labels db) as [|r rs IH]; [reflexivity|]. simpl.
  destruct (bool_decide (label_client_id r ∈ ids)) eqn:E1;
    destruct (bool_decide (label_client_id r = c)) eqn:E2;
    simpl; rewrite ?E2; simpl;
    first [exact IH | f_equal; exact IH | idtac].
  apply bool_decide_eq_true in E2. apply bool_decide_eq_false in E1.
  by subst.
Qed.

Lemma MultiReadClientLabels_contents
    (client_ids : list ClientID) (db : DB) :
  client_ids <> [] ->
  exists m,
    MultiReadClientLabels client_ids db = (db, Return m)
    /\ forall c,
        m !! c = if bool_decide (c ∈ client_ids)
                 then Some (merge_sort label_key_le
                              (client_labels_of (ClientIDToInt c) db))
                 else None.
Proof.
  intros Hne. unfold MultiReadClientLabels. py_unfold.
  destruct client_ids as [|c0 cs] eqn:Hids; [done|]. rewrite <- Hids in *.
  simpl. eexists. split; [reflexivity|]. intros c.
  rewrite lookup_fmap, label_fold_lookup.
  case_bool_decide as Hc.
  - rewrite (py_dict_const_lookup _ _ c) by done. simpl.
    rewrite select_labels_in_of; [done|].
    unfold ClientIDToInt. by rewrite map_id.
  - by rewrite py_dict_const_notin.
Qed.

(** X17.  MultiReadClientLabels, called with at least one id, returns a
    dictionary whose keys are exactly the requested ids.  The list of a
    client holds the labels attached to it, each as often as the table has it,
    ordered by owner and then by name; a client without labels, or without a
    row, has the empty list. *)
Theorem MultiReadClientLabels_sorted_by_owner_then_name
    (client_ids : list ClientID) (db : DB) :
  client_ids <> [] ->
  exists m,
    MultiReadClientLabels client_ids db = (db, Return m)
    /\ forall c,
        if bool_decide (c ∈ client_ids)
        then exists l,
               m !! c = Some l
               /\ Sorted label_key_le l
               /\ l ≡ₚ client_labels_of (ClientIDToInt c) db
        else m !! c = None.
Proof.
  intros Hne.
  destruct (MultiReadClientLabels_contents client_ids db Hne) as (m & Hm & Hl).
  exists m. split; [exact Hm|]. intros c. rewrite Hl.
  case_bool_decide; [|done].
  eexists. split; [reflexivity|]. split.
  - apply Sorted_merge_sort. apply label_key_le_total.
  - apply merge_sort_Permutation.
Qed.

(** Two labels of client 7, attached in the order zeta, alpha. *)
Lemma MultiReadClientLabels_sorted_by_owner_then_name_witness :
  let db := with_labels (fun _ => [mkLabelRow 7 "u" "u" "zeta";
                                   mkLabelRow 7 "u" "u" "alpha"]) example_db in
  exists m l,
    MultiReadClientLabels [7; 8] db = (db, Return m)
    /\ m !! 7 = Some l
    /\ Sorted label_key_le l
    /\ l ≡ₚ [rdf_objects.mkClientLabel "zeta" "u"; rdf_objects.mkClientLabel "alpha" "u"]
    /\ m !! 9 = None.
Proof.
  intros db.
  destruct (MultiReadClientLabels_sorted_by_owner_then_name [7; 8] db)
    as (m & Hm & Hl).
  - discriminate.
  - pose proof (Hl 7) as H7. pose proof (Hl 9) as H9.
    rewrite bool_decide_eq_true_2 in H7 by (apply elem_of_cons; by left).
    rewrite bool_decide_eq_false_2 in H9
      by (rewrite !elem_of_cons, elem_of_nil; lia).
    destruct H7 as (l & Hl7 & Hsorted & Hperm).
    exists m, l. split_and!; [exact Hm|exact Hl7|exact Hsorted|exact Hperm|exact H9].
Defined.

Lemma insert_ignore_labels_added (args : list LabelRow) :
  forall t : list LabelRow,
    exists added,
      foldl (fun t a => if bool_decide (a ∈ t) then t else (t ++ [a])%list) t args
      = t ++ added
      /\ (forall r, r ∈ added <-> r ∈ args /\ r ∉ t)
      /\ NoDup added.
Proof.
  induction args as [|a args IH]; intros t; simpl.
  - exists []. split; [by rewrite app_nil_r|]. split; [|constructor].
    intros r. split; [intros H; by apply elem_of_nil in H|].
    intros [H _]. by apply elem_of_nil in H.
  - case_bool_decide as Ha.
    + destruct (IH t) as (added & Heq & Hmem & Hnd).
      exists added. split; [exact Heq|]. split; [|exact Hnd].
      intros r. rewrite Hmem, elem_of_cons. split; [tauto|].
      intros [[->|Hr] Hnt]; [done|tauto].
    + destruct (IH (t ++ [a])) as (added & Heq & Hmem & Hnd).
      exists (a :: added). split; [by rewrite Heq, <- app_assoc|]. split.
      * intros r. rewrite !elem_of_cons, Hmem, elem_of_app, list_elem_of_singleton.
        split.
        -- intros [->|[Hr Hnt]]; [tauto|]. split; [tauto|]. tauto.
        -- intros [[->|Hr] Hnt]; [tauto|].
           destruct (decide (r = a)); [tauto|]. right. tauto.
      * constructor; [|exact Hnd]. rewrite Hmem, elem_of_app, list_elem_of_singleton.
        tauto.
Qed.

Lemma insert_ignore_labels_present (args : list LabelRow) :
  forall t : list LabelRow,
    (forall a, a ∈ args -> a ∈ t) ->
    foldl (fun t a => if bool_decide (a ∈ t) then t else (t ++ [a])%list) t args = t.
Proof.
  induction args as [|a args IH]; intros t Hall; [reflexivity|]. simpl.
  rewrite bool_decide_eq_true_2 by (apply Hall; by left).
  apply IH. intros b Hb. apply Hall. by right.
Qed.

Lemma label_args_elem `{Ext : Externals} (client_ids : list ClientID) (owner : string)
    (labels : list string) (r : LabelRow) :
  r ∈ label_args client_ids owner labels
  <-> exists c label, c ∈ client_ids /\ label ∈ labels
                      /\ r = mkLabelRow (ClientIDToInt c) (Hash owner) owner label.
Proof.
  unfold label_args. rewrite list_elem_of_In, in_flat_map. split.
  - intros (c & Hc & Hr). apply in_map_iff in Hr as (label & <- & Hl).
    exists c, label. by rewrite !list_elem_of_In.
  - intros (c & label & Hc & Hl & ->). exists c.
    split; [by apply list_elem_of_In|].
    apply in_map_iff. exists label. split; [done|by apply list_elem_of_In].
Qed.

Lemma label_args_known `{Ext : Externals} (client_ids : list ClientID) (owner : string)
    (labels : list string) (db : DB) :
  labels <> [] ->
  forallb (fun a => bool_decide (is_Some (clients db !! label_client_id a)))
    (label_args client_ids owner labels)
  = forallb (fun c => bool_decide (is_Some (clients db !! ClientIDToInt c))) client_ids.
Proof.
  intros Hl. unfold label_args.
  induction client_ids as [|c cs IH]; [reflexivity|].
  simpl. rewrite forallb_app, IH. f_equal.
  destruct labels as [|l ls]; [done|]. simpl.
  destruct (bool_decide (is_Some (clients db !! ClientIDToInt c))) eqn:Hb;
    simpl; [|done].
  clear IH. induction ls as [|k ks IHk]; [reflexivity|]. simpl.
  rewrite Hb. simpl. by apply IHk.
Qed.

Lemma MultiAddClientLabels_known `{Ext : Externals}
    (client_ids : list ClientID) (owner : string) (labels : list string) (db : DB) :
  client_ids <> [] -> labels <> [] ->
  Forall (fun c => is_Some (clients db !! ClientIDToInt c)) client_ids ->
  exists added,
    MultiAddClientLabels client_ids owner labels db
    = (with_labels (fun t => (t ++ added)%list) db, Return tt)
    /\ (forall r, r ∈ added
                  <-> r ∈ label_args client_ids owner labels /\ r ∉ client_labels db)
    /\ NoDup added.
Proof.
  intros Hids Hlabels Hknown.
  destruct (insert_ignore_labels_added (label_args client_ids owner labels)
              (client_labels db)) as (added & Heq & Hmem & Hnd).
  exists added. split; [|by split].
  unfold MultiAddClientLabels. py_unfold.
  destruct client_ids as [|c0 cs] eqn:Ec; [done|].
  destruct labels as [|l0 ls] eqn:El; [done|].
  rewrite <- Ec, <- El in *.
  replace (py_bool client_ids) with true by (by rewrite Ec).
  replace (py_bool labels) with true by (by rewrite El).
  simpl. unfold sql_insert_ignore_labels.
  fold (label_args client_ids owner labels).
  rewrite label_args_known by done.
  replace (forallb _ client_ids) with true.
  2:{ symmetry. apply forallb_forall. intros c Hc.
      apply bool_decide_eq_true. apply list_elem_of_In in Hc.
      eapply Forall_forall in Hknown; eauto. }
  simpl. unfold with_labels. simpl. by rewrite Heq.
Qed.

Lemma MultiAddClientLabels_unknown `{Ext : Externals}
    (client_ids : list ClientID) (owner : string) (labels : list string) (db : DB) :
  client_ids <> [] -> labels <> [] ->
  Exists (fun c => clients db !! ClientIDToInt c = None) client_ids ->
  MultiAddClientLabels client_ids owner labels db
  = (db, Raise (AtLeastOneUnknownClientError client_ids)).
Proof.
  intros Hids Hlabels Hunknown.
  unfold MultiAddClientLabels. py_unfold.
  destruct client_ids as [|c0 cs] eqn:Ec; [done|].
  destruct labels as [|l0 ls] eqn:El; [done|].
  rewrite <- Ec, <- El in *.
  replace (py_bool client_ids) with true by (by rewrite Ec).
  replace (py_bool labels) with true by (by rewrite El).
  simpl. unfold sql_insert_ignore_labels.
  fold (label_args client_ids owner labels).
  rewrite label_args_known by done.
  replace (forallb _ client_ids) with false; [reflexivity|].
  symmetry. apply not_true_is_false. intros Hall.
  rewrite forallb_forall in Hall.
  apply Exists_exists in Hunknown as (c & Hc & Hnone).
  apply list_elem_of_In, Hall, bool_decide_eq_true in Hc.
  rewrite Hnone in Hc. by destruct Hc.
Qed.

(** X18.  MultiAddClientLabels with at least one client and one label applies
    the whole batch or nothing.  When every client has a row it returns and
    appends to the table exactly the rows of the batch that were not there,
    each once; the rows that were there keep their place, and no other table
    changes.  Running the same batch again changes nothing.  When one client
    has no row it raises AtLeastOneUnknownClientError with all the ids of the
    batch, and nothing is attached, also to the clients that are known. *)
Theorem MultiAddClientLabels_insert_or_ignore `{Ext : Externals}
    (client_ids : list ClientID) (owner : string) (labels : list string) (db : DB) :
  client_ids <> [] -> labels <> [] ->
  (Forall (fun c => is_Some (clients db !! ClientIDToInt c)) client_ids ->
   exists added,
     let db' := with_labels (fun t => (t ++ added)%list) db in
     MultiAddClientLabels client_ids owner labels db = (db', Return tt)
     /\ (forall r,
           r ∈ added
           <-> (exists c label,
                  c ∈ client_ids /\ label ∈ labels
                  /\ r = mkLabelRow (ClientIDToInt c) (Hash owner) owner label)
               /\ r ∉ client_labels db)
     /\ NoDup added
     /\ MultiAddClientLabels client_ids owner labels db' = (db', Return tt))
  /\ (Exists (fun c => clients db !! ClientIDToInt c = None) client_ids ->
      MultiAddClientLabels client_ids owner labels db
      = (db, Raise (AtLeastOneUnknownClientError client_ids))).
Proof.
  intros Hids Hlabels. split; [|by apply MultiAddClientLabels_unknown].
  intros Hknown.
  destruct (MultiAddClientLabels_known client_ids owner labels db Hids Hlabels Hknown)
    as (added & Hadd & Hmem & Hnd).
  exists added. simpl. split; [exact Hadd|]. split.
  { intros r. by rewrite Hmem, label_args_elem. }
  split; [exact Hnd|].
  destruct (MultiAddClientLabels_known client_ids owner labels
              (with_labels (fun t => (t ++ added)%list) db) Hids Hlabels Hknown)
    as (added' & Hadd' & Hmem' & Hnd').
  rewrite Hadd'. f_equal.
  assert (Hnone : added' = []).
  { apply elem_of_nil_inv. intros r Hr. apply Hmem' in Hr as [Hargs Hnew].
    apply Hnew. simpl. apply elem_of_app.
    destruct (decide (r ∈ client_labels db)); [by left|right].
    by apply Hmem. }
  rewrite Hnone. unfold with_labels. simpl. by rewrite !app_nil_r.
Qed.

(** The label prod of owner GRR is already on client 7; dev is new. *)
Lemma MultiAddClientLabels_insert_or_ignore_witness :
  exists added,
    let db' := with_labels (fun t => (t ++ added)%list) example_labelled_db in
    MultiAddClientLabels (Ext := example_externals) [7] "GRR"
      ["prod"%string; "dev"%string] example_labelled_db = (db', Return tt)
    /\ NoDup added
    /\ MultiAddClientLabels (Ext := example_externals) [7] "GRR"
         ["prod"%string; "dev"%string] db' = (db', Return tt).
Proof.
  destruct (MultiAddClientLabels_insert_or_ignore (Ext := example_externals)
              [7] "GRR" ["prod"%string; "dev"%string] example_labelled_db)
    as [Hknown _].
  - discriminate.
  - discriminate.
  - destruct Hknown as (added & Hadd & _ & Hnd & Hagain).
    + repeat constructor. vm_compute. eauto.
    + exists added. split_and!; [exact Hadd|exact Hnd|exact Hagain].
Defined.

Lemma client_labels_of_elem (c : Z) (db : DB) (lab : rdf_objects.ClientLabel) :
  lab ∈ client_labels_of c db
  <-> exists r, r ∈ client_labels db /\ label_client_id r = c
                /\ lab = rdf_objects.mkClientLabel (label_label r) (label_owner_username r).
Proof.
  unfold client_labels_of. rewrite list_elem_of_fmap. split.
  - intros (r & -> & Hr). apply list_elem_of_In, filter_In in Hr as [Hr Hc].
    apply bool_decide_eq_true in Hc. exists r. by rewrite list_elem_of_In.
  - intros (r & Hr & Hc & ->). exists r. split; [done|].
    apply list_elem_of_In, filter_In. split; [by apply list_elem_of_In|].
    by apply bool_decide_eq_true.
Qed.

(** X19.  What MultiAddClientLabels attaches, MultiReadClientLabels returns:
    after a batch for known clients, the list of every client of the batch
    holds every label of the batch under the owner of the batch, next to the
    labels the client had before. *)
Theorem MultiAddClientLabels_then_MultiReadClientLabels `{Ext : Externals}
    (client_ids : list ClientID) (owner : string) (labels : list string) (db : DB) :
  client_ids <> [] -> labels <> [] ->
  Forall (fun c => is_Some (clients db !! ClientIDToInt c)) client_ids ->
  exists db' m,
    MultiAddClientLabels client_ids owner labels db = (db', Return tt)
    /\ MultiReadClientLabels client_ids db' = (db', Return m)
    /\ forall c,
        c ∈ client_ids ->
        exists l,
          m !! c = Some l
          /\ (forall label, label ∈ labels -> rdf_objects.mkClientLabel label owner ∈ l)
          /\ (forall lab, lab ∈ client_labels_of (ClientIDToInt c) db -> lab ∈ l).
Proof.
  intros Hids Hlabels Hknown.
  destruct (MultiAddClientLabels_known client_ids owner labels db Hids Hlabels Hknown)
    as (added & Hadd & Hmem & _).
  destruct (MultiReadClientLabels_contents client_ids
              (with_labels (fun t => (t ++ added)%list) db) Hids) as (m & Hm & Hl).
  exists (with_labels (fun t => (t ++ added)%list) db), m.
  split; [exact Hadd|]. split; [exact Hm|].
  intros c Hc. rewrite Hl, bool_decide_eq_true_2 by done.
  eexists. split; [reflexivity|]. split.
  - intros label Hlabel. rewrite merge_sort_Permutation.
    apply client_labels_of_elem.
    exists (mkLabelRow (ClientIDToInt c) (Hash owner) owner label).
    split; [|done]. simpl. apply elem_of_app.
    destruct (decide (mkLabelRow (ClientIDToInt c) (Hash owner) owner label
                      ∈ client_labels db)) as [Hold|Hnew]; [by left|right].
    apply Hmem. split; [|done]. apply label_args_elem. eauto.
  - intros lab Hlab. rewrite merge_sort_Permutation.
    apply client_labels_of_elem in Hlab as (r & Hr & Hrc & ->).
    apply client_labels_of_elem. exists r. split; [|done].
    simpl. apply elem_of_app. by left.
Qed.

(** Client 7 of the labelled example store gets the label dev of owner GRR. *)
Lemma MultiAddClientLabels_then_MultiReadClientLabels_witness :
  exists db' m l,
    MultiAddClientLabels (Ext := example_externals) [7] "GRR" ["dev"%string]
      example_labelled_db = (db', Return tt)
    /\ MultiReadClientLabels [7] db' = (db', Return m)
    /\ m !! 7 = Some l
    /\ rdf_objects.mkClientLabel "dev" "GRR" ∈ l
    /\ rdf_objects.mkClientLabel "prod" "GRR" ∈ l.
Proof.
  destruct (MultiAddClientLabels_then_MultiReadClientLabels
              (Ext := example_externals) [7] "GRR" ["dev"%string] example_labelled_db)
    as (db' & m & Hadd & Hm & Hl).
  - discriminate.
  - discriminate.
  - repeat constructor. vm_compute. eauto.
  - destruct (Hl 7) as (l & Hl7 & Hnew & Hold).
    + apply elem_of_cons. by left.
    + exists db', m, l. split_and!; [exact Hadd|exact Hm|exact Hl7| |].
      * apply Hnew. apply elem_of_cons. by left.
      * apply Hold. vm_compute. apply elem_of_cons. by left.
Defined.

Lemma filter_keep_all {A} (P : A -> bool) (l : list A) :
  (forall x, x ∈ l -> P x = true) -> List.filter P l = l.
Proof.
  induction l as [|x l IH]; intros Hall; [reflexivity|]. simpl.
  rewrite Hall by (by left). f_equal. apply IH. intros y Hy. apply Hall. by right.
Qed.

Lemma filter_drop_all {A} (P : A -> bool) (l : list A) :
  (forall x, x ∈ l -> P x = false) -> List.filter P l = [].
Proof.
  induction l as [|x l IH]; intros Hall; [reflexivity|]. simpl.
  rewrite Hall by (by left). apply IH. intros y Hy. apply Hall. by right.
Qed.

Lemma label_removed_spec `{Ext : Externals} (cid : Z) (owner : string)
    (labels : list string) (r : LabelRow) :
  negb (bool_decide (label_client_id r = cid)
        && bool_decide (label_owner_username_hash r = Hash owner)
        && bool_decide (label_label r ∈ labels)) = true
  <-> ~ label_removed cid owner labels r.
Proof.
  unfold label_removed. rewrite negb_true_iff, <- not_true_iff_false.
  rewrite !andb_true_iff, !bool_decide_eq_true. tauto.
Qed.

Lemma RemoveClientLabels_returns `{Ext : Externals}
    (client_id : ClientID) (owner : string) (labels : list string) (db : DB) :
  labels <> [] ->
  RemoveClientLabels client_id owner labels db
  = (with_labels
       (List.filter
          (fun r => negb (bool_decide (label_client_id r = ClientIDToInt client_id)
                          && bool_decide (label_owner_username_hash r = Hash owner)
                          && bool_decide (label_label r ∈ labels))))
       db, Return tt).
Proof.
  intros Hne. unfold RemoveClientLabels. py_unfold. simpl.
  unfold sql_delete_labels. destruct labels; [done|reflexivity].
Qed.

(** X20.  RemoveClientLabels undoes MultiAddClientLabels: when a known client
    has none of the labels from the owner, attaching them and then removing
    them gives back the database as it was, the other owners' labels of the
    client and the labels of the other clients included. *)
Theorem MultiAddClientLabels_then_RemoveClientLabels `{Ext : Externals}
    (client_id : ClientID) (owner : string) (labels : list string) (db : DB) :
  labels <> [] ->
  is_Some (clients db !! ClientIDToInt client_id) ->
  (forall r, r ∈ client_labels db ->
             ~ label_removed (ClientIDToInt client_id) owner labels r) ->
  exists db',
    MultiAddClientLabels [client_id] owner labels db = (db', Return tt)
    /\ RemoveClientLabels client_id owner labels db' = (db, Return tt).
Proof.
  intros Hlabels Hknown Hfresh.
  destruct (MultiAddClientLabels_known [client_id] owner labels db)
    as (added & Hadd & Hmem & _); [done|done|by constructor|].
  exists (with_labels (fun t => (t ++ added)%list) db). split; [exact Hadd|].
  rewrite RemoveClientLabels_returns by done. f_equal.
  unfold with_labels. simpl. rewrite List.filter_app.
  rewrite filter_keep_all, filter_drop_all.
  - rewrite app_nil_r. by destruct db.
  - intros r Hr. apply Hmem in Hr as [Hr _].
    apply label_args_elem in Hr as (c & label & Hc & Hlabel & ->).
    apply list_elem_of_singleton in Hc as ->. simpl.
    by rewrite !bool_decide_eq_true_2.
  - intros r Hr. apply label_removed_spec. by apply Hfresh.
Qed.

(** Client 7 of the labelled example store has no label dev of owner GRR. *)
Lemma MultiAddClientLabels_then_RemoveClientLabels_witness :
  exists db',
    MultiAddClientLabels (Ext := example_externals) [7] "GRR" ["dev"%string]
      example_labelled_db = (db', Return tt)
    /\ RemoveClientLabels (Ext := example_externals) 7 "GRR" ["dev"%string] db'
       = (example_labelled_db, Return tt).
Proof.
  apply (MultiAddClientLabels_then_RemoveClientLabels (Ext := example_externals)
           7 "GRR" ["dev"%string] example_labelled_db).
  - discriminate.
  - vm_compute. eauto.
  - intros r Hr [_ [_ Hlabel]]. vm_compute in Hr.
    apply list_elem_of_singleton in Hr. subst r. simpl in Hlabel.
    apply list_elem_of_singleton in Hlabel. discriminate.
Defined.

(** X21.  RemoveClientLabels with at least one label returns, also when the
    client or the labels do not exist.  Afterwards MultiReadClientLabels
    returns for the client the labels of its rows that the statement did not
    match: a row is matched by its owner hash and its label, so the labels of
    owners with another hash stay.  The lists of the other requested clients
    are as before. *)
Theorem RemoveClientLabels_then_MultiReadClientLabels `{Ext : Externals}
    (client_id : ClientID) (owner : string) (labels : list string)
    (client_ids : list ClientID) (db : DB) :
  labels <> [] ->
  client_id ∈ client_ids ->
  exists db' before after l,
    RemoveClientLabels client_id owner labels db = (db', Return tt)
    /\ MultiReadClientLabels client_ids db = (db, Return before)
    /\ MultiReadClientLabels client_ids db' = (db', Return after)
    /\ after !! client_id = Some l
    /\ (forall lab,
          lab ∈ l
          <-> exists r,
                r ∈ client_labels db
                /\ label_client_id r = ClientIDToInt client_id
                /\ ~ label_removed (ClientIDToInt client_id) owner labels r
                /\ lab = rdf_objects.mkClientLabel (label_label r)
                           (label_owner_username r))
    /\ forall other, other <> client_id -> after !! other = before !! other.
Proof.
  intros Hlabels Hin.
  assert (Hne : client_ids <> []) by (intros ->; by apply elem_of_nil in Hin).
  set (keep := fun r => negb (bool_decide (label_client_id r = ClientIDToInt client_id)
                                && bool_decide (label_owner_username_hash r = Hash owner)
                                && bool_decide (label_label r ∈ labels))).
  destruct (MultiReadClientLabels_contents client_ids db Hne) as (before & Hb & Hlb).
  destruct (MultiReadClientLabels_contents client_ids
              (with_labels (List.filter keep) db) Hne) as (after & Ha & Hla).
  exists (with_labels (List.filter keep) db), before, after.
  eexists. split; [by apply RemoveClientLabels_returns|].
  split; [exact Hb|]. split; [exact Ha|]. split.
  { rewrite Hla, bool_decide_eq_true_2 by done. reflexivity. }
  split.
  - intros lab. rewrite merge_sort_Permutation, client_labels_of_elem. simpl.
    split.
    + intros (r & Hr & Hc & ->). apply list_elem_of_In, filter_In in Hr as [Hr Hk].
      exists r. split; [by apply list_elem_of_In|]. split; [done|].
      split; [|done]. by apply label_removed_spec.
    + intros (r & Hr & Hc & Hk & ->). exists r. split; [|done].
      apply list_elem_of_In, filter_In. split; [by apply list_elem_of_In|].
      by apply label_removed_spec.
  - intros other Hother. rewrite Hla, Hlb.
    case_bool_decide; [|done]. do 2 f_equal.
    unfold client_labels_of. simpl. f_equal.
    induction (client_labels db) as [|r rs IH]; [reflexivity|]. simpl.
    destruct (keep r) eqn:Hk; simpl.
    + by rewrite IH.
    + rewrite IH. rewrite bool_decide_eq_false_2; [done|].
      subst keep. simpl in Hk. apply negb_false_iff in Hk.
      rewrite !andb_true_iff, !bool_decide_eq_true in Hk.
      destruct Hk as [[Hc _] _]. unfold ClientIDToInt in *. congruence.
Qed.

(** The label prod of owner GRR is removed from client 7. *)
Lemma RemoveClientLabels_then_MultiReadClientLabels_witness :
  exists db' after l,
    RemoveClientLabels (Ext := example_externals) 7 "GRR" ["prod"%string]
      example_labelled_db = (db', Return tt)
    /\ MultiReadClientLabels [7] db' = (db', Return after)
    /\ after !! 7 = Some l
    /\ (rdf_objects.mkClientLabel "prod" "GRR" ∉ l).
Proof.
  destruct (RemoveClientLabels_then_MultiReadClientLabels (Ext := example_externals)
              7 "GRR" ["prod"%string] [7] example_labelled_db)
    as (db' & before & after & l & Hrm & _ & Ha & Hl & Hmem & _).
  - discriminate.
  - apply elem_of_cons. by left.
  - exists db', after, l. split_and!; [exact Hrm|exact Ha|exact Hl|].
    intros Hin. apply Hmem in Hin as (r & Hr & _ & Hkeep & Hlab).
    vm_compute in Hr. apply list_elem_of_singleton in Hr. subst r.
    apply Hkeep. split_and!; [reflexivity|reflexivity|].
    simpl. apply elem_of_cons. by left.
Defined.

(** X23.  ReadAllClientLabels returns every label that some row of the label
    table carries, whatever its client and owner, and returns it once. *)
Theorem ReadAllClientLabels_distinct_labels (db : DB) :
  exists labels,
    ReadAllClientLabels db = (db, Return labels)
    /\ NoDup labels
    /\ forall label,
        label ∈ labels <-> exists r, r ∈ client_labels db /\ label_label r = label.
Proof.
  assert (Happend : forall (rows acc : list string),
             foldl (fun result label => (result ++ [label])%list) acc rows
             = (acc ++ rows)%list).
  { induction rows as [|x rows IH]; intros acc; simpl; [by rewrite app_nil_r|].
    by rewrite IH, <- app_assoc. }
  unfold ReadAllClientLabels. py_unfold. simpl. rewrite Happend. simpl.
  eexists. split; [reflexivity|]. unfold select_distinct_labels. split.
  - apply NoDup_remove_dups.
  - intros label. rewrite elem_of_remove_dups, list_elem_of_fmap. split.
    + intros (r & -> & Hr). by exists r.
    + intros (r & Hr & <-). by exists r.
Qed.

(** ** The history readers *)

Arguments select_history : simpl never.
Arguments select_snapshot_history : simpl never.

Lemma newer_first_trans {A} : Transitive (@newer_first A).
Proof. intros a b c. unfold newer_first. lia. Qed.

Lemma newer_first_total {A} : Total (@newer_first A).
Proof. intros a b. unfold newer_first. lia. Qed.

Lemma omap_keyed_NoDup {A} (f : (Z * Z) * blob -> option (A * Z)) (cid : Z)
    (l : list ((Z * Z) * blob)) :
  NoDup (map fst l) ->
  (forall kv x, f kv = Some x -> kv.1 = (cid, x.2)) ->
  NoDup (map snd (omap f l)).
Proof.
  intros Hnd Hkey. induction l as [|kv l IH]; simpl; [constructor|].
  simpl in Hnd. apply NoDup_cons in Hnd as [Hkv Hnd].
  destruct (f kv) as [x|] eqn:Hf; [|by apply IH].
  change (NoDup (x.2 :: map snd (omap f l))).
  constructor; [|by apply IH].
  intros Hin. apply list_elem_of_fmap in Hin as (y & Hy & Hin).
  apply list_elem_of_omap in Hin as (kv' & Hin & Hf').
  apply Hkey in Hf, Hf'. apply Hkv. apply list_elem_of_fmap.
  exists kv'. split; [congruence|done].
Qed.

Lemma sorted_strict {A} (l : list (A * Z)) :
  StronglySorted newer_first l -> NoDup (map snd l) -> newest_first l.
Proof.
  unfold newest_first.
  induction 1 as [|a l Hs IH Hall]; intros Hnd; [constructor|].
  simpl in Hnd. apply NoDup_cons in Hnd as [Ha Hnd].
  constructor; [by apply IH|].
  apply Forall_forall. intros b Hb.
  pose proof (proj1 (Forall_forall _ _) Hall b Hb) as Hle. unfold newer_first in Hle.
  assert (b.2 <> a.2).
  { intros Heq. apply Ha. rewrite <- Heq. apply list_elem_of_fmap. by exists b. }
  lia.
Qed.

Lemma history_rows_newest_first {A} (f : (Z * Z) * blob -> option (A * Z)) (cid : Z)
    (m : gmap (Z * Z) blob) :
  (forall kv x, f kv = Some x -> kv.1 = (cid, x.2)) ->
  newest_first (merge_sort newer_first (omap f (map_to_list m))).
Proof.
  intros Hkey. apply sorted_strict.
  - apply StronglySorted_merge_sort; [apply newer_first_trans|apply newer_first_total].
  - rewrite merge_sort_Permutation.
    eapply omap_keyed_NoDup; [apply NoDup_fst_map_to_list|exact Hkey].
Qed.

Lemma select_history_elem (stream : gmap (Z * Z) blob) (cid : Z)
    (timerange : option (option RDFDatetime * option RDFDatetime))
    (payload : blob) (ts : Z) :
  (payload, ts) ∈ select_history stream cid timerange
  <-> stream !! (cid, ts) = Some payload /\ in_timerange timerange ts = true.
Proof.
  unfold select_history. rewrite merge_sort_Permutation, list_elem_of_omap. split.
  - intros ([[c t] p] & Hin & Hf). simpl in Hf.
    apply elem_of_map_to_list in Hin.
    destruct (bool_decide (c = cid)) eqn:Hc; simpl in Hf; [|done].
    apply bool_decide_eq_true in Hc. subst c.
    destruct (in_timerange timerange t) eqn:Hr; [|done].
    by injection Hf as -> ->.
  - intros [Hl Hr]. exists ((cid, ts), payload).
    split; [by apply elem_of_map_to_list|]. simpl.
    by rewrite bool_decide_eq_true_2, Hr.
Qed.

Lemma select_history_newest_first (stream : gmap (Z * Z) blob) (cid : Z)
    (timerange : option (option RDFDatetime * option RDFDatetime)) :
  newest_first (select_history stream cid timerange).
Proof.
  apply (history_rows_newest_first _ cid). intros [[c t] p] x. simpl.
  destruct (bool_decide (c = cid)) eqn:Hc; simpl; [|done].
  apply bool_decide_eq_true in Hc. subst c.
  destruct (in_timerange timerange t); [|done]. by intros [= <-].
Qed.

Lemma select_snapshot_history_elem (cid : Z)
    (timerange : option (option RDFDatetime * option RDFDatetime)) (db : DB)
    (snapshot startup_info : blob) (ts : Z) :
  (snapshot, startup_info, ts) ∈ select_snapshot_history cid timerange db
  <-> client_snapshot_history db !! (cid, ts) = Some snapshot
      /\ client_startup_history db !! (cid, ts) = Some startup_info
      /\ in_timerange timerange ts = true.
Proof.
  unfold select_snapshot_history.
  rewrite merge_sort_Permutation, list_elem_of_omap. split.
  - intros ([[c t] p] & Hin & Hf). simpl in Hf.
    apply elem_of_map_to_list in Hin.
    destruct (bool_decide (c = cid)) eqn:Hc; simpl in Hf; [|done].
    apply bool_decide_eq_true in Hc. subst c.
    destruct (in_timerange timerange t) eqn:Hr; [|done].
    destruct (client_startup_history db !! (cid, t)) as [st|] eqn:Hst; [|done].
    simpl in Hf. by injection Hf as -> -> ->.
  - intros (Hsn & Hst & Hr). exists ((cid, ts), snapshot).
    split; [by apply elem_of_map_to_list|]. simpl.
    by rewrite bool_decide_eq_true_2, Hr, Hst.
Qed.

Lemma select_snapshot_history_newest_first (cid : Z)
    (timerange : option (option RDFDatetime * option RDFDatetime)) (db : DB) :
  newest_first (select_snapshot_history cid timerange db).
Proof.
  apply (history_rows_newest_first _ cid). intros [[c t] p] x. simpl.
  destruct (bool_decide (c = cid)) eqn:Hc; simpl; [|done].
  apply bool_decide_eq_true in Hc. subst c.
  destruct (in_timerange timerange t); [|done].
  destruct (client_startup_history db !! (cid, t)); [|done]. by intros [= <-].
Qed.

(** X24.  ReadClientSnapshotHistory returns one snapshot per time at which
    the client has both a snapshot record and a startup record, and no other:
    a snapshot whose startup record is missing is left out.  With a timerange
    only the times from time_from to time_to, both included, are returned; a
    bound that is None does not restrict.  The snapshots come newest first,
    each decoded from its record, with the startup info of the same time
    attached and the time of the record as timestamp. *)
Theorem ReadClientSnapshotHistory_joined_newest_first `{Ext : Externals}
    (client_id : ClientID)
    (timerange : option (option RDFDatetime * option RDFDatetime)) (db : DB) :
  exists rows : list (blob * blob * Z),
    ReadClientSnapshotHistory client_id timerange db
    = (db, Return (map (fun row : blob * blob * Z =>
                          set_timestamp (Some row.2)
                            (set_startup_info
                               (Some (StartupInfo_FromSerializedBytes row.1.2))
                               (ClientSnapshot_FromSerializedBytes row.1.1)))
                       rows))
    /\ newest_first rows
    /\ forall snapshot startup_info ts,
        (snapshot, startup_info, ts) ∈ rows
        <-> client_snapshot_history db !! (ClientIDToInt client_id, ts) = Some snapshot
            /\ client_startup_history db !! (ClientIDToInt client_id, ts)
               = Some startup_info
            /\ match timerange with
               | Some (time_from, time_to) =>
                   (forall t, time_from = Some t -> RDFDatetimeToTimestamp t <= ts)
                   /\ (forall t, time_to = Some t -> ts <= RDFDatetimeToTimestamp t)
               | None => True
               end.
Proof.
  exists (select_snapshot_history (ClientIDToInt client_id) timerange db).
  split_and!.
  - unfold ReadClientSnapshotHistory. py_unfold. simpl. do 2 f_equal.
    apply map_ext. by intros [[snapshot startup_info] ts].
  - apply select_snapshot_history_newest_first.
  - intros snapshot startup_info ts. rewrite select_snapshot_history_elem.
    assert (Hrange : in_timerange timerange ts = true
                     <-> match timerange with
                         | Some (time_from, time_to) =>
                             (forall t, time_from = Some t -> RDFDatetimeToTimestamp t <= ts)
                             /\ (forall t, time_to = Some t -> ts <= RDFDatetimeToTimestamp t)
                         | None => True
                         end).
    { destruct timerange as [[[f|] [t|]]|]; simpl;
        rewrite ?andb_true_iff, ?bool_decide_eq_true; [| | | |done];
        (split;
         [intros H; split; intros t0 Ht0; try discriminate;
          injection Ht0 as <-; tauto
         |intros [H1 H2]; repeat split; eauto]). }
    by rewrite Hrange.
Qed.

Lemma in_timerange_spec
    (timerange : option (option RDFDatetime * option RDFDatetime)) (ts : Z) :
  in_timerange timerange ts = true
  <-> match timerange with
      | Some (time_from, time_to) =>
          (forall t, time_from = Some t -> RDFDatetimeToTimestamp t <= ts)
          /\ (forall t, time_to = Some t -> ts <= RDFDatetimeToTimestamp t)
      | None => True
      end.
Proof.
  destruct timerange as [[[f|] [t|]]|]; simpl;
    rewrite ?andb_true_iff, ?bool_decide_eq_true; [| | | |done];
    (split;
     [intros H; split; intros t0 Ht0; try discriminate;
      injection Ht0 as <-; tauto
     |intros [H1 H2]; repeat split; eauto]).
Qed.

(** X25.  ReadClientStartupInfoHistory returns one record per startup record
    of the client whose time lies in the timerange (both bounds included, a
    bound that is None does not restrict, no timerange means all records),
    newest first, each decoded from its record with the time of the record as
    timestamp.  Records of other clients are never returned. *)
Theorem ReadClientStartupInfoHistory_newest_first `{Ext : Externals}
    (client_id : ClientID)
    (timerange : option (option RDFDatetime * option RDFDatetime)) (db : DB) :
  exists rows : list (blob * Z),
    ReadClientStartupInfoHistory client_id timerange db
    = (db, Return (map (fun row : blob * Z =>
                          set_startup_timestamp (Some row.2)
                            (StartupInfo_FromSerializedBytes row.1))
                       rows))
    /\ newest_first rows
    /\ forall startup_info ts,
        (startup_info, ts) ∈ rows
        <-> client_startup_history db !! (ClientIDToInt client_id, ts)
            = Some startup_info
            /\ match timerange with
               | Some (time_from, time_to) =>
                   (forall t, time_from = Some t -> RDFDatetimeToTimestamp t <= ts)
                   /\ (forall t, time_to = Some t -> ts <= RDFDatetimeToTimestamp t)
               | None => True
               end.
Proof.
  exists (select_history (client_startup_history db) (ClientIDToInt client_id) timerange).
  split_and!.
  - unfold ReadClientStartupInfoHistory. py_unfold. simpl. do 2 f_equal.
    apply map_ext. by intros [startup_info ts].
  - apply select_history_newest_first.
  - intros startup_info ts. by rewrite select_history_elem, in_timerange_spec.
Qed.

Lemma newest_first_NoDup {A} (rows : list (A * Z)) : newest_first rows -> NoDup rows.
Proof.
  unfold newest_first. induction 1 as [|a l Hs IH Hall]; constructor; [|done].
  intros Hin. pose proof (proj1 (Forall_forall _ _) Hall a Hin). simpl in *. lia.
Qed.

Lemma newest_first_unique {A} (l1 l2 : list (A * Z)) :
  newest_first l1 -> newest_first l2 -> (forall x, x ∈ l1 <-> x ∈ l2) -> l1 = l2.
Proof.
  intros H1 H2 Hmem.
  apply (StronglySorted_unique_strong (fun a b : A * Z => b.2 < a.2)); try done.
  - intros x1 x2 _ _ Ha Hb. lia.
  - apply NoDup_Permutation; auto using newest_first_NoDup.
Qed.

Lemma select_history_insert (stream : gmap (Z * Z) blob) (cid now : Z) (payload : blob)
    (timerange : option (option RDFDatetime * option RDFDatetime)) :
  (forall ts p, stream !! (cid, ts) = Some p -> ts < now) ->
  in_timerange timerange now = true ->
  select_history (<[(cid, now) := payload]> stream) cid timerange
  = (payload, now) :: select_history stream cid timerange.
Proof.
  intros Hlate Hnow. apply newest_first_unique.
  - apply select_history_newest_first.
  - constructor; [apply select_history_newest_first|].
    apply Forall_forall. intros [p ts] Hin.
    apply select_history_elem in Hin as [Hin _]. simpl. by eapply Hlate.
  - intros [p ts]. rewrite elem_of_cons, !select_history_elem.
    destruct (decide (ts = now)) as [->|Hne].
    + rewrite lookup_insert_eq. split.
      * intros [[= ->] _]. by left.
      * intros [[= ->]|[Hold _]]; [done|]. apply Hlate in Hold. lia.
    + rewrite lookup_insert_ne by congruence. split; [tauto|].
      intros [[= -> ->]|H]; [done|tauto].
Qed.

(** X26.  A crash record written after all the crash records the client has
    goes to the front of its history: when every crash record of the client
    is older than the time of the write, ReadClientCrashInfoHistory after
    WriteClientCrashInfo returns the new record, with the time of the write as
    timestamp, followed by what it returned before, and ReadClientCrashInfo
    returns that first element. *)
Theorem WriteClientCrashInfo_prepends_to_history `{Ext : Externals}
    (now : Z) (client_id : ClientID) (crash_info : rdf_client.ClientCrash) (db : DB) :
  is_Some (clients db !! ClientIDToInt client_id) ->
  (forall ts p, client_crash_history db !! (ClientIDToInt client_id, ts) = Some p ->
                ts < now) ->
  let written :=
    rdf_client.mkClientCrash
      (rdf_client.crash_body
         (ClientCrash_FromSerializedBytes (ClientCrash_SerializeToBytes crash_info)))
      (Some now) in
  exists db' before,
    WriteClientCrashInfo now client_id crash_info db = (db', Return tt)
    /\ ReadClientCrashInfoHistory client_id db = (db, Return before)
    /\ ReadClientCrashInfoHistory client_id db' = (db', Return (written :: before))
    /\ ReadClientCrashInfo client_id db' = (db', Return (Some written)).
Proof.
  intros [r Hr] Hlate written.
  assert (Hfresh : client_crash_history db !! (ClientIDToInt client_id, now) = None).
  { destruct (client_crash_history db !! (ClientIDToInt client_id, now)) eqn:H; [|done].
    apply Hlate in H. lia. }
  unfold WriteClientCrashInfo, ReadClientCrashInfoHistory, ReadClientCrashInfo.
  py_unfold. simpl.
  unfold insert_crash_history, sql_insert_history. rewrite Hr, Hfresh. simpl.
  unfold sql_update_client. simpl. rewrite Hr.
  rewrite row_pointers_ok_set_crash by (simpl; rewrite lookup_insert_eq; eauto).
  simpl. eexists _, _. split; [reflexivity|]. split; [reflexivity|].
  split.
  - simpl. rewrite select_history_insert by done. reflexivity.
  - unfold select_latest. simpl. rewrite lookup_insert_eq. simpl.
    destruct r. unfold assign_all. simpl. rewrite lookup_insert_eq. reflexivity.
Qed.

(** Client 7 of the example store crashed at time 5 and crashes again at 9. *)
Lemma WriteClientCrashInfo_prepends_to_history_witness :
  exists db',
    WriteClientCrashInfo (Ext := example_externals) 9 7
      (rdf_client.mkClientCrash "second" None)
      (with_crash_history (insert (7, 5) "first"%string) example_db) = (db', Return tt)
    /\ ReadClientCrashInfoHistory (Ext := example_externals) 7 db'
       = (db', Return [rdf_client.mkClientCrash "second" (Some 9);
                       rdf_client.mkClientCrash "first" (Some 5)]).
Proof.
  destruct (WriteClientCrashInfo_prepends_to_history (Ext := example_externals) 9 7
              (rdf_client.mkClientCrash "second" None)
              (with_crash_history (insert (7, 5) "first"%string) example_db))
    as (db' & before & Hw & Hb & Ha & _).
  - vm_compute. eauto.
  - intros ts p Hl. simpl in Hl. unfold ClientIDToInt in Hl.
    destruct (decide (ts = 5)) as [->|Hne]; [lia|].
    rewrite lookup_insert_ne in Hl by congruence. by rewrite lookup_empty in Hl.
  - exists db'. split; [exact Hw|]. rewrite Ha. do 3 f_equal.
    vm_compute in Hb. by injection Hb as <-.
Defined.

(** ** Last pings, page by page *)

Arguments matching_last_pings : simpl never.

Lemma ReadClientLastPings_loop_round
    (min_last_ping max_last_ping : option RDFDatetime) (batch_size : Z)
    (last_client_id : option ClientID) (db : DB) :
  ReadClientLastPings_loop min_last_ping max_last_ping batch_size last_client_id db =
  match _ReadClientLastPings last_client_id batch_size min_last_ping max_last_ping db with
  | (db', Raise e) => (db', mkGenerated [] (Raise e))
  | (db', Return (last_client_id', last_pings)) =>
      if bool_decide (Z.of_nat (size last_pings) < batch_size)
      then (db', yield_if_any last_pings (mkGenerated [] (Return tt)))
      else let '(db'', g) :=
             ReadClientLastPings_loop min_last_ping max_last_ping batch_size
               last_client_id' db' in
           (db'', yield_if_any last_pings g)
  end.
Proof.
  funelim (ReadClientLastPings_loop min_last_ping max_last_ping batch_size
             last_client_id db).
  all: try match goal with H : _ReadClientLastPings _ _ _ _ _ = _ |- _ => rewrite H end.
  all: try match goal with H : bool_decide _ = _ |- _ => rewrite H end.
  all: try reflexivity.
Qed.

Lemma by_client_id_trans {A} : Transitive (@by_client_id A).
Proof. intros a b c. unfold by_client_id. lia. Qed.

Lemma by_client_id_total {A} : Total (@by_client_id A).
Proof. intros a b. unfold by_client_id. lia. Qed.

Lemma matching_last_pings_elem (prev : Z) (min_last_ping max_last_ping : option RDFDatetime)
    (db : DB) (c : Z) (ping : option Z) :
  (c, ping) ∈ matching_last_pings prev min_last_ping max_last_ping db
  <-> exists r, clients db !! c = Some r /\ prev < c
                /\ ping_in_range min_last_ping max_last_ping r = true
                /\ ping = last_ping r.
Proof.
  unfold matching_last_pings. rewrite merge_sort_Permutation, list_elem_of_omap. split.
  - intros ([k r] & Hkr & Hf). simpl in Hf. apply elem_of_map_to_list in Hkr.
    destruct (bool_decide (prev < k)) eqn:Hk; simpl in Hf; [|done].
    destruct (ping_in_range min_last_ping max_last_ping r) eqn:Hr; [|done].
    injection Hf as -> <-. apply bool_decide_eq_true in Hk. by exists r.
  - intros (r & Hr & Hk & Hrange & ->). exists (c, r).
    split; [by apply elem_of_map_to_list|]. simpl.
    by rewrite bool_decide_eq_true_2, Hrange.
Qed.

Lemma matching_last_pings_ascending (prev : Z)
    (min_last_ping max_last_ping : option RDFDatetime) (db : DB) :
  ascending (matching_last_pings prev min_last_ping max_last_ping db).
Proof.
  unfold matching_last_pings, ascending.
  set (f := fun kv : Z * ClientRow =>
              if bool_decide (prev < kv.1)
                 && ping_in_range min_last_ping max_last_ping kv.2
              then Some (kv.1, last_ping kv.2) else None).
  assert (Hnd : NoDup (map fst (merge_sort by_client_id (omap f (map_to_list (clients db)))))).
  { rewrite merge_sort_Permutation.
    pose proof (NoDup_fst_map_to_list (clients db)) as Hkeys.
    induction (map_to_list (clients db)) as [|kv l IH]; simpl; [constructor|].
    simpl in Hkeys. apply NoDup_cons in Hkeys as [Hkv Hkeys].
    destruct (f kv) as [x|] eqn:Hf; [|by apply IH].
    change (NoDup (x.1 :: map fst (omap f l))).
    constructor; [|by apply IH].
    intros Hin. apply list_elem_of_fmap in Hin as (y & Hy & Hin).
    apply list_elem_of_omap in Hin as (kv' & Hin & Hf').
    apply Hkv. apply list_elem_of_fmap. exists kv'. split; [|done].
    subst f. simpl in *.
    destruct (_ && _); [|done]. destruct (_ && _); [|done].
    injection Hf as <-. injection Hf' as <-. done. }
  assert (Hs : StronglySorted by_client_id
                 (merge_sort by_client_id (omap f (map_to_list (clients db))))).
  { apply StronglySorted_merge_sort; [apply by_client_id_trans|apply by_client_id_total]. }
  induction Hs as [|a l Hs IH Hall]; [constructor|].
  simpl in Hnd. apply NoDup_cons in Hnd as [Ha Hnd].
  constructor; [by apply IH|].
  apply Forall_forall. intros b Hb.
  pose proof (proj1 (Forall_forall _ _) Hall b Hb) as Hle. unfold by_client_id in Hle.
  assert (b.1 <> a.1).
  { intros Heq. apply Ha. rewrite <- Heq. apply list_elem_of_fmap. by exists b. }
  lia.
Qed.

Lemma ascending_NoDup {A} (rows : list (Z * A)) : ascending rows -> NoDup (map fst rows).
Proof.
  unfold ascending. induction 1 as [|a l Hs IH Hall]; simpl; constructor; [|done].
  intros Hin. apply list_elem_of_fmap in Hin as (b & Hb & Hin).
  pose proof (proj1 (Forall_forall _ _) Hall b Hin). simpl in *. lia.
Qed.

Lemma ascending_unique {A} (l1 l2 : list (Z * A)) :
  ascending l1 -> ascending l2 -> (forall x, x ∈ l1 <-> x ∈ l2) -> l1 = l2.
Proof.
  intros H1 H2 Hmem.
  apply (StronglySorted_unique_strong (fun a b : Z * A => a.1 < b.1)); try done.
  - intros x1 x2 _ _ Ha Hb. lia.
  - apply NoDup_Permutation; [| |done].
    + eapply NoDup_fmap_1. by apply ascending_NoDup.
    + eapply NoDup_fmap_1. by apply ascending_NoDup.
Qed.

Lemma matching_last_pings_next (prev next : Z) (ping : option Z)
    (min_last_ping max_last_ping : option RDFDatetime) (db : DB)
    (front rest : list (Z * option Z)) :
  matching_last_pings prev min_last_ping max_last_ping db
  = (front ++ [(next, ping)]) ++ rest ->
  matching_last_pings next min_last_ping max_last_ping db = rest.
Proof.
  intros Hsplit.
  pose proof (matching_last_pings_ascending prev min_last_ping max_last_ping db) as Hasc.
  rewrite Hsplit in Hasc. unfold ascending in Hasc.
  assert (Hnext : (next, ping) ∈ matching_last_pings prev min_last_ping max_last_ping db).
  { rewrite Hsplit. apply elem_of_app. left. apply elem_of_app. right.
    by apply list_elem_of_singleton. }
  apply matching_last_pings_elem in Hnext as (rn & _ & Hprev & _).
  apply ascending_unique.
  - apply matching_last_pings_ascending.
  - by apply StronglySorted_app_1_r in Hasc.
  - intros [c v]. rewrite matching_last_pings_elem. split.
    + intros (r & Hr & Hc & Hrange & ->).
      assert (Hin : (c, last_ping r)
                    ∈ matching_last_pings prev min_last_ping max_last_ping db).
      { apply matching_last_pings_elem. exists r. split_and!; [done|lia|done|done]. }
      rewrite Hsplit in Hin. apply elem_of_app in Hin as [Hin|Hin]; [|done].
      exfalso. apply elem_of_app in Hin as [Hin|Hin].
      * apply StronglySorted_app_1_l in Hasc.
        pose proof (StronglySorted_app_1_elem_of _ _ _ _ _ Hasc Hin
                      (proj2 (list_elem_of_singleton _ _) eq_refl)) as Hlt.
        simpl in Hlt. lia.
      * apply list_elem_of_singleton in Hin. injection Hin as -> _. lia.
    + intros Hin.
      assert (Hlt : next < c).
      { assert (H0 : (next, ping) ∈ front ++ [(next, ping)]).
        { apply elem_of_app. right. by apply list_elem_of_singleton. }
        apply (StronglySorted_app_1_elem_of _ _ _ _ _ Hasc H0 Hin). }
      assert (Hall : (c, v) ∈ matching_last_pings prev min_last_ping max_last_ping db).
      { rewrite Hsplit. apply elem_of_app. by right. }
      apply matching_last_pings_elem in Hall as (r & Hr & _ & Hrange & ->).
      by exists r.
Qed.

Lemma last_pings_fold (rows : list (Z * option Z)) :
  forall acc : option ClientID * gmap ClientID (option RDFDatetime),
    foldl (fun (acc : option ClientID * gmap ClientID (option RDFDatetime))
               (row : Z * option Z) =>
             (Some (IntToClientID row.1),
              <[IntToClientID row.1 := TimestampToRDFDatetime row.2]> acc.2))
          acc rows
    = (match last rows with Some row => Some row.1 | None => acc.1 end,
       py_dict_update acc.2 rows).
Proof.
  induction rows as [|row rows IH] using rev_ind; intros acc; [by destruct acc|].
  rewrite foldl_app, last_snoc, IH. simpl. unfold py_dict_update.
  by rewrite foldl_app.
Qed.

Lemma py_dict_size {K V} `{Countable K} (pairs : list (K * V)) :
  NoDup (map fst pairs) -> size (py_dict pairs) = length pairs.
Proof.
  intros Hnd. rewrite <- length_map_to_list. by apply py_dict_length.
Qed.

Lemma ReadClientLastPings_loop_pages
    (min_last_ping max_last_ping : option RDFDatetime) (batch_size : Z) (db : DB)
    (n : nat) :
  0 < batch_size ->
  forall prev,
    length (matching_last_pings prev min_last_ping max_last_ping db) = n ->
    exists pages : list (list (Z * option Z)),
      ReadClientLastPings_loop min_last_ping max_last_ping batch_size (Some prev) db
      = (db, mkGenerated (map py_dict pages) (Return tt))
      /\ concat pages = matching_last_pings prev min_last_ping max_last_ping db
      /\ forall i page,
          pages !! i = Some page ->
          (0 < length page <= Z.to_nat batch_size)%nat
          /\ (S i < length pages -> length page = Z.to_nat batch_size)%nat.
Proof.
  intros Hpos. induction n as [n IH] using lt_wf_ind. intros prev Hn.
  rewrite ReadClientLastPings_loop_round.
  unfold _ReadClientLastPings. py_unfold. simpl.
  rewrite (bool_decide_eq_false_2 (batch_size < 0)) by lia.
  rewrite last_pings_fold. simpl. unfold select_last_pings, ClientIDToInt.
  set (M := matching_last_pings prev min_last_ping max_last_ping db) in *.
  assert (Hasc : ascending M) by apply matching_last_pings_ascending.
  assert (Hsize : size (py_dict_update (∅ : gmap ClientID (option RDFDatetime))
                          (take (Z.to_nat batch_size) M))
                  = length (take (Z.to_nat batch_size) M)).
  { apply (py_dict_size (take (Z.to_nat batch_size) M)).
    apply ascending_NoDup. unfold ascending in *.
    rewrite <- (take_drop (Z.to_nat batch_size) M) in Hasc.
    by apply StronglySorted_app_1_l in Hasc. }
  rewrite Hsize, length_take.
  destruct (decide (length M < Z.to_nat batch_size)%nat) as [Hshort|Hfull].
  - rewrite bool_decide_eq_true_2 by lia.
    rewrite take_ge by lia.
    destruct M as [|row M'] eqn:HM.
    + exists []. split; [reflexivity|]. split; [reflexivity|].
      intros i page Hi. destruct i; discriminate.
    + exists [row :: M']. split.
      { unfold yield_if_any. rewrite bool_decide_eq_false_2; [reflexivity|].
        intros Hempty. fold (py_dict (row :: M')) in Hempty.
        assert (Hs : size (py_dict (row :: M')) = length (row :: M')).
        { apply py_dict_size. by apply ascending_NoDup. }
        rewrite Hempty, map_size_empty in Hs. discriminate. }
      split; [simpl; by rewrite app_nil_r|].
      intros [|i] page Hi; [|destruct i; discriminate].
      injection Hi as <-. simpl in *. split; lia.
  - rewrite bool_decide_eq_false_2 by lia.
    assert (Hlen : length (take (Z.to_nat batch_size) M) = Z.to_nat batch_size)
      by (rewrite length_take; lia).
    destruct (last (take (Z.to_nat batch_size) M)) as [[next ping]|] eqn:Hlast.
    2:{ apply last_None in Hlast. rewrite Hlast in Hlen. simpl in Hlen. lia. }
    apply last_Some in Hlast as [front Hfront].
    assert (Hnext : matching_last_pings next min_last_ping max_last_ping db
                    = drop (Z.to_nat batch_size) M).
    { apply (matching_last_pings_next prev next ping _ _ _ front).
      fold M. by rewrite <- Hfront, take_drop. }
    destruct (IH (length (drop (Z.to_nat batch_size) M))) with (prev := next)
      as (pages & Hloop & Hconcat & Hpages).
    { rewrite length_drop. lia. }
    { by rewrite Hnext. }
    simpl. rewrite Hloop.
    exists (take (Z.to_nat batch_size) M :: pages). split.
    { unfold yield_if_any. rewrite bool_decide_eq_false_2; [reflexivity|].
      intros Hempty. rewrite Hempty, map_size_empty in Hsize. lia. }
    split.
    { simpl. by rewrite Hconcat, Hnext, take_drop. }
    intros [|i] page Hi.
    + injection Hi as <-. lia.
    + simpl in Hi. destruct (Hpages i page Hi) as [H1 H2]. split; [done|].
      simpl. intros Hlt. apply H2. lia.
Qed.

(** X27.  With a positive batch size ReadClientLastPings ends normally and
    reads nothing twice: its pages, one after the other, hold in ascending
    order of client id exactly the clients whose integer id is above 0 and
    whose last_ping passes the filter, each once and with its last_ping.  A
    client that never pinged fails a min_last_ping filter and passes a
    max_last_ping filter.  Every page that is yielded has at least one and at
    most batch_size entries, and every page but the last has batch_size. *)
Theorem ReadClientLastPings_pages `{Ext : Externals}
    (min_last_ping max_last_ping : option RDFDatetime) (batch_size : Z) (db : DB) :
  0 < batch_size ->
  exists pages : list (list (Z * option Z)),
    ReadClientLastPings min_last_ping max_last_ping (Some batch_size) db
    = (db, mkGenerated (map py_dict pages) (Return tt))
    /\ ascending (concat pages)
    /\ (forall c ping,
          (c, ping) ∈ concat pages
          <-> exists r, clients db !! c = Some r /\ 0 < c
                        /\ ping_in_range min_last_ping max_last_ping r = true
                        /\ ping = last_ping r)
    /\ forall i page,
        pages !! i = Some page ->
        (0 < length page <= Z.to_nat batch_size)%nat
        /\ (S i < length pages -> length page = Z.to_nat batch_size)%nat.
Proof.
  intros Hpos.
  destruct (ReadClientLastPings_loop_pages min_last_ping max_last_ping batch_size db
              _ Hpos 0 eq_refl) as (pages & Hloop & Hconcat & Hpages).
  exists pages. unfold ReadClientLastPings. simpl. split; [exact Hloop|].
  rewrite Hconcat. split; [apply matching_last_pings_ascending|].
  split; [|exact Hpages].
  intros c ping. apply matching_last_pings_elem.
Qed.

(** The example store, read in pages of two. *)
Lemma ReadClientLastPings_pages_witness :
  exists pages : list (list (Z * option Z)),
    ReadClientLastPings (Ext := example_externals) None None (Some 2) example_db
    = (example_db, mkGenerated (map py_dict pages) (Return tt))
    /\ ascending (concat pages)
    /\ (7, Some 100) ∈ concat pages.
Proof.
  destruct (ReadClientLastPings_pages (Ext := example_externals) None None 2 example_db)
    as (pages & Hpages & Hasc & Hmem & _).
  - lia.
  - exists pages. split_and!; [exact Hpages|exact Hasc|].
    apply Hmem. eexists. split; [vm_compute; reflexivity|].
    split; [lia|]. split; reflexivity.
Defined.

(** ** Fleet statistics: the buckets are cumulative *)

Lemma filter_length_mono {A} (P Q : A -> bool) (l : list A) :
  (forall x, P x = true -> Q x = true) ->
  (length (List.filter P l) <= length (List.filter Q l))%nat.
Proof.
  intros Himp. induction l as [|x l IH]; simpl; [lia|].
  destruct (P x) eqn:HP.
  - rewrite (Himp x HP). simpl. lia.
  - destruct (Q x); simpl; lia.
Qed.

Lemma flat_map_filter_length_mono {A B} (f : A -> list B) (P Q : A -> bool)
    (l : list A) :
  (forall x, P x = true -> Q x = true) ->
  (length (flat_map f (List.filter P l)) <= length (flat_map f (List.filter Q l)))%nat.
Proof.
  intros Himp. induction l as [|x l IH]; simpl; [lia|].
  destruct (P x) eqn:HP.
  - rewrite (Himp x HP). simpl. rewrite !length_app. lia.
  - destruct (Q x); simpl; [rewrite length_app|]; lia.
Qed.

Lemma client_active_mono (cutoff1 cutoff2 : Z) (r : ClientRow) :
  cutoff2 <= cutoff1 ->
  client_active cutoff1 r = true -> client_active cutoff2 r = true.
Proof.
  intros Hle. unfold client_active. destruct (last_ping r) as [ping|]; [|done].
  rewrite !bool_decide_eq_true. lia.
Qed.

Lemma cell_default_mono (a b : Z) :
  a <= b -> default 0 (cell a) <= default 0 (cell b).
Proof.
  intros Hle. unfold cell. repeat case_bool_decide; simpl; lia.
Qed.

Lemma _CountClientStatisticByLabel_cumulative (now : RDFDatetime)
    (statistic : ClientRow -> option string) (day_buckets : gset Z) (db : DB)
    (d1 d2 : Z) (value : option string) (label : string) :
  d1 ∈ day_buckets -> d2 ∈ day_buckets -> d1 <= d2 ->
  let stats := _CountClientStatisticByLabel now statistic day_buckets db in
  default 0 (total_counts stats !! (value, d1))
  <= default 0 (total_counts stats !! (value, d2))
  /\ default 0 (label_counts stats !! (label, value, d1))
     <= default 0 (label_counts stats !! (label, value, d2)).
Proof.
  intros H1 H2 Hle stats.
  destruct (_CountClientStatisticByLabel_cells now statistic day_buckets db d1 value
              label H1) as [Ht1 Hl1].
  destruct (_CountClientStatisticByLabel_cells now statistic day_buckets db d2 value
              label H2) as [Ht2 Hl2].
  subst stats. rewrite Ht1, Ht2, Hl1, Hl2.
  assert (Hcut : bucket_cutoff now d2 <= bucket_cutoff now d1).
  { unfold bucket_cutoff, RDFDatetimeToTimestamp, DAYS. lia. }
  assert (Himp : forall kv : Z * ClientRow,
             client_active (bucket_cutoff now d1) kv.2
             && bool_decide (statistic kv.2 = value) = true ->
             client_active (bucket_cutoff now d2) kv.2
             && bool_decide (statistic kv.2 = value) = true).
  { intros kv. rewrite !andb_true_iff. intros [Ha Hv]. split; [|done].
    by eapply client_active_mono. }
  split; apply cell_default_mono; unfold fleet_total, fleet_label, active_clients.
  - apply inj_le. by apply filter_length_mono.
  - apply inj_le. by apply flat_map_filter_length_mono.
Qed.

(** X28.  The day buckets of the fleet statistics are cumulative: for two
    requested buckets the count of the smaller one (a missing cell counting
    as 0) is at most the count of the larger one, fleet-wide and under every
    label, for each of the three statistics.  A cell that is present holds a
    positive count. *)
Theorem fleet_statistics_are_cumulative
    (count : RDFDatetime -> gset Z -> DB -> FleetStats)
    (statistic : ClientRow -> option string)
    (now : RDFDatetime) (day_buckets : gset Z) (db : DB)
    (d1 d2 : Z) (value : option string) (label : string) :
  (count, statistic) ∈ statistic_methods ->
  d1 ∈ day_buckets -> d2 ∈ day_buckets -> d1 <= d2 ->
  let stats := count now day_buckets db in
  default 0 (total_counts stats !! (value, d1))
  <= default 0 (total_counts stats !! (value, d2))
  /\ default 0 (label_counts stats !! (label, value, d1))
     <= default 0 (label_counts stats !! (label, value, d2))
  /\ (forall n, total_counts stats !! (value, d1) = Some n -> 0 < n)
  /\ (forall n, label_counts stats !! (label, value, d1) = Some n -> 0 < n).
Proof.
  intros Hmethod H1 H2 Hle. unfold statistic_methods in Hmethod.
  assert (Hgen : let stats := _CountClientStatisticByLabel now statistic day_buckets db in
                 default 0 (total_counts stats !! (value, d1))
                 <= default 0 (total_counts stats !! (value, d2))
                 /\ default 0 (label_counts stats !! (label, value, d1))
                    <= default 0 (label_counts stats !! (label, value, d2))
                 /\ (forall n, total_counts stats !! (value, d1) = Some n -> 0 < n)
                 /\ (forall n, label_counts stats !! (label, value, d1) = Some n -> 0 < n)).
  { intros stats.
    destruct (_CountClientStatisticByLabel_cumulative now statistic day_buckets db
                d1 d2 value label H1 H2 Hle) as [Ht Hl].
    destruct (_CountClientStatisticByLabel_cells now statistic day_buckets db d1 value
                label H1) as [Ht1 Hl1].
    split; [exact Ht|]. split; [exact Hl|]. subst stats. rewrite Ht1, Hl1.
    unfold cell. split; intros n; case_bool_decide; intros [= <-]; lia. }
  repeat (apply elem_of_cons in Hmethod as [[= -> ->] | Hmethod]; [exact Hgen|]).
  by apply elem_of_nil in Hmethod.
Qed.

(** Client 7 was last seen at time 100: with now = 150 + 1 day it is active
    within 7 days but not within 1 day. *)
Lemma fleet_statistics_are_cumulative_witness :
  let stats := CountClientPlatformsByLabel (150 + DAYS) {[1; 7]} example_labelled_db in
  default 0 (total_counts stats !! (Some "Linux"%string, 1))
  <= default 0 (total_counts stats !! (Some "Linux"%string, 7)).
Proof.
  intros stats.
  destruct (fleet_statistics_are_cumulative
              CountClientPlatformsByLabel last_platform (150 + DAYS) {[1; 7]}
              example_labelled_db 1 7 (Some "Linux"%string) "prod"%string)
    as [Htotal _].
  - apply elem_of_cons. right. apply elem_of_cons. left. reflexivity.
  - apply elem_of_union. left. apply elem_of_singleton. reflexivity.
  - apply elem_of_union. right. apply elem_of_singleton. reflexivity.
  - lia.
  - exact Htotal.
Defined.

(** ** Reading the stats that a purge has left *)

Lemma filter_filter_and {A} (P Q : A -> bool) (l : list A) :
  List.filter P (List.filter Q l) = List.filter (fun x => P x && Q x) l.
Proof.
  induction l as [|x l IH]; [reflexivity|]. simpl.
  destruct (Q x); simpl; [|by rewrite andb_false_r].
  rewrite andb_true_r. destruct (P x); by rewrite IH.
Qed.

Lemma stats_time_le_total : Total stats_time_le.
Proof. intros a b. unfold stats_time_le. lia. Qed.

(** X29.  After a purge with a positive batch size, ReadClientStats over a
    range returns what it returned before the purge over the part of the
    range that starts at the cutoff: the samples of the client whose time is
    in the range and not before the cutoff, in ascending order of time. *)
Theorem DeleteOldClientStats_then_ReadClientStats `{Ext : Externals}
    (cutoff_time batch_size : Z) (client_id : ClientID)
    (min_timestamp max_timestamp : RDFDatetime) (db : DB) :
  0 < batch_size ->
  let db' := (DeleteOldClientStats cutoff_time (Some batch_size) db).1 in
  exists rows,
    ReadClientStats client_id min_timestamp max_timestamp db'
    = (db', Return (map (fun r => ClientStats_FromSerializedBytes (stats_payload r)) rows))
    /\ ReadClientStats client_id (Z.max min_timestamp cutoff_time) max_timestamp db
       = (db, Return (map (fun r => ClientStats_FromSerializedBytes (stats_payload r)) rows))
    /\ Sorted stats_time_le rows
    /\ forall r,
        r ∈ rows
        <-> r ∈ client_stats db
            /\ stats_client_id r = ClientIDToInt client_id
            /\ min_timestamp <= stats_timestamp r <= max_timestamp
            /\ cutoff_time <= stats_timestamp r.
Proof.
  intros Hpos db'. subst db'.
  rewrite DeleteOldClientStats_final_table by done.
  set (sel := fun r => bool_decide (stats_client_id r = ClientIDToInt client_id)
                       && bool_decide (Z.max min_timestamp cutoff_time
                                       <= stats_timestamp r <= max_timestamp)).
  exists (merge_sort stats_time_le (List.filter sel (client_stats db))).
  assert (Hsel : List.filter
                   (fun r => bool_decide (stats_client_id r = ClientIDToInt client_id)
                             && bool_decide (min_timestamp <= stats_timestamp r
                                             <= max_timestamp))
                   (List.filter (fun r => bool_decide (cutoff_time <= stats_timestamp r))
                      (client_stats db))
                 = List.filter sel (client_stats db)).
  { rewrite filter_filter_and. apply List.filter_ext. intros r. subst sel. simpl.
    destruct (bool_decide (stats_client_id r = ClientIDToInt client_id)); simpl; [|done].
    repeat case_bool_decide; try reflexivity; lia. }
  split_and!.
  - unfold ReadClientStats. py_unfold. simpl. unfold select_stats. simpl.
    unfold RDFDatetimeToTimestamp. rewrite Hsel. by rewrite map_map.
  - unfold ReadClientStats. py_unfold. simpl. unfold select_stats.
    unfold RDFDatetimeToTimestamp. by rewrite map_map.
  - apply Sorted_merge_sort, stats_time_le_total.
  - intros r. rewrite merge_sort_Permutation, list_elem_of_In, filter_In.
    rewrite <- list_elem_of_In. subst sel. simpl.
    rewrite andb_true_iff, !bool_decide_eq_true. split.
    + intros (Hr & Hc & Ht). split_and!; [done|done|lia|lia|lia].
    + intros (Hr & Hc & Ht & Hcut). split_and!; [done|done|lia|lia].
Qed.

(** The example stats table purged at cutoff 4, then read from time 2. *)
Lemma DeleteOldClientStats_then_ReadClientStats_witness :
  exists rows,
    ReadClientStats (Ext := example_externals) 7 2 30
      (DeleteOldClientStats (Ext := example_externals) 4 (Some 2) example_stats_db).1
    = ((DeleteOldClientStats (Ext := example_externals) 4 (Some 2) example_stats_db).1,
       Return (map (fun r => rdf_client_stats.mkClientStats (stats_payload r) None) rows))
    /\ Sorted stats_time_le rows
    /\ mkStatsRow 7 30 "c" ∈ rows
    /\ (mkStatsRow 7 3 "d" ∉ rows).
Proof.
  destruct (DeleteOldClientStats_then_ReadClientStats (Ext := example_externals)
              4 2 7 2 30 example_stats_db) as (rows & Hread & _ & Hsorted & Hmem).
  - lia.
  - exists rows. split_and!; [exact Hread|exact Hsorted| |].
    + apply Hmem. split_and!; [|reflexivity|simpl; lia|simpl; lia|simpl; lia].
      simpl. rewrite !elem_of_cons. right. right. left. reflexivity.
    + intros Hin. apply Hmem in Hin as (_ & _ & _ & Hcut). simpl in Hcut. lia.
Defined.

(** ** The bulk snapshot writer, then the history reader *)

Lemma row_pointers_ok_set_snapshot (db : DB) (cid ts : Z) (r : ClientRow) :
  is_Some (client_snapshot_history db !! (cid, ts)) ->
  row_pointers_ok db cid r (assign_all [set_last_snapshot_timestamp (Some ts)] r) = true.
Proof.
  intros Hrow. unfold row_pointers_ok, assign_all. destruct r. simpl.
  rewrite !pointer_ok_same. simpl.
  by rewrite (bool_decide_eq_true_2 (is_Some _)), orb_true_r.
Qed.

(** A guarded pointer update whose target row exists succeeds and touches
    only the client table, where it keeps the row of the client. *)
Lemma sql_update_pointer_succeeds (cid : Z) (guard : ClientRow -> bool)
    (asg : list Assign) (db : DB) (r : ClientRow) :
  clients db !! cid = Some r ->
  row_pointers_ok db cid r (assign_all asg r) = true ->
  exists cl,
    sql_update_client cid guard asg db = inl (with_clients (fun _ => cl) db)
    /\ is_Some (cl !! cid).
Proof.
  intros Hr Hok. unfold sql_update_client. rewrite Hr.
  destruct (guard r).
  - rewrite Hok. eexists. split; [reflexivity|]. rewrite lookup_insert_eq. eauto.
  - exists (clients db). split; [by destruct db|]. rewrite Hr. eauto.
Qed.

Lemma WriteClientSnapshotHistory_step_returns `{Ext : Externals}
    (cid : Z) (i : nat) (client : rdf_objects.ClientSnapshot) (ts : Z)
    (startup_info : rdf_client.StartupInfo)
    (cs : list rdf_objects.ClientSnapshot) (db : DB) :
  cs !! i = Some client ->
  rdf_objects.startup_info client = Some startup_info ->
  is_Some (clients db !! cid) ->
  client_snapshot_history db !! (cid, ts) = None ->
  client_startup_history db !! (cid, ts) = None ->
  WriteClientSnapshotHistory_step cid i client ts (cs, db)
  = ((cs, with_startup_history
            (insert (cid, ts) (StartupInfo_SerializeToBytes startup_info))
            (with_snapshot_history
               (insert (cid, ts)
                  (ClientSnapshot_SerializeToBytes (set_startup_info None client)))
               db)),
     Return tt).
Proof.
  intros Hi Hsi [r Hr] Hsnap Hstart.
  unfold WriteClientSnapshotHistory_step, serialize_startup. py_unfold. simpl.
  rewrite Hsi. simpl.
  unfold insert_snapshot_history, sql_insert_history. rewrite Hr, Hsnap. simpl.
  unfold insert_startup_history, sql_insert_history. simpl. rewrite Hr, Hstart. simpl.
  rewrite list_insert_insert_eq, list_insert_id by done. reflexivity.
Qed.

Lemma WriteClientSnapshotHistory_loop_returns `{Ext : Externals}
    (cid : Z) (cs : list rdf_objects.ClientSnapshot) :
  forall (rest seen : list rdf_objects.ClientSnapshot) (tsuf : list Z) (db : DB),
    cs = seen ++ rest ->
    Forall2 (fun c t => rdf_objects.timestamp c = Some t) rest tsuf ->
    Forall (fun c => is_Some (rdf_objects.startup_info c)) rest ->
    NoDup tsuf ->
    is_Some (clients db !! cid) ->
    (forall t, t ∈ tsuf ->
               client_snapshot_history db !! (cid, t) = None
               /\ client_startup_history db !! (cid, t) = None) ->
    exists db',
      for_each (zip (seq (length seen) (length rest)) (zip rest tsuf))
        (fun '(i, (client, t)) =>
           WriteClientSnapshotHistory_step cid i client (RDFDatetimeToTimestamp t))
        (cs, db)
      = ((cs, db'), Return tt)
      /\ clients db' = clients db
      /\ (forall c t startup_info,
            c ∈ rest -> rdf_objects.timestamp c = Some t ->
            rdf_objects.startup_info c = Some startup_info ->
            client_snapshot_history db' !! (cid, t)
            = Some (ClientSnapshot_SerializeToBytes (set_startup_info None c))
            /\ client_startup_history db' !! (cid, t)
               = Some (StartupInfo_SerializeToBytes startup_info))
      /\ (forall k v, client_snapshot_history db !! k = Some v ->
                      client_snapshot_history db' !! k = Some v)
      /\ (forall k v, client_startup_history db !! k = Some v ->
                      client_startup_history db' !! k = Some v).
Proof.
  induction rest as [|c rest IH]; intros seen tsuf db Hcs Hts Hsi Hnd Hknown Hfresh.
  - exists db. split; [reflexivity|]. split; [done|]. split; [|done].
    intros c t si Hc. by apply elem_of_nil in Hc.
  - apply Forall2_cons_inv_l in Hts as (t & tsuf' & Ht & Hts & ->).
    apply Forall_cons in Hsi as [[si Hsic] Hsi].
    apply NoDup_cons in Hnd as [Htnew Hnd].
    destruct (Hfresh t) as [Hsnap Hstart]; [by left|].
    simpl. unfold for_each; fold (@for_each (list rdf_objects.ClientSnapshot * DB)).
    unfold bind at 1.
    rewrite (WriteClientSnapshotHistory_step_returns cid (length seen) c t si cs db);
      try done.
    2:{ rewrite Hcs. by rewrite list_lookup_middle. }
    set (db1 := with_startup_history
                  (insert (cid, t) (StartupInfo_SerializeToBytes si))
                  (with_snapshot_history
                     (insert (cid, t)
                        (ClientSnapshot_SerializeToBytes (set_startup_info None c)))
                     db)).
    destruct (IH (seen ++ [c]) tsuf' db1) as (db' & Hloop & Hcl & Hnew & Hks & Hkt).
    + by rewrite <- app_assoc.
    + done.
    + done.
    + done.
    + done.
    + intros t' Ht'. destruct (Hfresh t') as [H1 H2]; [by right|].
      subst db1. simpl. rewrite !lookup_insert_ne by (intros [= ->]; done). done.
    + rewrite length_app in Hloop. simpl in Hloop.
      rewrite Nat.add_1_r in Hloop. rewrite Hloop.
      exists db'. split; [reflexivity|]. split; [by rewrite Hcl|]. split; [|split].
      * intros c' t' si' Hc' Ht'c Hsi'. apply elem_of_cons in Hc' as [->|Hc'].
        -- rewrite Ht in Ht'c. injection Ht'c as <-.
           rewrite Hsic in Hsi'. injection Hsi' as <-.
           split; [apply Hks|apply Hkt]; subst db1; simpl; by rewrite lookup_insert_eq.
        -- by eapply Hnew.
      * intros k v Hk. apply Hks. subst db1. simpl.
        rewrite lookup_insert_ne; [done|]. intros <-. congruence.
      * intros k v Hk. apply Hkt. subst db1. simpl.
        rewrite lookup_insert_ne; [done|]. intros <-. congruence.
Qed.

Lemma WriteClientSnapshotHistory_succeeds `{Ext : Externals}
    (c0 : rdf_objects.ClientSnapshot) (others : list rdf_objects.ClientSnapshot)
    (db : DB) :
  let cs := c0 :: others in
  let cid := ClientIDToInt (rdf_objects.client_id c0) in
  is_Some (clients db !! cid) ->
  Forall (fun c => is_Some (rdf_objects.timestamp c)
                   /\ is_Some (rdf_objects.startup_info c)) cs ->
  NoDup (map rdf_objects.timestamp cs) ->
  (forall c t, c ∈ cs -> rdf_objects.timestamp c = Some t ->
               client_snapshot_history db !! (cid, t) = None
               /\ client_startup_history db !! (cid, t) = None) ->
  exists db',
    WriteClientSnapshotHistory (cs, db) = ((cs, db'), Return tt)
    /\ forall c t startup_info,
        c ∈ cs -> rdf_objects.timestamp c = Some t ->
        rdf_objects.startup_info c = Some startup_info ->
        client_snapshot_history db' !! (cid, t)
        = Some (ClientSnapshot_SerializeToBytes (set_startup_info None c))
        /\ client_startup_history db' !! (cid, t)
           = Some (StartupInfo_SerializeToBytes startup_info).
Proof.
  intros cs cid Hknown Hall Hnd Hfresh.
  assert (Htss : exists tss, snapshot_timestamps cs = Some tss).
  { apply mapM_is_Some. eapply Forall_impl; [exact Hall|]. by intros c [H _]. }
  destruct Htss as [tss Htss].
  assert (Hf2 : Forall2 (fun c t => rdf_objects.timestamp c = Some t) cs tss).
  { by apply mapM_Some. }
  destruct tss as [|t0 ts]; [by apply Forall2_nil_inv_r in Hf2|].
  assert (Hnd' : NoDup (t0 :: ts)).
  { apply (NoDup_fmap_1 Some).
    replace (Some <$> t0 :: ts) with (map rdf_objects.timestamp cs); [done|].
    clear -Hf2. induction Hf2 as [|c t cs' ts' Hc _ IH]; [reflexivity|].
    simpl. by rewrite Hc, IH. }
  destruct (WriteClientSnapshotHistory_loop_returns cid cs cs [] (t0 :: ts) db)
    as (db1 & Hloop & Hcl & Hnew & _ & _); try done.
  { eapply Forall_impl; [exact Hall|]. by intros c [_ H]. }
  { intros t Ht. apply list_elem_of_lookup in Ht as [i Hi].
    destruct (Forall2_lookup_r _ _ _ _ _ Hf2 Hi) as (c & Hc & Hct).
    eapply Hfresh; [|exact Hct]. by eapply list_elem_of_lookup_2. }
  assert (Hlatest : exists c si,
             c ∈ cs /\ rdf_objects.timestamp c = Some (max_timestamp t0 ts)
             /\ rdf_objects.startup_info c = Some si).
  { pose proof (max_timestamp_elem t0 ts) as Hin.
    apply list_elem_of_lookup in Hin as [i Hi].
    destruct (Forall2_lookup_r _ _ _ _ _ Hf2 Hi) as (c & Hc & Hct).
    assert (Hcin : c ∈ cs) by (by eapply list_elem_of_lookup_2).
    destruct (proj1 (Forall_forall _ _) Hall c Hcin) as [_ [si Hsi]].
    by exists c, si. }
  destruct Hlatest as (cl & sil & Hclin & Hclt & Hclsi).
  destruct (Hnew cl _ sil Hclin Hclt Hclsi) as [Hsnap Hstart].
  destruct Hknown as [r Hr].
  destruct (sql_update_pointer_succeeds cid
              (pointer_older last_snapshot_timestamp (max_timestamp t0 ts))
              [set_last_snapshot_timestamp (Some (max_timestamp t0 ts))] db1 r)
    as (cl1 & Hupd1 & [r1 Hr1]).
  { by rewrite Hcl. }
  { apply row_pointers_ok_set_snapshot. rewrite Hsnap. eauto. }
  destruct (sql_update_pointer_succeeds cid
              (pointer_older last_startup_timestamp (max_timestamp t0 ts))
              [set_last_startup_timestamp (Some (max_timestamp t0 ts))]
              (with_clients (fun _ => cl1) db1) r1)
    as (cl2 & Hupd2 & _).
  { done. }
  { apply row_pointers_ok_set_startup. simpl. rewrite Hstart. eauto. }
  exists (with_clients (fun _ => cl2) (with_clients (fun _ => cl1) db1)). split.
  - unfold WriteClientSnapshotHistory. py_unfold. simpl.
    subst cs. rewrite Htss. simpl in Hloop. simpl.
    unfold RDFDatetimeToTimestamp in *. fold cid.
    rewrite Hloop. simpl. rewrite Hupd1. simpl. rewrite Hupd2. reflexivity.
  - intros c t si Hc Ht Hsi. simpl. by eapply Hnew.
Qed.

(** X30.  WriteClientSnapshotHistory of a batch for a known client, whose
    snapshots all carry a timestamp and a startup info, at pairwise different
    times at which the client has no record yet, returns and leaves the
    caller's list as it was.  Every snapshot of the batch is filed under the
    client id of the first one, and ReadClientSnapshotHistory of that client
    returns each of them, decoded from what was stored without the
    startup_info, with its startup info and its timestamp put back. *)
Theorem WriteClientSnapshotHistory_then_ReadClientSnapshotHistory `{Ext : Externals}
    (c0 : rdf_objects.ClientSnapshot) (others : list rdf_objects.ClientSnapshot)
    (db : DB) :
  let cs := c0 :: others in
  let cid := ClientIDToInt (rdf_objects.client_id c0) in
  is_Some (clients db !! cid) ->
  Forall (fun c => is_Some (rdf_objects.timestamp c)
                   /\ is_Some (rdf_objects.startup_info c)) cs ->
  NoDup (map rdf_objects.timestamp cs) ->
  (forall c t, c ∈ cs -> rdf_objects.timestamp c = Some t ->
               client_snapshot_history db !! (cid, t) = None
               /\ client_startup_history db !! (cid, t) = None) ->
  exists db' history,
    WriteClientSnapshotHistory (cs, db) = ((cs, db'), Return tt)
    /\ ReadClientSnapshotHistory (rdf_objects.client_id c0) None db'
       = (db', Return history)
    /\ forall c t startup_info,
        c ∈ cs -> rdf_objects.timestamp c = Some t ->
        rdf_objects.startup_info c = Some startup_info ->
        set_timestamp (Some t)
          (set_startup_info
             (Some (StartupInfo_FromSerializedBytes
                      (StartupInfo_SerializeToBytes startup_info)))
             (ClientSnapshot_FromSerializedBytes
                (ClientSnapshot_SerializeToBytes (set_startup_info None c))))
        ∈ history.
Proof.
  intros cs cid Hknown Hall Hnd Hfresh.
  destruct (WriteClientSnapshotHistory_succeeds c0 others db Hknown Hall Hnd Hfresh)
    as (db' & Hwrite & Hrows).
  exists db'. eexists. split; [exact Hwrite|]. split.
  - unfold ReadClientSnapshotHistory. py_unfold. simpl. reflexivity.
  - intros c t si Hc Ht Hsi. destruct (Hrows c t si Hc Ht Hsi) as [Hsnap Hstart].
    apply list_elem_of_fmap.
    exists (ClientSnapshot_SerializeToBytes (set_startup_info None c),
            StartupInfo_SerializeToBytes si, t).
    split; [reflexivity|].
    apply select_snapshot_history_elem. by split_and!.
Qed.

(** Two snapshots of client 7 of the example store, taken at times 5 and 6. *)
Lemma WriteClientSnapshotHistory_then_ReadClientSnapshotHistory_witness :
  exists db' history,
    WriteClientSnapshotHistory (Ext := example_externals)
      ([example_snapshot (Some 5); example_snapshot (Some 6)], example_db)
    = (([example_snapshot (Some 5); example_snapshot (Some 6)], db'), Return tt)
    /\ ReadClientSnapshotHistory (Ext := example_externals) 7 None db'
       = (db', Return history)
    /\ rdf_objects.mkClientSnapshot 0 EmptyString "snapshot"
         (Some (rdf_client.mkStartupInfo "startup" None)) (Some 5) ∈ history.
Proof.
  destruct (WriteClientSnapshotHistory_then_ReadClientSnapshotHistory
              (Ext := example_externals)
              (example_snapshot (Some 5)) [example_snapshot (Some 6)] example_db)
    as (db' & history & Hwrite & Hread & Hmem).
  - vm_compute. eauto.
  - repeat constructor; simpl; eauto.
  - apply (bool_decide_unpack _). vm_compute. exact I.
  - intros c t _ _. split; apply lookup_empty.
  - exists db', history. split; [exact Hwrite|]. split; [exact Hread|].
    apply (Hmem (example_snapshot (Some 5)) 5 (rdf_client.mkStartupInfo "startup" None));
      [apply elem_of_cons; by left|reflexivity|reflexivity].
Defined.
